(** * ragsno: the document ingestion and retrieval routes

    A shallow embedding of the three API routes of the repository:
    - the upload route  (text extraction, chunking, embedding, insertion),
    - the documents route (GET by id, DELETE by id),
    - the chat route (query embedding, similarity search, answer generation).

    The external collaborators (object storage, the row store, the embedding
    and generation services, the PDF and DOCX parsers, the JavaScript
    built-ins that can throw) are explicit: a record [Services] of oracles
    and a [World] that the handlers read and write.  Every call a handler
    makes to a collaborator is appended to the world's [log], so that
    statements of the form "X happens before Y" or "Z is never called" are
    statements about a list of events. *)

From Stdlib Require Import List String Ascii Arith Bool Lia.
From Stdlib Require Import DecimalString Sorted.
Import ListNotations.
Open Scope string_scope.

(** ** JavaScript strings

    Strings are [string]s of 8-bit code units; the operations below work on
    the list of code units and are the ASCII/Latin-1 restriction of the
    JavaScript methods of the same name. *)

Module Js.

Definition chars (s : string) : list ascii := list_ascii_of_string s.
Definition str (l : list ascii) : string := string_of_list_ascii l.

Fixpoint list_eqb (a b : list ascii) : bool :=
  match a, b with
  | [], [] => true
  | x :: a', y :: b' => Ascii.eqb x y && list_eqb a' b'
  | _, _ => false
  end.

(** [String.prototype.toLowerCase], on the letters A..Z. *)
Definition lower_char (c : ascii) : ascii :=
  let n := nat_of_ascii c in
  if ((65 <=? n) && (n <=? 90))%nat then ascii_of_nat (n + 32) else c.

Definition toLowerCase (s : string) : string := str (map lower_char (chars s)).

(** [s.endsWith(suffix)]. *)
Definition endsWith (s suffix : string) : bool :=
  let l := chars s in
  let k := chars suffix in
  (List.length k <=? List.length l)%nat
  && list_eqb (skipn (List.length l - List.length k) l) k.

Fixpoint starts_with (k l : list ascii) : bool :=
  match k, l with
  | [], _ => true
  | x :: k', y :: l' => Ascii.eqb x y && starts_with k' l'
  | _ :: _, [] => false
  end.

Fixpoint includes_chars (l k : list ascii) : bool :=
  starts_with k l ||
  match l with
  | [] => false
  | _ :: l' => includes_chars l' k
  end.

(** [s.includes(needle)]. *)
Definition includes (s needle : string) : bool :=
  includes_chars (chars s) (chars needle).

(** White space and line terminators that [trim] removes (those below 256):
    TAB, LF, VT, FF, CR, SPACE, NBSP. *)
Definition is_ws (c : ascii) : bool :=
  let n := nat_of_ascii c in
  (((9 <=? n) && (n <=? 13)) || (n =? 32) || (n =? 160))%nat.

Fixpoint dropWhile (p : ascii -> bool) (l : list ascii) : list ascii :=
  match l with
  | [] => []
  | c :: l' => if p c then dropWhile p l' else l
  end.

Fixpoint takeWhile (p : ascii -> bool) (l : list ascii) : list ascii :=
  match l with
  | [] => []
  | c :: l' => if p c then c :: takeWhile p l' else []
  end.

(** [s.trim()]. *)
Definition trim_chars (l : list ascii) : list ascii :=
  rev (dropWhile is_ws (rev (dropWhile is_ws l))).

Definition trim (s : string) : string := str (trim_chars (chars s)).

(** The text is empty or made of white space only. *)
Definition blank (s : string) : bool := forallb is_ws (chars s).

(** [s.split('.').pop()]: what follows the last dot, the whole string when
    there is none. *)
Definition after_last_dot (s : string) : string :=
  str (rev (takeWhile (fun c => negb (Ascii.eqb c ".")) (rev (chars s)))).

(** [a || b] on strings: the empty string is falsy. *)
Definition or_else (a b : string) : string :=
  if String.eqb a "" then b else a.

(** [s.replace(/%/g, '%25')]. *)
Fixpoint replace_percent_chars (l : list ascii) : list ascii :=
  match l with
  | [] => []
  | c :: l' =>
      if Ascii.eqb c "%"
      then "%"%char :: "2"%char :: "5"%char :: replace_percent_chars l'
      else c :: replace_percent_chars l'
  end.

Definition replace_percent (s : string) : string :=
  str (replace_percent_chars (chars s)).

(** [parts.join(sep)]. *)
Fixpoint join (sep : string) (parts : list string) : string :=
  match parts with
  | [] => ""
  | [p] => p
  | p :: rest => p ++ sep ++ join sep rest
  end.

(** A JSON number rendered as text, as [metadata->>'chunk_index'] and
    template literals render it. *)
Definition number_to_text (n : nat) : string :=
  NilZero.string_of_uint (Nat.to_uint n).

End Js.

(** ** Exceptions

    A JavaScript computation either returns a value or throws an [Error]
    with a message. *)

Inductive Exn (A : Type) : Type :=
| Return (a : A)
| Throw (message : string).
Arguments Return {A} a.
Arguments Throw {A} message.

Module ExnM.

Definition bind {A B} (m : Exn A) (k : A -> Exn B) : Exn B :=
  match m with
  | Return a => k a
  | Throw e => Throw e
  end.

(** [try { m } catch { h }] *)
Definition try_catch {A} (m : Exn A) (h : string -> Exn A) : Exn A :=
  match m with
  | Return a => Return a
  | Throw e => h e
  end.

Definition returns {A} (m : Exn A) : bool :=
  match m with
  | Return _ => true
  | Throw _ => false
  end.

End ExnM.

(** ** Data model *)

(** The bytes of a file. *)
Definition Buffer := string.

(** The uploaded [File] of the form data. *)
Record File : Type := {
  name : string;
  type : string;
  size : nat;
  bytes : Buffer
}.

(** The [metadata] object of a row of the [documents] table, as the upload
    route writes it.  [file_path] is optional: the DELETE handler tests for
    it. *)
Record Metadata : Type := {
  source : string;
  document_id : string;
  file_name : string;
  file_type : string;
  file_size : nat;
  upload_date : string;
  chunk_index : nat;
  total_chunks : nat;
  file_path : option string;
  file_url : string
}.

(** One row of the [documents] table; [embedding] is the JSON text of the
    vector. *)
Record Row : Type := {
  content : string;
  metadata : Metadata;
  embedding : string
}.

(** What pdf2json hands to the [pdfParser_dataReady] callback. *)
Record Run : Type := { T : string }.
Record TextItem : Type := { R : list Run }.
Record Page : Type := { Texts : list TextItem }.
Record PdfData : Type := { Pages : list Page }.

(** What becomes of the promise around the parser: the parser emits
    [pdfParser_dataError], it emits [pdfParser_dataReady], or the import,
    the constructor or [parseBuffer] throws, which rejects the promise with
    the error thrown. *)
Inductive PdfOutcome : Type :=
| DataError (parserError : string)
| DataReady (pdfData : PdfData)
| Thrown (message : string).

(** Requests to the row store. *)
Inductive DbOp : Type :=
| OpInsert (row : Row)
| OpSelect (id : string)
| OpDelete (id : string)
| OpMatch (query_embedding : string) (match_count : nat).

(** Calls to the collaborators, in the order they are made. *)
Inductive Event : Type :=
| EvArrayBuffer (fileName : string)
| EvStorageUpload (path : string)
| EvStorageRemove (path : string)
| EvPdfParse
| EvMammoth
| EvUtf8
| EvSplitText (text : string)
| EvEmbed (input : string)
| EvInsert (row : Row)
| EvSelect (id : string)
| EvDelete (id : string) (countDeleted : nat)
| EvMatch (query_embedding : string) (match_count : nat)
| EvCompletion (userMessage : string).

(** The state outside the handlers: the [documents] table in insertion
    order, the [documents] storage bucket, and the calls made so far. *)
Record World : Type := {
  rows : list Row;
  bucket : list (string * Buffer);
  log : list Event
}.

(** The collaborators.  An oracle that can fail says so in its result:
    [Throw] for the ones that throw or reject, [Some message] for the
    Supabase calls, which return [{ data, error }]. *)
Record Services : Type := {
  decodeURIComponent : string -> Exn string;
  pdf2json : Buffer -> PdfOutcome;
  mammoth : Buffer -> Exn string;
  utf8 : Buffer -> string;
  splitText : string -> list string;
  embeddings : string -> Exn string;
  upload_error : string -> Buffer -> option string;
  remove_error : string -> option string;
  publicUrl : string -> string;
  db_error : DbOp -> option string;
  match_documents : list Row -> string -> nat -> list Row;
  completions : string -> string -> Exn string
}.

(** The JSON bodies the routes send. *)
Inductive Body : Type :=
| ErrorOnly (error : string)
| Failure (error : string)
| Uploaded (documentId fileName : string) (chunks textLength : nat)
           (fileUrl : string)
| Document (id file_name file_type : string) (file_size : nat)
           (upload_date : string) (total_chunks : nat) (fullText : string)
           (file_url : string) (file_path : option string)
| Deleted (fileDeleted : bool)
| Answer (answer : string) (sources : list Row).

Record Response : Type := {
  status : nat;
  body : Body
}.

Definition json (st : nat) (b : Body) : Response :=
  {| status := st; body := b |}.

(** ** Handlers as state transformers that may throw *)

Definition M (A : Type) : Type := World -> Exn A * World.

Module MonadM.

Definition ret {A} (a : A) : M A := fun w => (Return a, w).

Definition throw {A} (message : string) : M A := fun w => (Throw message, w).

Definition bind {A B} (m : M A) (k : A -> M B) : M B :=
  fun w =>
    match m w with
    | (Return a, w') => k a w'
    | (Throw e, w') => (Throw e, w')
    end.

(** [try { m } catch (error) { h error.message }]: what [m] did to the
    world before it threw stays done. *)
Definition try_catch {A} (m : M A) (h : string -> M A) : M A :=
  fun w =>
    match m w with
    | (Return a, w') => (Return a, w')
    | (Throw e, w') => h e w'
    end.

(** A pure computation that may throw, run inside a handler. *)
Definition lift {A} (m : Exn A) : M A := fun w => (m, w).

Definition emit (e : Event) : M unit :=
  fun w =>
    (Return tt, {| rows := rows w; bucket := bucket w; log := log w ++ [e] |}).

End MonadM.

Import MonadM.

Declare Scope m_scope.
Delimit Scope m_scope with m.
Notation "x <- m ;; k" := (bind m (fun x => k))
  (at level 61, m at next level, right associativity) : m_scope.
Notation "m ;;; k" := (bind m (fun _ => k))
  (at level 61, right associativity) : m_scope.

Definition nl : string := String (ascii_of_nat 10) "".

(** ** The row store and the storage bucket *)

Module Store.

(** [.eq('metadata->>document_id', id)] *)
Definition has_document_id (id : string) (r : Row) : bool :=
  String.eqb (document_id (metadata r)) id.

(** The sort key of [.order('metadata->>chunk_index', { ascending: true })]:
    [->>] yields the JSON value as text, so rows compare by the decimal
    text of their chunk index. *)
Definition order_key (r : Row) : string :=
  Js.number_to_text (chunk_index (metadata r)).

Definition key_leb (a b : Row) : bool :=
  String.leb (order_key a) (order_key b).

Fixpoint insert_by_key (r : Row) (l : list Row) : list Row :=
  match l with
  | [] => [r]
  | x :: l' => if key_leb r x then r :: l else x :: insert_by_key r l'
  end.

(** Ascending order on the key; rows with equal keys keep their order. *)
Fixpoint order_by_key (l : list Row) : list Row :=
  match l with
  | [] => []
  | r :: l' => insert_by_key r (order_by_key l')
  end.

(** The chunks of a document as the GET handler asks for them. *)
Definition getByDocumentId (id : string) (table : list Row) : list Row :=
  order_by_key (filter (has_document_id id) table).

(** [.delete().eq('metadata->>document_id', id)]: how many rows go, and
    the table that is left. *)
Definition deleteByDocumentId (id : string) (table : list Row)
  : nat * list Row :=
  (List.length (filter (has_document_id id) table),
   filter (fun r => negb (has_document_id id r)) table).

Definition set_rows (t : list Row) (w : World) : World :=
  {| rows := t; bucket := bucket w; log := log w |}.

Definition set_bucket (b : list (string * Buffer)) (w : World) : World :=
  {| rows := rows w; bucket := b; log := log w |}.

(** [supabase.from('documents').insert(row)], giving back [error]. *)
Definition insert (sv : Services) (row : Row) : M (option string) :=
  (emit (EvInsert row) ;;;
   match db_error sv (OpInsert row) with
   | Some e => ret (Some e)
   | None => fun w => (Return None, set_rows (rows w ++ [row]) w)
   end)%m.

(** [.select(..).eq('metadata->>document_id', id).limit(1)], giving back
    [data]: [None] is the null of a failed request. *)
Definition select_first (sv : Services) (id : string)
  : M (option (list Row)) :=
  (emit (EvSelect id) ;;;
   match db_error sv (OpSelect id) with
   | Some _ => ret None
   | None => fun w => (Return (Some (firstn 1 (filter (has_document_id id) (rows w)))), w)
   end)%m.

(** [.select(..).eq(..).order('metadata->>chunk_index', ..)], giving back
    [{ data, error }]. *)
Definition select_ordered (sv : Services) (id : string)
  : M (option (list Row) * option string) :=
  (emit (EvSelect id) ;;;
   match db_error sv (OpSelect id) with
   | Some e => ret (None, Some e)
   | None => fun w => (Return (Some (getByDocumentId id (rows w)), None), w)
   end)%m.

(** [.delete().eq('metadata->>document_id', id)], giving back [error]. *)
Definition delete (sv : Services) (id : string) : M (option string) :=
  match db_error sv (OpDelete id) with
  | Some e => (emit (EvDelete id 0) ;;; ret (Some e))%m
  | None =>
      fun w =>
        let (n, t) := deleteByDocumentId id (rows w) in
        (emit (EvDelete id n) ;;; ret None)%m (set_rows t w)
  end.

(** [storage.from('documents').upload(path, buffer, { upsert: false })],
    giving back [error]. *)
Definition upload (sv : Services) (path : string) (buffer : Buffer)
  : M (option string) :=
  (emit (EvStorageUpload path) ;;;
   match upload_error sv path buffer with
   | Some e => ret (Some e)
   | None => fun w => (Return None, set_bucket (bucket w ++ [(path, buffer)]) w)
   end)%m.

(** The bucket after [remove([path])]: without the objects of that path
    when the storage carries the removal out, as it was when the storage
    refuses it. *)
Definition removed (sv : Services) (path : string)
    (b : list (string * Buffer)) : list (string * Buffer) :=
  match remove_error sv path with
  | Some _ => b
  | None => filter (fun o => negb (String.eqb (fst o) path)) b
  end.

(** [storage.from('documents').remove([path])]; its result, [data] or
    [error], is ignored by the caller. *)
Definition remove (sv : Services) (path : string) : M unit :=
  (emit (EvStorageRemove path) ;;;
   fun w => (Return tt, set_bucket (removed sv path (bucket w)) w))%m.

End Store.

(** ** The upload route *)

Module Upload.

(** [safeDecodeURIComponent] *)
Definition safeDecodeURIComponent (sv : Services) (str : string) : Exn string :=
  ExnM.try_catch
    (decodeURIComponent sv str)
    (fun _ =>
       ExnM.try_catch
         (decodeURIComponent sv (Js.replace_percent str))
         (fun _ => Return str)).

(** The body of the [pdfParser_dataReady] callback before the final trim:
    every run with a non-empty [T], decoded and followed by one space, in
    page order, then text order, then run order. *)
Fixpoint append_runs (sv : Services) (fullText : string) (rs : list Run)
  : Exn string :=
  match rs with
  | [] => Return fullText
  | r :: rs' =>
      if String.eqb (T r) "" then append_runs sv fullText rs'
      else
        ExnM.bind (safeDecodeURIComponent sv (T r))
          (fun d => append_runs sv (fullText ++ d ++ " ") rs')
  end.

Fixpoint append_texts (sv : Services) (fullText : string) (ts : list TextItem)
  : Exn string :=
  match ts with
  | [] => Return fullText
  | t :: ts' =>
      ExnM.bind (append_runs sv fullText (R t))
        (fun fullText' => append_texts sv fullText' ts')
  end.

Fixpoint append_pages (sv : Services) (fullText : string) (ps : list Page)
  : Exn string :=
  match ps with
  | [] => Return fullText
  | p :: ps' =>
      ExnM.bind (append_texts sv fullText (Texts p))
        (fun fullText' => append_pages sv fullText' ps')
  end.

Definition pdf_text (sv : Services) (pdfData : PdfData) : Exn string :=
  ExnM.try_catch
    (ExnM.bind (append_pages sv "" (Pages pdfData))
       (fun fullText => Return (Js.trim fullText)))
    (fun message => Throw ("Error extracting text: " ++ message)).

Definition arrayBuffer (file : File) : M Buffer :=
  (emit (EvArrayBuffer (name file)) ;;; ret (bytes file))%m.

Definition unsupported_message : string :=
  "Unsupported file type. Please upload a PDF, DOCX, or TXT file.".

(** [extractTextFromFile] *)
Definition extractTextFromFile (sv : Services) (file : File) : M string :=
  (buffer <- arrayBuffer file ;;
   let fileName := Js.toLowerCase (name file) in
   if Js.endsWith fileName ".pdf" then
     emit EvPdfParse ;;;
     match pdf2json sv buffer with
     | DataError parserError => throw ("Error parsing PDF: " ++ parserError)
     | DataReady pdfData => lift (pdf_text sv pdfData)
     | Thrown message => throw message
     end
   else if Js.endsWith fileName ".docx" then
     emit EvMammoth ;;;
     lift (ExnM.try_catch (mammoth sv buffer)
             (fun message => Throw ("Error extracting DOCX text: " ++ message)))
   else if Js.endsWith fileName ".txt" then
     emit EvUtf8 ;;;
     ret (utf8 sv buffer)
   else
     throw unsupported_message)%m.

(** The row the loop inserts for chunk [i]. *)
Definition chunk_row (sv : Services) (file : File)
    (documentId uploadDate filePath : string) (total i : nat)
    (chunk emb : string) : Row :=
  {| content := chunk;
     metadata :=
       {| source := name file;
          document_id := documentId;
          file_name := name file;
          file_type := Js.or_else (type file) (Js.after_last_dot (name file));
          file_size := size file;
          upload_date := uploadDate;
          chunk_index := i;
          total_chunks := total;
          file_path := Some filePath;
          file_url := publicUrl sv filePath |};
     embedding := emb |}.

(** [for (let i = 0; i < chunks.length; i++)], from index [i] on, over the
    chunks that are left; [Some response] is the early return. *)
Fixpoint embed_and_store (sv : Services) (file : File)
    (documentId uploadDate filePath : string) (total : nat)
    (chunks : list string) (i : nat) : M (option Response) :=
  match chunks with
  | [] => ret None
  | chunk :: rest =>
      (emit (EvEmbed chunk) ;;;
       emb <- lift (embeddings sv chunk) ;;
       error <- Store.insert sv
                  (chunk_row sv file documentId uploadDate filePath total i
                     chunk emb) ;;
       match error with
       | Some message => ret (Some (json 500 (Failure message)))
       | None =>
           embed_and_store sv file documentId uploadDate filePath total
             rest (S i)
       end)%m
  end.

Definition file_path_of (documentId : string) (file : File) : string :=
  documentId ++ "." ++ Js.or_else (Js.after_last_dot (name file)) "bin".

Definition empty_message : string := "Could not extract text from file".

(** [POST]: [documentId] and [uploadDate] are what [crypto.randomUUID()]
    and [new Date().toISOString()] return for this request, [file] is the
    [file] field of the form data. *)
Definition POST (sv : Services) (documentId uploadDate : string)
    (file : option File) : M Response :=
  try_catch
    (match file with
     | None => ret (json 400 (ErrorOnly "No file uploaded"))
     | Some file =>
         let filePath := file_path_of documentId file in
         (fileBuffer <- arrayBuffer file ;;
          storageError <- Store.upload sv filePath fileBuffer ;;
          match storageError with
          | Some message =>
              let msg := Js.or_else message "Unknown storage error" in
              if Js.includes msg "row-level security" || Js.includes msg "RLS"
              then ret (json 500 (Failure
                     ("Storage RLS error: " ++ msg
                      ++ ". Ensure SUPABASE_SERVICE_ROLE_KEY is set.")))
              else ret (json 500 (Failure ("Failed to store file: " ++ msg)))
          | None =>
              text <- extractTextFromFile sv file ;;
              if String.eqb text "" || (String.length (Js.trim text) =? 0)%nat
              then ret (json 400 (ErrorOnly empty_message))
              else
                emit (EvSplitText text) ;;;
                let chunks := splitText sv text in
                early <- embed_and_store sv file documentId uploadDate
                           filePath (List.length chunks) chunks 0 ;;
                match early with
                | Some response => ret response
                | None =>
                    ret (json 200
                           (Uploaded documentId (name file)
                              (List.length chunks) (String.length text)
                              (publicUrl sv filePath)))
                end
          end)%m
     end)
    (fun message =>
       ret (json 500 (Failure (Js.or_else message "Failed to process file")))).

End Upload.

(** ** The documents route *)

Module Documents.

(** [GET] with an [id] and without [file=true]: the branch that returns the
    text of one document.  [now] is [new Date().toISOString()]. *)
Definition GET (sv : Services) (now : string) (id : string) : M Response :=
  try_catch
    (sel <- Store.select_ordered sv id ;;
     match sel with
     | (Some (first :: more), None) =>
         let chunks := first :: more in
         let m := metadata first in
         ret (json 200
                (Document id
                   (Js.or_else (file_name m) "Unknown")
                   (Js.or_else (file_type m) "unknown")
                   (file_size m)
                   (Js.or_else (upload_date m) now)
                   (List.length chunks)
                   (Js.join (nl ++ nl) (map content chunks))
                   (file_url m)
                   (file_path m)))
     | _ => ret (json 404 (ErrorOnly "Document not found"))
     end)%m
    (fun message => ret (json 500 (ErrorOnly message))).

(** [docs?.[0]?.metadata?.file_path], kept only when truthy. *)
Definition first_file_path (docs : option (list Row)) : option string :=
  match docs with
  | Some (d :: _) =>
      match file_path (metadata d) with
      | Some p => if String.eqb p "" then None else Some p
      | None => None
      end
  | _ => None
  end.

(** [DELETE]: [id] is [searchParams.get('id')]. *)
Definition DELETE (sv : Services) (id : option string) : M Response :=
  try_catch
    (match id with
     | None => ret (json 400 (ErrorOnly "Document ID required"))
     | Some id =>
         if String.eqb id "" then
           ret (json 400 (ErrorOnly "Document ID required"))
         else
           (docs <- Store.select_first sv id ;;
            let filePath := first_file_path docs in
            match filePath with
            | Some p => Store.remove sv p
            | None => ret tt
            end ;;;
            error <- Store.delete sv id ;;
            match error with
            | Some message => ret (json 500 (ErrorOnly message))
            | None =>
                ret (json 200
                       (Deleted (match filePath with
                                 | Some _ => true
                                 | None => false
                                 end)))
            end)%m
     end)
    (fun message => ret (json 500 (ErrorOnly message))).

End Documents.

(** ** The chat route *)

Module Chat.

Definition MATCH_COUNT : nat := 5.

Definition system_message : string :=
  "You are a helpful assistant. Use the provided context to answer questions. If the answer is not in the context, say you do not know.".

(** [supabase.rpc('match_documents', ..)], giving back [{ data, error }]. *)
Definition rpc_match (sv : Services) (query_embedding : string)
  : M (list Row * option string) :=
  (emit (EvMatch query_embedding MATCH_COUNT) ;;;
   match db_error sv (OpMatch query_embedding MATCH_COUNT) with
   | Some e => ret ([], Some e)
   | None =>
       fun w =>
         (Return (match_documents sv (rows w) query_embedding MATCH_COUNT,
                  None), w)
   end)%m.

(** [POST]: [query] is the [query] field of the JSON body. *)
Definition POST (sv : Services) (query : string) : M Response :=
  try_catch
    (emit (EvEmbed query) ;;;
     queryEmbedding <- lift (embeddings sv query) ;;
     res <- rpc_match sv queryEmbedding ;;
     match res with
     | (_, Some message) => ret (json 500 (ErrorOnly message))
     | (results, None) =>
         let context := Js.join (nl ++ "---" ++ nl) (map content results) in
         let userMessage :=
           "Context: " ++ context ++ nl ++ nl ++ "Question: " ++ query in
         emit (EvCompletion userMessage) ;;;
         answer <- lift (completions sv system_message userMessage) ;;
         ret (json 200 (Answer answer results))
     end)%m
    (fun message => ret (json 500 (ErrorOnly message))).

End Chat.

(** ** The chunker

    The upload route calls [RecursiveCharacterTextSplitter.splitText] of
    the package [@langchain/textsplitters]; the handlers above take it as
    the oracle [splitText].  The module below is the chunker of the
    specification, for the statements that are about the chunks
    themselves. *)

Module Chunker.

Section Split.

Variables (chunkSize overlap : nat).

(** The character at position [k]; a letter outside the text. *)
Definition char_at (l : list ascii) (k : nat) : ascii := nth k l "a"%char.

Definition is_sentence_end (c : ascii) : bool :=
  Ascii.eqb c "." || Ascii.eqb c "!" || Ascii.eqb c "?".

Definition is_lf (c : ascii) : bool := Ascii.eqb c (ascii_of_nat 10).

Inductive Boundary : Type := Paragraph | Sentence | Word.

(** Modelled from the spec: the natural boundaries of section 4.2 (the
    splitter's own separators are in the package, not in this repository).
    A slice may end at position [e] after a paragraph break (two line
    feeds), after the end of a sentence (a full stop, exclamation or
    question mark and the white space after it), or after the white space
    that ends a word. *)
Definition at_boundary (b : Boundary) (l : list ascii) (e : nat) : bool :=
  match b with
  | Paragraph =>
      (2 <=? e)%nat && is_lf (char_at l (e - 1)) && is_lf (char_at l (e - 2))
  | Sentence =>
      (2 <=? e)%nat && Js.is_ws (char_at l (e - 1))
      && is_sentence_end (char_at l (e - 2))
  | Word => (1 <=? e)%nat && Js.is_ws (char_at l (e - 1))
  end.

(** The last position among [lo + k - 1], .., [lo] that is a boundary of
    kind [b]. *)
Fixpoint last_boundary (b : Boundary) (l : list ascii) (lo k : nat)
  : option nat :=
  match k with
  | 0 => None
  | S k' =>
      if at_boundary b l (lo + k') then Some (lo + k')
      else last_boundary b l lo k'
  end.

(** Modelled from the spec: the end of the slice that starts at [start]
    when more than [chunkSize] characters are left: the last paragraph
    boundary that keeps the slice within [chunkSize] and longer than
    [overlap], else the last sentence boundary, else the last word
    boundary, else a hard cut after [chunkSize] characters. *)
Definition break_point (l : list ascii) (start : nat) : nat :=
  let lo := start + overlap + 1 in
  let k := chunkSize - overlap in
  match last_boundary Paragraph l lo k with
  | Some e => e
  | None =>
      match last_boundary Sentence l lo k with
      | Some e => e
      | None =>
          match last_boundary Word l lo k with
          | Some e => e
          | None => start + chunkSize
          end
      end
  end.

(** Modelled from the spec: the source spans [(start, end)] of the chunks
    of section 4.2, the RecursiveCharacterTextSplitter of the package not
    being part of this repository.  Each span is at most [chunkSize] long
    and each span after the first starts [overlap] characters before the
    end of the one before it.  [fuel] bounds the number of spans. *)
Fixpoint spans_from (fuel : nat) (l : list ascii) (start : nat)
  : list (nat * nat) :=
  match fuel with
  | 0 => []
  | S fuel' =>
      if (List.length l - start <=? chunkSize)%nat then [(start, List.length l)]
      else
        let e := break_point l start in
        (start, e) :: spans_from fuel' l (e - overlap)
  end.

Definition spans (l : list ascii) : list (nat * nat) :=
  match l with
  | [] => []
  | _ :: _ => spans_from (List.length l) l 0
  end.

Definition slice (l : list ascii) (span : nat * nat) : list ascii :=
  firstn (snd span - fst span) (skipn (fst span) l).

(** Modelled from the spec: [split(text, chunkSize, overlap)] of section
    4.2, each chunk being the trimmed text of its span; the empty text
    has no chunk. *)
Definition split (text : string) : list string :=
  map (fun span => Js.str (Js.trim_chars (slice (Js.chars text) span)))
      (spans (Js.chars text)).


End Split.

End Chunker.

(** ** What the statements below talk about *)

Module Calls.

(** The world after some more calls. *)
Definition logged (calls : list Event) (w : World) : World :=
  {| rows := rows w; bucket := bucket w; log := log w ++ calls |}.

(** A call to the chunker, the embedding service or the row insert. *)
Definition is_downstream (e : Event) : bool :=
  match e with
  | EvSplitText _ | EvEmbed _ | EvInsert _ => true
  | _ => false
  end.

Definition is_storage_remove (e : Event) : bool :=
  match e with
  | EvStorageRemove _ => true
  | _ => false
  end.

Definition fresh : World := {| rows := []; bucket := []; log := [] |}.

(** What text extraction gives for a file, and the calls it makes: neither
    depends on the world it runs in (lemma [extractTextFromFile_run]). *)
Definition extraction (sv : Services) (file : File) : Exn string :=
  fst (Upload.extractTextFromFile sv file fresh).

Definition extraction_calls (sv : Services) (file : File) : list Event :=
  log (snd (Upload.extractTextFromFile sv file fresh)).

(** The embedding the service gives for a chunk. *)
Definition embedding_of (sv : Services) (chunk : string) : string :=
  match embeddings sv chunk with
  | Return e => e
  | Throw _ => ""
  end.

Section Ingestion.

Variables (sv : Services) (file : File) (documentId uploadDate : string).
Variable total : nat.

Definition stored_row (i : nat) (chunk : string) : Row :=
  Upload.chunk_row sv file documentId uploadDate
    (Upload.file_path_of documentId file) total i chunk
    (embedding_of sv chunk).

(** The rows of the chunks [chunks], the first of which has index [i]. *)
Fixpoint stored_rows (chunks : list string) (i : nat) : list Row :=
  match chunks with
  | [] => []
  | c :: rest => stored_row i c :: stored_rows rest (S i)
  end.

(** Embedding then insertion, chunk after chunk. *)
Fixpoint chunk_calls (chunks : list string) (i : nat) : list Event :=
  match chunks with
  | [] => []
  | c :: rest => EvEmbed c :: EvInsert (stored_row i c) :: chunk_calls rest (S i)
  end.

End Ingestion.

Section Prelude.

Variables (sv : Services) (file : File) (documentId : string).

(** The world once the text is extracted: the file is in the bucket, and
    the reads, the upload and the extraction have been called. *)
Definition after_extraction (w : World) : World :=
  {| rows := rows w;
     bucket := bucket w ++ [(Upload.file_path_of documentId file, bytes file)];
     log := log w
            ++ [EvArrayBuffer (name file);
                EvStorageUpload (Upload.file_path_of documentId file)]
            ++ extraction_calls sv file |}.

(** The world when the loop starts: the chunker has been called as well. *)
Definition before_loop (text : string) (w : World) : World :=
  logged [EvSplitText text] (after_extraction w).

End Prelude.

(** The query is turned away before any service is called. *)
Definition rejected_before_any_call (sv : Services) (query : string)
    (w : World) : Prop :=
  exists r, Chat.POST sv query w = (Return r, w) /\ status r <> 200.

(** Extraction fails without having read the file. *)
Definition fails_before_reading (sv : Services) (file : File) (w : World)
  : Prop :=
  exists e, Upload.extractTextFromFile sv file w = (Throw e, w).

(** The extension of the file name is none of the three the extractor
    knows. *)
Definition unsupported (file : File) : bool :=
  let fileName := Js.toLowerCase (name file) in
  negb (Js.endsWith fileName ".pdf")
  && negb (Js.endsWith fileName ".docx")
  && negb (Js.endsWith fileName ".txt").

(** What the DELETE handler finds as the path of the raw file: the
    [file_path] of the first row of the document, when the select gives
    rows and the path is not empty. *)
Definition found_file_path (sv : Services) (id : string) (w : World)
  : option string :=
  Documents.first_file_path
    match db_error sv (OpSelect id) with
    | Some _ => None
    | None => Some (firstn 1 (filter (Store.has_document_id id) (rows w)))
    end.

(** The [fullText] of the response a handler has sent. *)
Definition full_text_of (r : Exn Response * World) : option string :=
  match fst r with
  | Return {| body := Document _ _ _ _ _ _ fullText _ _ |} => Some fullText
  | _ => None
  end.

(** The status of the response a handler has sent. *)
Definition status_of (r : Exn Response * World) : option nat :=
  match fst r with
  | Return response => Some (status response)
  | Throw _ => None
  end.

(** Index, total and length of the content of a row. *)
Definition summary (r : Row) : nat * nat * nat :=
  (chunk_index (metadata r), total_chunks (metadata r),
   String.length (content r)).

(** No character of the text is white space. *)
Definition no_ws (l : list ascii) : bool :=
  forallb (fun c => negb (Js.is_ws c)) l.





(** The chunk indices of some rows, in the order of the rows. *)
Definition indices (l : list Row) : list nat :=
  map (fun r => chunk_index (metadata r)) l.

(** Ascending numeric order of the chunk indices. *)
Fixpoint ascending (l : list nat) : bool :=
  match l with
  | a :: ((b :: _) as l') => (a <? b)%nat && ascending l'
  | _ => true
  end.

End Calls.

(** ** Sample inputs *)

Module Sample.

(** Collaborators that never fail; the chunker is the one of the
    specification with the sizes of the upload route. *)
Definition services : Services :=
  {| decodeURIComponent := fun s => Return s;
     pdf2json := fun _ => DataReady {| Pages := [] |};
     mammoth := fun b => Return b;
     utf8 := fun b => b;
     splitText := Chunker.split 800 100;
     embeddings := fun _ => Return "[0.5]";
     upload_error := fun _ _ => None;
     remove_error := fun _ => None;
     publicUrl := fun p => "https://bucket.example/" ++ p;
     db_error := fun _ => None;
     match_documents := fun t _ k => firstn k t;
     completions := fun _ _ => Return "I do not know." |}.

(** The same, except that the insert of the chunk of index 1 fails. *)
Definition second_insert_fails : Services :=
  {| decodeURIComponent := decodeURIComponent services;
     pdf2json := pdf2json services;
     mammoth := mammoth services;
     utf8 := utf8 services;
     splitText := splitText services;
     embeddings := embeddings services;
     upload_error := upload_error services;
     remove_error := remove_error services;
     publicUrl := publicUrl services;
     db_error := fun op =>
       match op with
       | OpInsert r =>
           if (chunk_index (metadata r) =? 1)%nat then Some "insert failed"
           else None
       | _ => None
       end;
     match_documents := match_documents services;
     completions := completions services |}.

(** The same as [services], with a chunker that cuts every 4 characters. *)
Fixpoint cut4 (fuel : nat) (l : list ascii) : list string :=
  match fuel, l with
  | S fuel', _ :: _ => Js.str (firstn 4 l) :: cut4 fuel' (skipn 4 l)
  | _, _ => []
  end.

Definition small_chunks : Services :=
  {| decodeURIComponent := decodeURIComponent services;
     pdf2json := pdf2json services;
     mammoth := mammoth services;
     utf8 := utf8 services;
     splitText := fun text => cut4 (String.length text) (Js.chars text);
     embeddings := embeddings services;
     upload_error := upload_error services;
     remove_error := remove_error services;
     publicUrl := publicUrl services;
     db_error := db_error services;
     match_documents := match_documents services;
     completions := completions services |}.

(** A [decodeURIComponent] for escapes below 128: a percent sign must be
    followed by two hexadecimal digits that make an ASCII code, else it
    throws [URIError]. *)
Definition hex_value (c : ascii) : option nat :=
  let n := nat_of_ascii c in
  if ((48 <=? n) && (n <=? 57))%nat then Some (n - 48)
  else if ((65 <=? n) && (n <=? 70))%nat then Some (n - 55)
  else if ((97 <=? n) && (n <=? 102))%nat then Some (n - 87)
  else None.

Fixpoint decode_ascii (l : list ascii) : Exn (list ascii) :=
  match l with
  | [] => Return []
  | c :: rest =>
      if Ascii.eqb c "%" then
        match rest with
        | h :: rest' =>
            match rest' with
            | k :: rest'' =>
                match hex_value h, hex_value k with
                | Some a, Some b =>
                    if (a <? 8)%nat then
                      ExnM.bind (decode_ascii rest'')
                        (fun d => Return (ascii_of_nat (16 * a + b) :: d))
                    else Throw "URI malformed"
                | _, _ => Throw "URI malformed"
                end
            | [] => Throw "URI malformed"
            end
        | [] => Throw "URI malformed"
        end
      else ExnM.bind (decode_ascii rest) (fun d => Return (c :: d))
  end.

(** The same as [services], with the decoder above. *)
Definition decoding : Services :=
  {| decodeURIComponent := fun s =>
       ExnM.bind (decode_ascii (Js.chars s)) (fun d => Return (Js.str d));
     pdf2json := fun _ =>
       DataReady
         {| Pages :=
              [ {| Texts := [ {| R := [ {| T := "Rate%3A" |} ] |};
                              {| R := [ {| T := "" |}; {| T := "100%" |} ] |} ] |};
                {| Texts := [ {| R := [ {| T := "of%20total" |} ] |} ] |} ] |};
     mammoth := mammoth services;
     utf8 := utf8 services;
     splitText := splitText services;
     embeddings := embeddings services;
     upload_error := upload_error services;
     remove_error := remove_error services;
     publicUrl := publicUrl services;
     db_error := db_error services;
     match_documents := match_documents services;
     completions := completions services |}.

Definition text_file (fileName content : string) : File :=
  {| name := fileName;
     type := "text/plain";
     size := String.length content;
     bytes := content |}.

Definition letters (n : nat) : string := Js.str (repeat "a"%char n).
Definition spaces (n : nat) : string := Js.str (repeat " "%char n).




(** 1500 letters, no white space. *)
Definition plain_1500 : File := text_file "notes.txt" (letters 1500).

(** 1500 spaces. *)
Definition blank_1500 : File := text_file "blank.txt" (spaces 1500).

(** 1500 characters: two words of 400 and 1099 letters. *)
Definition two_words_1500 : File :=
  text_file "words.txt" (letters 400 ++ " " ++ letters 1099).

Definition binary : File :=
  {| name := "scan.bin";
     type := "application/octet-stream";
     size := 3;
     bytes := "abc" |}.

(** 44 characters, 11 chunks under [small_chunks]. *)
Definition eleven : File :=
  text_file "eleven.txt" "aaaabbbbccccddddeeeeffffgggghhhhiiiijjjjkkkk".

(** The table after the upload of [eleven]. *)
Definition eleven_stored : World :=
  snd (Upload.POST small_chunks "doc-11" "2024-01-01T00:00:00.000Z"
         (Some eleven) Calls.fresh).

(** The world after the upload of [binary]: the raw file is in the bucket
    and no row is stored, the extraction having failed. *)
Definition failed_upload : World :=
  snd (Upload.POST services "doc-bin" "2024-01-01T00:00:00.000Z"
         (Some binary) Calls.fresh).

End Sample.

From Stdlib Require Import Permutation.

(** ** The documents route: the other branches of GET

    [Documents.GET] is the branch that returns the text of one document.
    The handler has two more: the download of the raw file and the list of
    the documents.  Their reads (the select without a filter, the download
    from the bucket) leave the table and the bucket as they are. *)

Module DocumentsRoute.

(** What the two reads answer when they fail (the error of the select
    without a filter, and the error of the download of a path), and the
    message of the [TypeError] that [Headers] throws for a header name and
    a value it refuses. *)
Record Reads : Type := {
  select_all_error : option string;
  download_error : string -> option string;
  header_error : string -> string -> string
}.

(** HTTP white space, which [Headers] strips from both ends of a value:
    TAB, LF, CR, SPACE. *)
Definition is_http_ws (c : ascii) : bool :=
  let n := nat_of_ascii c in
  ((n =? 9) || (n =? 10) || (n =? 13) || (n =? 32))%nat.

(** The bytes no header value may hold: NUL, LF, CR. *)
Definition is_forbidden (c : ascii) : bool :=
  let n := nat_of_ascii c in
  ((n =? 0) || (n =? 10) || (n =? 13))%nat.

Definition normalize (value : string) : string :=
  Js.str (rev (Js.dropWhile is_http_ws
                 (rev (Js.dropWhile is_http_ws (Js.chars value))))).

Definition valid (value : string) : bool :=
  forallb (fun c => negb (is_forbidden c)) (Js.chars value).

(** One header of [new NextResponse(body, { headers })]: the value is
    normalized, and refused with a [TypeError] when it still holds a
    forbidden byte.  The strings of this development are made of bytes, so
    that every value is a byte string: the refusal of a character above
    255 has no case here. *)
Definition header (rd : Reads) (name value : string) : Exn string :=
  let v := normalize value in
  if valid v then Return v else Throw (header_error rd name v).

(** One element of the [documents] array of the list. *)
Record Summary : Type := {
  id : string;
  s_file_name : string;
  s_file_type : string;
  s_file_size : nat;
  s_upload_date : string;
  s_total_chunks : nat;
  s_file_url : string;
  s_file_path : option string
}.

(** The headers of a file response, as the response holds them;
    [content_length] is the decimal text of a length and [nosniff] the
    presence of [X-Content-Type-Options: nosniff], two values that
    [Headers] never refuses. *)
Record Headers : Type := {
  content_type : string;
  content_disposition : string;
  content_length : string;
  nosniff : bool
}.

(** What GET sends: a JSON body with a status, the list of the documents,
    or the bytes of a file. *)
Inductive Reply : Type :=
| Json (response : Response)
| Listing (documents : list Summary)
| FileReply (data : Buffer) (headers : Headers).

Definition quote : string := String (ascii_of_nat 34) "".

(** [storage.from('documents').download(path)], giving back
    [{ data, error }]: the first object stored under the path. *)
Definition download (rd : Reads) (path : string)
  : M (option Buffer * option string) :=
  match download_error rd path with
  | Some e => ret (None, Some e)
  | None =>
      fun w =>
        (Return
           (match find (fun o => String.eqb (fst o) path) (bucket w) with
            | Some o => Some (snd o)
            | None => None
            end, None), w)
  end.

(** The branch [if (id && file)]. *)
Definition GET_file (sv : Services) (rd : Reads) (id : string) (view : bool)
  : M Reply :=
  (documents <- Store.select_first sv id ;;
   match documents with
   | Some (d :: _) =>
       let meta := metadata d in
       let fileName := Js.or_else (file_name meta) "document" in
       let fileType := Js.or_else (file_type meta) "application/octet-stream" in
       let filePath :=
         match Documents.first_file_path documents with
         | Some p => p
         | None => id ++ "." ++ Js.or_else (Js.after_last_dot fileName) "pdf"
         end in
       dl <- download rd filePath ;;
       match dl with
       | (Some fileData, None) =>
           if (String.length fileData =? 0)%nat then
             ret (Json (json 500 (ErrorOnly "File is empty")))
           else
             let isPDF :=
               String.eqb fileType "application/pdf"
               || Js.endsWith (Js.toLowerCase fileName) ".pdf" in
             contentType <- lift (header rd "Content-Type" fileType) ;;
             contentDisposition <-
               lift (header rd "Content-Disposition"
                       ((if view && isPDF then "inline" else "attachment")
                        ++ "; filename=" ++ quote ++ fileName ++ quote)) ;;
             ret (FileReply fileData
                    {| content_type := contentType;
                       content_disposition := contentDisposition;
                       content_length :=
                         Js.number_to_text (String.length fileData);
                       nosniff := view && isPDF |})
       | (_, downloadError) =>
           ret (Json (json 404
                  (ErrorOnly
                     (Js.or_else
                        (match downloadError with
                         | Some message => message
                         | None => ""
                         end)
                        "File not stored"))))
       end
   | _ => ret (Json (json 404 (ErrorOnly "Document not found")))
   end)%m.

Definition summary_of (now : string) (m : Metadata) : Summary :=
  {| id := document_id m;
     s_file_name := Js.or_else (file_name m) "Unknown";
     s_file_type := Js.or_else (file_type m) "unknown";
     s_file_size := file_size m;
     s_upload_date := Js.or_else (upload_date m) now;
     s_total_chunks := total_chunks m;
     s_file_url := file_url m;
     s_file_path := file_path m |}.

(** [documents.forEach] over the [Map]: a row whose [document_id] is not
    empty and not yet a key adds an entry; [seen] are the keys of the map,
    and the entries come out in the order they went in. *)
Fixpoint deduplicate (now : string) (seen : list string) (l : list Row)
  : list Summary :=
  match l with
  | [] => []
  | doc :: l' =>
      let m := metadata doc in
      if negb (String.eqb (document_id m) "")
         && negb (existsb (String.eqb (document_id m)) seen)
      then summary_of now m :: deduplicate now (document_id m :: seen) l'
      else deduplicate now seen l'
  end.

(** The branch that lists the documents. *)
Definition GET_list (rd : Reads) (now : string) : M Reply :=
  match select_all_error rd with
  | Some message => ret (Json (json 500 (ErrorOnly message)))
  | None => fun w => (Return (Listing (deduplicate now [] (rows w))), w)
  end.

(** [GET]: [id] is [searchParams.get('id')], [file] and [view] say whether
    the parameters of these names are the text [true].  The branch of one
    document is [Documents.GET], which carries the same [catch] as the
    handler does around all three branches. *)
Definition GET (sv : Services) (rd : Reads) (now : string)
    (id : option string) (file view : bool) : M Reply :=
  try_catch
    (match id with
     | Some i =>
         if String.eqb i "" then GET_list rd now
         else if file then GET_file sv rd i view
         else (r <- Documents.GET sv now i ;; ret (Json r))%m
     | None => GET_list rd now
     end)
    (fun message => ret (Json (json 500 (ErrorOnly message)))).

(** The ids of a list. *)
Definition ids (l : list Summary) : list string := map id l.

End DocumentsRoute.

(** ** The viewer

    [fetchDocumentText] of the modal, as a function of the state of the
    component and of what the request to the documents route gives. *)

Module PDFViewerModal.

Inductive Tab : Type := Preview | Content.

(** The state variables of the component. *)
Record State : Type := {
  error : option string;
  loading : bool;
  activeTab : Tab;
  text : string;
  textLoading : bool;
  textError : option string
}.

(** [data.error] of a JSON body. *)
Definition data_error (b : Body) : option string :=
  match b with
  | ErrorOnly e | Failure e => Some e
  | _ => None
  end.

(** [data.fullText] of a JSON body. *)
Definition data_fullText (b : Body) : option string :=
  match b with
  | Document _ _ _ _ _ _ fullText _ _ => Some fullText
  | _ => None
  end.

(** A string or null is truthy when it is a non-empty string. *)
Definition truthy (s : option string) : bool :=
  match s with
  | Some x => negb (String.eqb x "")
  | None => false
  end.

Definition no_text : string := "No text content available".

(** [fetchDocumentText]: [fetched] is what
    [fetch('/api/documents?id=' + documentId)] followed by [res.json()]
    gives, the body of the response or the [Error] thrown, whose message
    becomes the error shown.  The state returned is the one after the
    [finally]. *)
Definition fetchDocumentText (documentId : option string)
    (fetched : Exn Body) (s : State) : State :=
  if truthy documentId then
    match fetched with
    | Return data =>
        if truthy (data_error data) then
          {| error := error s; loading := loading s; activeTab := activeTab s;
             text := text s; textLoading := false;
             textError := data_error data |}
        else
          {| error := error s; loading := loading s; activeTab := activeTab s;
             text := match data_fullText data with
                     | Some t => Js.or_else t no_text
                     | None => no_text
                     end;
             textLoading := false;
             textError := None |}
    | Throw message =>
        {| error := error s; loading := loading s; activeTab := activeTab s;
           text := text s; textLoading := false;
           textError := Some message |}
    end
  else s.

(** The condition of the effect that calls [fetchDocumentText]. *)
Definition should_fetch (isOpen : bool) (documentId : option string)
    (s : State) : bool :=
  isOpen && truthy documentId
  && match activeTab s with Content => true | Preview => false end
  && String.eqb (text s) ""
  && negb (textLoading s)
  && negb (truthy (textError s)).

(** The state the first effect leaves when the modal opens. *)
Definition opened (isPDF : bool) (s : State) : State :=
  {| error := None; loading := true;
     activeTab := if isPDF then Preview else Content;
     text := ""; textLoading := textLoading s; textError := None |}.

(** What the request gives when the documents route answers [r]. *)
Definition body_of (r : Exn Response * World) : Exn Body :=
  match fst r with
  | Return response => Return (body response)
  | Throw message => Throw message
  end.

End PDFViewerModal.

(** ** More to talk about *)

Module More.

(** Files of the raw object under a path in the bucket. *)
Definition stored_at (path : string) (b : list (string * Buffer)) : bool :=
  existsb (fun o => String.eqb (fst o) path) b.

(** The response is one of the statuses. *)
Definition status_in (allowed : list nat) (r : Exn Response) : Prop :=
  exists response, r = Return response /\ In (status response) allowed.

(** Every run of every text of every page has an empty [T]. *)
Definition no_text_runs (d : PdfData) : bool :=
  forallb (fun p =>
    forallb (fun t => forallb (fun r => String.eqb (T r) "") (R t)) (Texts p))
    (Pages d).

(** The runs of a PDF in reading order: page after page, text after text,
    run after run. *)
Definition all_runs (d : PdfData) : list Run :=
  flat_map (fun p => flat_map R (Texts p)) (Pages d).

(** What the decoder gives for a run. *)
Definition decoded (sv : Services) (s : string) : string :=
  match Upload.safeDecodeURIComponent sv s with
  | Return x => x
  | Throw _ => s
  end.

(** The runs that have a text, decoded, each followed by one space. *)
Fixpoint run_texts (sv : Services) (rs : list Run) : string :=
  match rs with
  | [] => ""
  | r :: rs' =>
      if String.eqb (T r) "" then run_texts sv rs'
      else decoded sv (T r) ++ " " ++ run_texts sv rs'
  end.

(** A PDF of two pages, the first with two texts. *)
Definition two_pages : PdfData :=
  {| Pages :=
       [ {| Texts := [ {| R := [ {| T := "Rate%3A" |} ] |};
                       {| R := [ {| T := "" |}; {| T := "100%" |} ] |} ] |};
         {| Texts := [ {| R := [ {| T := "of%20total" |} ] |} ] |} ] |}.

(** Collaborators whose embedding of [gamma] fails. *)
Definition third_embedding_fails : Services :=
  {| decodeURIComponent := decodeURIComponent Sample.services;
     pdf2json := pdf2json Sample.services;
     mammoth := mammoth Sample.services;
     utf8 := utf8 Sample.services;
     splitText := fun _ => ["alpha"; "beta"; "gamma"; "delta"];
     embeddings := fun chunk =>
       if String.eqb chunk "gamma" then Throw "429 rate limited"
       else Return "[0.5]";
     upload_error := upload_error Sample.services;
     remove_error := remove_error Sample.services;
     publicUrl := publicUrl Sample.services;
     db_error := db_error Sample.services;
     match_documents := match_documents Sample.services;
     completions := completions Sample.services |}.

(** Collaborators whose storage refuses the upload. *)
Definition storage_refuses : Services :=
  {| decodeURIComponent := decodeURIComponent Sample.services;
     pdf2json := pdf2json Sample.services;
     mammoth := mammoth Sample.services;
     utf8 := utf8 Sample.services;
     splitText := splitText Sample.services;
     embeddings := embeddings Sample.services;
     upload_error := fun _ _ => Some "new row violates row-level security policy";
     remove_error := remove_error Sample.services;
     publicUrl := publicUrl Sample.services;
     db_error := db_error Sample.services;
     match_documents := match_documents Sample.services;
     completions := completions Sample.services |}.

(** Collaborators whose store refuses every deletion. *)
Definition delete_refused : Services :=
  {| decodeURIComponent := decodeURIComponent Sample.services;
     pdf2json := pdf2json Sample.services;
     mammoth := mammoth Sample.services;
     utf8 := utf8 Sample.services;
     splitText := splitText Sample.services;
     embeddings := embeddings Sample.services;
     upload_error := upload_error Sample.services;
     remove_error := remove_error Sample.services;
     publicUrl := publicUrl Sample.services;
     db_error := fun op =>
       match op with
       | OpDelete _ => Some "permission denied"
       | _ => None
       end;
     match_documents := match_documents Sample.services;
     completions := completions Sample.services |}.

(** Collaborators whose embedding service and search are down. *)
Definition embedding_down : Services :=
  {| decodeURIComponent := decodeURIComponent Sample.services;
     pdf2json := pdf2json Sample.services;
     mammoth := mammoth Sample.services;
     utf8 := utf8 Sample.services;
     splitText := splitText Sample.services;
     embeddings := fun _ => Throw "Connection error.";
     upload_error := upload_error Sample.services;
     remove_error := remove_error Sample.services;
     publicUrl := publicUrl Sample.services;
     db_error := db_error Sample.services;
     match_documents := match_documents Sample.services;
     completions := completions Sample.services |}.

Definition search_down : Services :=
  {| decodeURIComponent := decodeURIComponent Sample.services;
     pdf2json := pdf2json Sample.services;
     mammoth := mammoth Sample.services;
     utf8 := utf8 Sample.services;
     splitText := splitText Sample.services;
     embeddings := embeddings Sample.services;
     upload_error := upload_error Sample.services;
     remove_error := remove_error Sample.services;
     publicUrl := publicUrl Sample.services;
     db_error := fun op =>
       match op with
       | OpMatch _ _ => Some "function match_documents does not exist"
       | _ => None
       end;
     match_documents := match_documents Sample.services;
     completions := completions Sample.services |}.

(** Reads that do not fail. *)
Definition reads : DocumentsRoute.Reads :=
  {| DocumentsRoute.select_all_error := None;
     DocumentsRoute.download_error := fun _ => None;
     DocumentsRoute.header_error := fun name _ =>
       "Invalid value for header " ++ name |}.

(** Collaborators whose storage refuses every removal and whose store
    refuses every deletion. *)
Definition nothing_removed : Services :=
  {| decodeURIComponent := decodeURIComponent Sample.services;
     pdf2json := pdf2json Sample.services;
     mammoth := mammoth Sample.services;
     utf8 := utf8 Sample.services;
     splitText := splitText Sample.services;
     embeddings := embeddings Sample.services;
     upload_error := upload_error Sample.services;
     remove_error := fun _ => Some "Access denied";
     publicUrl := publicUrl Sample.services;
     db_error := fun op =>
       match op with
       | OpDelete _ => Some "permission denied"
       | _ => None
       end;
     match_documents := match_documents Sample.services;
     completions := completions Sample.services |}.

(** Collaborators whose storage refuses every removal. *)
Definition removal_refused : Services :=
  {| decodeURIComponent := decodeURIComponent Sample.services;
     pdf2json := pdf2json Sample.services;
     mammoth := mammoth Sample.services;
     utf8 := utf8 Sample.services;
     splitText := splitText Sample.small_chunks;
     embeddings := embeddings Sample.services;
     upload_error := upload_error Sample.services;
     remove_error := fun _ => Some "Access denied";
     publicUrl := publicUrl Sample.services;
     db_error := db_error Sample.services;
     match_documents := match_documents Sample.services;
     completions := completions Sample.services |}.

(** Collaborators whose PDF parser throws. *)
Definition parser_throws : Services :=
  {| decodeURIComponent := decodeURIComponent Sample.services;
     pdf2json := fun _ => Thrown "Invalid XRef stream header";
     mammoth := mammoth Sample.services;
     utf8 := utf8 Sample.services;
     splitText := splitText Sample.services;
     embeddings := embeddings Sample.services;
     upload_error := upload_error Sample.services;
     remove_error := remove_error Sample.services;
     publicUrl := publicUrl Sample.services;
     db_error := db_error Sample.services;
     match_documents := match_documents Sample.services;
     completions := completions Sample.services |}.



(** A text file of three chunks under [Sample.small_chunks], and the world
    after its upload. *)
Definition three : File := Sample.text_file "three.txt" "aaaabbbbcccc".

Definition three_stored : World :=
  snd (Upload.POST Sample.small_chunks "doc-3" "2024-01-01T00:00:00.000Z"
         (Some three) Calls.fresh).

(** The world after the upload of [Sample.eleven] on top of it. *)
Definition two_documents : World :=
  snd (Upload.POST Sample.small_chunks "doc-11" "2024-01-01T00:00:00.000Z"
         (Some Sample.eleven) three_stored).

(** The ids of the list of the documents of a world. *)
Definition listed (now : string) (w : World) : list string :=
  DocumentsRoute.ids (DocumentsRoute.deduplicate now [] (rows w)).

(** A PDF, for collaborators whose parser finds pages without text. *)
Definition scanned : File :=
  {| name := "Scan.PDF"; type := "application/pdf"; size := 4;
     bytes := "%PDF" |}.

Definition closed_viewer : PDFViewerModal.State :=
  {| PDFViewerModal.error := None;
     PDFViewerModal.loading := true;
     PDFViewerModal.activeTab := PDFViewerModal.Content;
     PDFViewerModal.text := "";
     PDFViewerModal.textLoading := false;
     PDFViewerModal.textError := None |}.

End More.

(** * Properties *)

Import Calls.

(** ** Running the primitives *)

Section Runs.

Context {A B : Type}.

Lemma run_bind_return (m : M A) (k : A -> M B) (w w' : World) (a : A) :
  m w = (Return a, w') -> bind m k w = k a w'.
Proof. intros H. unfold bind. now rewrite H. Qed.

Lemma run_bind_throw (m : M A) (k : A -> M B) (w w' : World) (e : string) :
  m w = (Throw e, w') -> bind m k w = (Throw e, w').
Proof. intros H. unfold bind. now rewrite H. Qed.

End Runs.

Lemma logged_nil (w : World) : logged [] w = w.
Proof. destruct w. unfold logged. cbn. now rewrite app_nil_r. Qed.

Lemma logged_logged (a b : list Event) (w : World) :
  logged b (logged a w) = logged (a ++ b) w.
Proof. unfold logged. cbn. now rewrite app_assoc. Qed.

Lemma run_emit (e : Event) (w : World) : emit e w = (Return tt, logged [e] w).
Proof. reflexivity. Qed.

(** ** The percent-decoder *)

(** The three tiers of the decoder, one after the other. *)
Lemma safeDecodeURIComponent_cases (sv : Services) (s : string) :
  (exists d, decodeURIComponent sv s = Return d
             /\ Upload.safeDecodeURIComponent sv s = Return d)
  \/ (exists e d, decodeURIComponent sv s = Throw e
                  /\ decodeURIComponent sv (Js.replace_percent s) = Return d
                  /\ Upload.safeDecodeURIComponent sv s = Return d)
  \/ (exists e e', decodeURIComponent sv s = Throw e
                   /\ decodeURIComponent sv (Js.replace_percent s) = Throw e'
                   /\ Upload.safeDecodeURIComponent sv s = Return s).
Proof.
  unfold Upload.safeDecodeURIComponent, ExnM.try_catch.
  destruct (decodeURIComponent sv s) as [d|e]; [left; eauto|].
  destruct (decodeURIComponent sv (Js.replace_percent s)) as [d|e'];
    right; [left|right]; eauto.
Qed.

Lemma safeDecodeURIComponent_returns (sv : Services) (s : string) :
  ExnM.returns (Upload.safeDecodeURIComponent sv s) = true.
Proof.
  destruct (safeDecodeURIComponent_cases sv s)
    as [(d & _ & ->)|[(e & d & _ & _ & ->)|(e & e' & _ & _ & ->)]];
    reflexivity.
Qed.

(** C8: for every string [s] and whatever [decodeURIComponent] does, the
    decoder of PDF text runs returns a string and throws nothing: the
    decoding of [s] when that succeeds, else the decoding of [s] with every
    percent sign replaced by percent-2-5 when that succeeds, else [s]. *)
Theorem safeDecodeURIComponent_three_tiers (sv : Services) (s : string) :
  Upload.safeDecodeURIComponent sv s =
  Return
    match decodeURIComponent sv s with
    | Return decoded => decoded
    | Throw _ =>
        match decodeURIComponent sv (Js.replace_percent s) with
        | Return decoded => decoded
        | Throw _ => s
        end
    end.
Proof.
  destruct (safeDecodeURIComponent_cases sv s)
    as [(d & -> & ->)|[(e & d & -> & -> & ->)|(e & e' & -> & -> & ->)]];
    reflexivity.
Qed.

(** The tiers at work: a well-formed run, a run with a lone percent sign
    (decoded at the second attempt, which gives the run back), and the
    text of a PDF with such runs. *)
Example safeDecodeURIComponent_first_tier :
  Upload.safeDecodeURIComponent Sample.decoding "of%20total" = Return "of total".
Proof. reflexivity. Qed.

Example safeDecodeURIComponent_second_tier :
  decodeURIComponent Sample.decoding "100%" = Throw "URI malformed"
  /\ Upload.safeDecodeURIComponent Sample.decoding "100%" = Return "100%".
Proof. split; reflexivity. Qed.

Example pdf_text_of_runs :
  match pdf2json Sample.decoding "" with
  | DataReady d => Upload.pdf_text Sample.decoding d
  | DataError e | Thrown e => Throw e
  end = Return "Rate: 100% of total".
Proof. reflexivity. Qed.

(** Every percent sign of the second attempt is followed by 2 and 5. *)
Lemma replace_percent_chars_escaped (l : list ascii) (k : nat) :
  nth_error (Js.replace_percent_chars l) k = Some "%"%char ->
  nth_error (Js.replace_percent_chars l) (k + 1) = Some "2"%char
  /\ nth_error (Js.replace_percent_chars l) (k + 2) = Some "5"%char.
Proof.
  revert k. induction l as [|c l IH]; intros k H; cbn in *.
  - destruct k; discriminate.
  - destruct (Ascii.eqb_spec c "%"%char) as [->|Hc].
    + destruct k as [|[|[|k]]]; cbn in *; try discriminate; auto.
    + destruct k as [|k]; cbn in *.
      * congruence.
      * auto.
Qed.

(** The text of a PDF is always obtained: no run makes the callback throw. *)
Lemma append_runs_returns (sv : Services) (rs : list Run) (acc : string) :
  ExnM.returns (Upload.append_runs sv acc rs) = true.
Proof.
  revert acc. induction rs as [|r rs IH]; intros acc; cbn; [reflexivity|].
  destruct (String.eqb (T r) ""); [apply IH|].
  pose proof (safeDecodeURIComponent_returns sv (T r)) as H.
  destruct (Upload.safeDecodeURIComponent sv (T r)); cbn in *;
    [apply IH|discriminate].
Qed.

Lemma append_texts_returns (sv : Services) (ts : list TextItem) (acc : string) :
  ExnM.returns (Upload.append_texts sv acc ts) = true.
Proof.
  revert acc. induction ts as [|t ts IH]; intros acc; cbn; [reflexivity|].
  pose proof (append_runs_returns sv (R t) acc) as H.
  destruct (Upload.append_runs sv acc (R t)); cbn in *; [apply IH|discriminate].
Qed.

Lemma append_pages_returns (sv : Services) (ps : list Page) (acc : string) :
  ExnM.returns (Upload.append_pages sv acc ps) = true.
Proof.
  revert acc. induction ps as [|p ps IH]; intros acc; cbn; [reflexivity|].
  pose proof (append_texts_returns sv (Texts p) acc) as H.
  destruct (Upload.append_texts sv acc (Texts p)); cbn in *; [apply IH|discriminate].
Qed.

Lemma pdf_text_returns (sv : Services) (d : PdfData) :
  ExnM.returns (Upload.pdf_text sv d) = true.
Proof.
  unfold Upload.pdf_text.
  pose proof (append_pages_returns sv (Pages d) "") as H.
  destruct (Upload.append_pages sv "" (Pages d)); cbn in *; [reflexivity|discriminate].
Qed.

(** ** Text extraction *)

Lemma extractTextFromFile_run (sv : Services) (file : File) (w : World) :
  Upload.extractTextFromFile sv file w
  = (extraction sv file, logged (extraction_calls sv file) w).
Proof.
  unfold extraction, extraction_calls, Upload.extractTextFromFile,
    Upload.arrayBuffer, bind, emit, ret, lift, throw, logged, fresh.
  cbn.
  destruct (Js.endsWith (Js.toLowerCase (name file)) ".pdf").
  - destruct (pdf2json sv (bytes file)); cbn; now rewrite <- app_assoc.
  - destruct (Js.endsWith (Js.toLowerCase (name file)) ".docx"); cbn.
    + now rewrite <- app_assoc.
    + destruct (Js.endsWith (Js.toLowerCase (name file)) ".txt"); cbn;
        now rewrite <- ?app_assoc.
Qed.

(** Extraction calls the file reader and one parser, nothing else. *)
Lemma extraction_calls_not_downstream (sv : Services) (file : File) :
  forallb (fun e => negb (is_downstream e)) (extraction_calls sv file) = true.
Proof.
  unfold extraction_calls, Upload.extractTextFromFile,
    Upload.arrayBuffer, bind, emit, ret, lift, throw, fresh.
  cbn.
  destruct (Js.endsWith (Js.toLowerCase (name file)) ".pdf").
  - destruct (pdf2json sv (bytes file)); reflexivity.
  - destruct (Js.endsWith (Js.toLowerCase (name file)) ".docx"); cbn.
    + reflexivity.
    + destruct (Js.endsWith (Js.toLowerCase (name file)) ".txt"); reflexivity.
Qed.

(** C3, as amended: for a file whose extension is none of pdf, docx and
    txt, extraction throws the unsupported-file-type error after one read of
    the file into a buffer and before any parser or decoder is given that
    buffer. *)
Theorem unsupported_fails_after_one_read (sv : Services) (file : File)
    (w : World) :
  unsupported file = true ->
  Upload.extractTextFromFile sv file w
  = (Throw Upload.unsupported_message, logged [EvArrayBuffer (name file)] w).
Proof.
  unfold unsupported. intros H.
  apply andb_prop in H as [H Htxt]. apply andb_prop in H as [Hpdf Hdocx].
  apply negb_true_iff in Htxt, Hpdf, Hdocx.
  unfold Upload.extractTextFromFile, Upload.arrayBuffer, bind, emit, ret, throw.
  cbn. now rewrite Hpdf, Hdocx, Htxt.
Qed.

Lemma unsupported_fails_after_one_read_witness :
  unsupported Sample.binary = true
  /\ Upload.extractTextFromFile Sample.services Sample.binary fresh
     = (Throw Upload.unsupported_message, logged [EvArrayBuffer "scan.bin"] fresh).
Proof.
  split; [reflexivity|].
  apply (unsupported_fails_after_one_read Sample.services Sample.binary fresh).
  reflexivity.
Defined.

(** C3 as stated fails: the extraction of [scan.bin] does not fail before
    the file is read, the read is the first thing it does. *)
Lemma unsupported_not_before_reading :
  unsupported Sample.binary = true
  /\ ~ fails_before_reading Sample.services Sample.binary fresh.
Proof.
  split; [reflexivity|].
  intros [e H]. vm_compute in H. discriminate.
Qed.

(** ** The chat route *)

(** Whatever the services answer, the first call is the embedding of the
    query. *)
Lemma chat_first_call (sv : Services) (query : string) (w : World) :
  exists more,
    log (snd (Chat.POST sv query w)) = (log w ++ EvEmbed query :: more)%list.
Proof.
  unfold Chat.POST, Chat.rpc_match, try_catch, bind, emit, ret, lift.
  cbn.
  destruct (embeddings sv query) as [e|msg]; cbn.
  - destruct (db_error sv (OpMatch e Chat.MATCH_COUNT)); cbn.
    + eexists. now rewrite <- app_assoc.
    + match goal with
      | |- context [completions sv ?s ?u] => destruct (completions sv s u)
      end; cbn; eexists; now rewrite <- !app_assoc.
  - now eexists.
Qed.

Lemma chat_answers (sv : Services) (query : string) (w : World)
    (e a : string) :
  embeddings sv query = Return e ->
  db_error sv (OpMatch e Chat.MATCH_COUNT) = None ->
  (let results := match_documents sv (rows w) e Chat.MATCH_COUNT in
   let userMessage :=
     "Context: " ++ Js.join (nl ++ "---" ++ nl) (map content results)
     ++ nl ++ nl ++ "Question: " ++ query in
   completions sv Chat.system_message userMessage = Return a ->
   Chat.POST sv query w
   = (Return (json 200 (Answer a results)),
      logged [EvEmbed query; EvMatch e Chat.MATCH_COUNT;
              EvCompletion userMessage] w)).
Proof.
  intros He Hdb results userMessage Ha.
  unfold Chat.POST, Chat.rpc_match, try_catch, bind, emit, ret, lift, logged.
  subst results userMessage.
  cbn in Ha |- *. rewrite He. cbn. rewrite Hdb. cbn.
  rewrite Ha. cbn.
  now rewrite <- !app_assoc.
Qed.

(** C2, as amended: the route does not look at the query before it uses
    it.  For every query, the empty and the blank ones included, its first
    call is the embedding of the query as it is; and when the embedding,
    the search and the completion succeed, the answer is sent with status
    200 after exactly these three calls. *)
Theorem query_is_embedded_unchecked (sv : Services) (query : string)
    (w : World) :
  (exists more,
     log (snd (Chat.POST sv query w)) = (log w ++ EvEmbed query :: more)%list)
  /\ forall e a : string,
       embeddings sv query = Return e ->
       db_error sv (OpMatch e Chat.MATCH_COUNT) = None ->
       (let results := match_documents sv (rows w) e Chat.MATCH_COUNT in
        let userMessage :=
          "Context: " ++ Js.join (nl ++ "---" ++ nl) (map content results)
          ++ nl ++ nl ++ "Question: " ++ query in
        completions sv Chat.system_message userMessage = Return a ->
        Chat.POST sv query w
        = (Return (json 200 (Answer a results)),
           logged [EvEmbed query; EvMatch e Chat.MATCH_COUNT;
                   EvCompletion userMessage] w)).
Proof.
  split.
  - apply chat_first_call.
  - intros e a. apply chat_answers.
Qed.

Lemma query_is_embedded_unchecked_witness :
  Js.blank "   " = true
  /\ fst (Chat.POST Sample.services "   " fresh)
     = Return (json 200 (Answer "I do not know." [])).
Proof.
  split; [reflexivity|].
  destruct (query_is_embedded_unchecked Sample.services "   " fresh) as [_ H].
  rewrite (H "[0.5]" "I do not know."); reflexivity.
Defined.

(** C2 as stated fails: the query of three spaces is not turned away, it
    is embedded, searched for and answered. *)
Lemma blank_query_not_rejected :
  Js.blank "   " = true
  /\ ~ rejected_before_any_call Sample.services "   " fresh.
Proof.
  split; [reflexivity|].
  intros [r [H _]]. vm_compute in H. discriminate.
Qed.

(** ** Blank texts *)

Lemma dropWhile_nil_iff (p : ascii -> bool) (l : list ascii) :
  Js.dropWhile p l = [] <-> forallb p l = true.
Proof.
  induction l as [|c l IH]; cbn; [tauto|].
  destruct (p c); cbn; [exact IH|].
  split; discriminate.
Qed.

Lemma dropWhile_forallb_suffix (p : ascii -> bool) (l : list ascii) :
  forallb p l = false -> forallb p (Js.dropWhile p l) = false.
Proof.
  induction l as [|c l IH]; cbn; [discriminate|].
  destruct (p c) eqn:E; cbn; [exact IH|].
  intros _. now rewrite E.
Qed.

Lemma forallb_rev (p : ascii -> bool) (l : list ascii) :
  forallb p (rev l) = forallb p l.
Proof.
  induction l as [|c l IH]; cbn; [reflexivity|].
  rewrite forallb_app, IH. cbn. rewrite andb_true_r. apply andb_comm.
Qed.

Lemma trim_chars_nil_iff (l : list ascii) :
  Js.trim_chars l = [] <-> forallb Js.is_ws l = true.
Proof.
  unfold Js.trim_chars. split.
  - intros H.
    destruct (forallb Js.is_ws l) eqn:E; [reflexivity|exfalso].
    apply dropWhile_forallb_suffix in E.
    rewrite <- forallb_rev in E.
    apply dropWhile_forallb_suffix in E.
    rewrite <- forallb_rev, H in E. discriminate.
  - intros H. apply dropWhile_nil_iff in H. now rewrite H.
Qed.

Lemma length_str (l : list ascii) : String.length (Js.str l) = List.length l.
Proof. unfold Js.str. induction l; cbn; congruence. Qed.

Lemma length_chars (s : string) : List.length (Js.chars s) = String.length s.
Proof. unfold Js.chars. induction s; cbn; congruence. Qed.



(** The test of the upload route, [!text || text.trim().length === 0],
    holds exactly of the texts that are empty or all white space. *)
Lemma empty_test_is_blank (text : string) :
  (String.eqb text "" || (String.length (Js.trim text) =? 0)%nat)%bool
  = Js.blank text.
Proof.
  unfold Js.trim, Js.blank. rewrite length_str.
  destruct (String.eqb_spec text "") as [->|_]; [reflexivity|]. cbn.
  destruct (forallb Js.is_ws (Js.chars text)) eqn:E.
  - apply trim_chars_nil_iff in E. now rewrite E.
  - apply Nat.eqb_neq. intros H. apply length_zero_iff_nil in H.
    apply trim_chars_nil_iff in H. congruence.
Qed.

(** ** The upload route, step by step *)

#[local] Arguments Upload.extractTextFromFile : simpl never.

Section UploadRun.

Variables (sv : Services) (file : File) (documentId uploadDate : string).

Let path := Upload.file_path_of documentId file.

Lemma POST_blank (text : string) (w : World) :
  upload_error sv path (bytes file) = None ->
  extraction sv file = Return text ->
  Js.blank text = true ->
  Upload.POST sv documentId uploadDate (Some file) w
  = (Return (json 400 (ErrorOnly Upload.empty_message)), after_extraction sv file documentId w).
Proof.
  intros Hup Hex Hblank.
  unfold Upload.POST, try_catch, bind, Upload.arrayBuffer, Store.upload,
    emit, ret.
  cbn. fold path. rewrite Hup. cbn.
  rewrite extractTextFromFile_run, Hex, empty_test_is_blank, Hblank.
  unfold after_extraction, Upload.file_path_of, logged, Store.set_bucket. cbn.
  now rewrite <- !app_assoc.
Qed.

Lemma POST_chunks (text : string) (w : World) :
  upload_error sv path (bytes file) = None ->
  extraction sv file = Return text ->
  Js.blank text = false ->
  Upload.POST sv documentId uploadDate (Some file) w
  = match Upload.embed_and_store sv file documentId uploadDate path
            (List.length (splitText sv text)) (splitText sv text) 0
            (before_loop sv file documentId text w) with
    | (Return (Some response), w') => (Return response, w')
    | (Return None, w') =>
        (Return (json 200
                   (Uploaded documentId (name file)
                      (List.length (splitText sv text)) (String.length text)
                      (publicUrl sv path))), w')
    | (Throw message, w') =>
        (Return (json 500
                   (Failure (Js.or_else message "Failed to process file"))),
         w')
    end.
Proof.
  subst path. intros Hup Hex Hblank.
  unfold Upload.POST, try_catch, bind, Upload.arrayBuffer, Store.upload,
    emit, ret.
  cbn. rewrite Hup. cbn.
  rewrite extractTextFromFile_run, Hex, empty_test_is_blank, Hblank.
  unfold before_loop, after_extraction, logged, Store.set_bucket. cbn.
  rewrite <- !app_assoc. cbn.
  match goal with
  | |- context [Upload.embed_and_store _ _ _ _ _ _ _ _ ?w1] =>
      destruct (Upload.embed_and_store sv file documentId uploadDate
                  (Upload.file_path_of documentId file)
                  (List.length (splitText sv text)) (splitText sv text) 0 w1)
        as [[[r|]|e] w']
  end; reflexivity.
Qed.

End UploadRun.

(** ** The embedding and insertion loop *)

Section Loop.

Variables (sv : Services) (file : File) (documentId uploadDate : string).
Variable total : nat.

#[local] Abbreviation path := (Upload.file_path_of documentId file).
#[local] Abbreviation row := (stored_row sv file documentId uploadDate total).
#[local] Abbreviation loop :=
  (Upload.embed_and_store sv file documentId uploadDate path total).

(** One turn of the loop whose embedding and insert succeed. *)
Lemma loop_turn (chunk : string) (rest : list string) (i : nat) (w : World) :
  ExnM.returns (embeddings sv chunk) = true ->
  db_error sv (OpInsert (row i chunk)) = None ->
  loop (chunk :: rest) i w
  = loop rest (S i)
      {| rows := rows w ++ [row i chunk];
         bucket := bucket w;
         log := log w ++ [EvEmbed chunk; EvInsert (row i chunk)] |}.
Proof.
  unfold stored_row, embedding_of.
  intros Hemb Hins. cbn.
  unfold bind, emit, lift, Store.insert, Store.set_rows.
  destruct (embeddings sv chunk) as [e|]; [|discriminate].
  cbn. unfold bind, emit. cbn. rewrite Hins. cbn.
  now rewrite <- app_assoc.
Qed.

(** The turn whose insert fails: the loop returns at once. *)
Lemma loop_turn_fails (chunk : string) (rest : list string) (i : nat)
    (w : World) (message : string) :
  ExnM.returns (embeddings sv chunk) = true ->
  db_error sv (OpInsert (row i chunk)) = Some message ->
  loop (chunk :: rest) i w
  = (Return (Some (json 500 (Failure message))),
     {| rows := rows w;
        bucket := bucket w;
        log := log w ++ [EvEmbed chunk; EvInsert (row i chunk)] |}).
Proof.
  unfold stored_row, embedding_of.
  intros Hemb Hins. cbn.
  unfold bind, emit, lift, Store.insert, Store.set_rows.
  destruct (embeddings sv chunk) as [e|]; [|discriminate].
  cbn. unfold bind, emit, ret. cbn. rewrite Hins. cbn.
  now rewrite <- app_assoc.
Qed.

Lemma loop_completes (chunks : list string) (i : nat) (w : World) :
  (forall x, In x chunks -> ExnM.returns (embeddings sv x) = true) ->
  (forall j x, nth_error chunks j = Some x ->
               db_error sv (OpInsert (row (i + j) x)) = None) ->
  loop chunks i w
  = (Return None,
     {| rows := rows w ++ stored_rows sv file documentId uploadDate total chunks i;
        bucket := bucket w;
        log := log w ++ chunk_calls sv file documentId uploadDate total chunks i |}).
Proof.
  revert i w. induction chunks as [|c rest IH]; intros i w Hemb Hins.
  - cbn. unfold ret. destruct w. cbn. now rewrite !app_nil_r.
  - rewrite loop_turn.
    + rewrite IH.
      * cbn. now rewrite <- !app_assoc.
      * intros x Hx. apply Hemb. now right.
      * intros j x Hj. replace (S i + j) with (i + S j) by lia.
        now apply Hins.
    + apply Hemb. now left.
    + specialize (Hins 0 c eq_refl). now rewrite Nat.add_0_r in Hins.
Qed.

Lemma loop_aborts (done : list string) (c : string) (rest : list string)
    (i : nat) (w : World) (message : string) :
  (forall x, In x (done ++ [c]) -> ExnM.returns (embeddings sv x) = true) ->
  (forall j x, nth_error done j = Some x ->
               db_error sv (OpInsert (row (i + j) x)) = None) ->
  db_error sv (OpInsert (row (i + List.length done) c)) = Some message ->
  loop (done ++ c :: rest) i w
  = (Return (Some (json 500 (Failure message))),
     {| rows := rows w ++ stored_rows sv file documentId uploadDate total done i;
        bucket := bucket w;
        log := log w
               ++ chunk_calls sv file documentId uploadDate total
                    (done ++ [c]) i |}).
Proof.
  revert i w. induction done as [|d done IH]; intros i w Hemb Hins Hfail.
  - cbn [app List.length] in *. rewrite Nat.add_0_r in Hfail.
    rewrite (loop_turn_fails c rest i w message); auto.
    + cbn. now rewrite app_nil_r.
    + apply Hemb. now left.
  - cbn [app]. rewrite loop_turn.
    + rewrite IH.
      * cbn. now rewrite <- !app_assoc.
      * intros x Hx. apply Hemb. now right.
      * intros j x Hj. replace (S i + j) with (i + S j) by lia.
        now apply Hins.
      * cbn in Hfail. now replace (S i + List.length done)
          with (i + S (List.length done)) by lia.
    + apply Hemb. now left.
    + specialize (Hins 0 d eq_refl). now rewrite Nat.add_0_r in Hins.
Qed.

(** The rows of the loop carry the indices [i], [i + 1], .. in order. *)
Lemma stored_rows_indices (chunks : list string) (i : nat) :
  indices (stored_rows sv file documentId uploadDate total chunks i)
  = seq i (List.length chunks).
Proof.
  revert i. induction chunks as [|c rest IH]; intros i; cbn; [reflexivity|].
  f_equal. apply IH.
Qed.

Lemma stored_rows_contents (chunks : list string) (i : nat) :
  map content (stored_rows sv file documentId uploadDate total chunks i)
  = chunks.
Proof.
  revert i. induction chunks as [|c rest IH]; intros i; cbn; [reflexivity|].
  f_equal. apply IH.
Qed.

Lemma stored_rows_total (chunks : list string) (i : nat) (r : Row) :
  In r (stored_rows sv file documentId uploadDate total chunks i) ->
  total_chunks (metadata r) = total
  /\ document_id (metadata r) = documentId
  /\ file_path (metadata r) = Some path.
Proof.
  revert i. induction chunks as [|c rest IH]; intros i; cbn; [tauto|].
  intros [<-|H]; [now cbn|]. now apply (IH (S i)).
Qed.

End Loop.

(** ** Ingestion *)

(** C7: whatever the format, when the text extracted from the uploaded
    file is empty or all white space, the upload answers 400 with the
    could-not-extract error; the calls it has made are the reads of the
    file, the upload of the raw file and the extraction, and none of them
    is a call to the chunker, to the embedding service or to the row
    insert; the table is as it was. *)
Theorem blank_text_stops_ingestion (sv : Services) (file : File)
    (documentId uploadDate text : string) (w : World) :
  upload_error sv (Upload.file_path_of documentId file) (bytes file) = None ->
  extraction sv file = Return text ->
  Js.blank text = true ->
  exists calls w',
    Upload.POST sv documentId uploadDate (Some file) w
    = (Return (json 400 (ErrorOnly Upload.empty_message)), w')
    /\ rows w' = rows w
    /\ log w' = (log w ++ calls)%list
    /\ forallb (fun e => negb (is_downstream e)) calls = true.
Proof.
  intros Hup Hex Hblank.
  exists ([EvArrayBuffer (name file);
           EvStorageUpload (Upload.file_path_of documentId file)]
          ++ extraction_calls sv file)%list.
  exists (after_extraction sv file documentId w).
  split; [|split; [|split]].
  - now apply POST_blank with (text := text).
  - reflexivity.
  - reflexivity.
  - rewrite forallb_app. cbn. apply extraction_calls_not_downstream.
Qed.

Lemma blank_text_stops_ingestion_witness :
  exists calls w',
    Upload.POST Sample.services "doc-1" "2024-01-01T00:00:00.000Z"
      (Some Sample.blank_1500) fresh
    = (Return (json 400 (ErrorOnly Upload.empty_message)), w')
    /\ rows w' = rows fresh
    /\ log w' = (log fresh ++ calls)%list
    /\ forallb (fun e => negb (is_downstream e)) calls = true.
Proof.
  apply (blank_text_stops_ingestion Sample.services Sample.blank_1500
           "doc-1" "2024-01-01T00:00:00.000Z" (Sample.spaces 1500) fresh);
    vm_compute; reflexivity.
Defined.

(** What the extractor gives for each of the three formats. *)
Lemma extraction_pdf (sv : Services) (file : File) :
  Js.endsWith (Js.toLowerCase (name file)) ".pdf" = true ->
  extraction sv file
  = match pdf2json sv (bytes file) with
    | DataError parserError => Throw ("Error parsing PDF: " ++ parserError)
    | DataReady pdfData => Upload.pdf_text sv pdfData
    | Thrown message => Throw message
    end.
Proof.
  intros H. unfold extraction, Upload.extractTextFromFile, Upload.arrayBuffer,
    bind, emit, ret, lift, throw.
  cbn. rewrite H. cbn. destruct (pdf2json sv (bytes file)); reflexivity.
Qed.

Lemma extraction_docx (sv : Services) (file : File) :
  Js.endsWith (Js.toLowerCase (name file)) ".pdf" = false ->
  Js.endsWith (Js.toLowerCase (name file)) ".docx" = true ->
  extraction sv file
  = match mammoth sv (bytes file) with
    | Return value => Return value
    | Throw message => Throw ("Error extracting DOCX text: " ++ message)
    end.
Proof.
  intros H1 H2. unfold extraction, Upload.extractTextFromFile,
    Upload.arrayBuffer, bind, emit, ret, lift, throw.
  cbn. rewrite H1, H2. cbn. destruct (mammoth sv (bytes file)); reflexivity.
Qed.

Lemma extraction_txt (sv : Services) (file : File) :
  Js.endsWith (Js.toLowerCase (name file)) ".pdf" = false ->
  Js.endsWith (Js.toLowerCase (name file)) ".docx" = false ->
  Js.endsWith (Js.toLowerCase (name file)) ".txt" = true ->
  extraction sv file = Return (utf8 sv (bytes file)).
Proof.
  intros H1 H2 H3. unfold extraction, Upload.extractTextFromFile,
    Upload.arrayBuffer, bind, emit, ret, lift, throw.
  cbn. now rewrite H1, H2, H3.
Qed.

(** The three formats, one by one: a PDF whose runs give a blank text, a
    DOCX whose raw text is blank and a text file whose content is blank are
    all answered with the could-not-extract error. *)
Lemma blank_rejected_in_each_format (sv : Services) (file : File)
    (documentId uploadDate : string) (w : World) :
  upload_error sv (Upload.file_path_of documentId file) (bytes file) = None ->
  let fileName := Js.toLowerCase (name file) in
  (Js.endsWith fileName ".pdf" = true
   /\ exists d text, pdf2json sv (bytes file) = DataReady d
                     /\ Upload.pdf_text sv d = Return text
                     /\ Js.blank text = true)
  \/ (Js.endsWith fileName ".pdf" = false
      /\ Js.endsWith fileName ".docx" = true
      /\ exists text, mammoth sv (bytes file) = Return text
                      /\ Js.blank text = true)
  \/ (Js.endsWith fileName ".pdf" = false
      /\ Js.endsWith fileName ".docx" = false
      /\ Js.endsWith fileName ".txt" = true
      /\ Js.blank (utf8 sv (bytes file)) = true) ->
  fst (Upload.POST sv documentId uploadDate (Some file) w)
  = Return (json 400 (ErrorOnly Upload.empty_message)).
Proof.
  intros Hup fileName
    [(Hpdf & d & text & Hd & Ht & Hb)
    |[(Hpdf & Hdocx & text & Ht & Hb)|(Hpdf & Hdocx & Htxt & Hb)]].
  - rewrite (POST_blank sv file documentId uploadDate text w); auto.
    now rewrite extraction_pdf, Hd.
  - rewrite (POST_blank sv file documentId uploadDate text w); auto.
    now rewrite extraction_docx, Ht.
  - rewrite (POST_blank sv file documentId uploadDate
               (utf8 sv (bytes file)) w); auto.
    now rewrite extraction_txt.
Qed.

(** C5: the chunks of a document are embedded and inserted one after the
    other in index order, and when the insert of the chunk of index
    [length done] fails, the upload answers 500 with the error of the
    store at once: after the chunker, the calls are the embedding and the
    insert of the chunks 0 to [length done] and no other, and the table
    holds, after the rows it had, the rows of the chunks before the failed
    one with their indices 0, 1, .. in order. *)
Theorem insert_failure_leaves_prefix (sv : Services) (file : File)
    (documentId uploadDate text : string) (done : list string) (c : string)
    (rest : list string) (message : string) (w : World) :
  let total := List.length (done ++ c :: rest) in
  let row := stored_row sv file documentId uploadDate total in
  upload_error sv (Upload.file_path_of documentId file) (bytes file) = None ->
  extraction sv file = Return text ->
  Js.blank text = false ->
  splitText sv text = (done ++ c :: rest)%list ->
  (forall x, In x (done ++ [c]) -> ExnM.returns (embeddings sv x) = true) ->
  (forall j x, nth_error done j = Some x ->
               db_error sv (OpInsert (row j x)) = None) ->
  db_error sv (OpInsert (row (List.length done) c)) = Some message ->
  let stored := stored_rows sv file documentId uploadDate total done 0 in
  Upload.POST sv documentId uploadDate (Some file) w
  = (Return (json 500 (Failure message)),
     {| rows := rows w ++ stored;
        bucket := bucket (before_loop sv file documentId text w);
        log := log (before_loop sv file documentId text w)
               ++ chunk_calls sv file documentId uploadDate total
                    (done ++ [c]) 0 |})
  /\ indices stored = seq 0 (List.length done)
  /\ map content stored = done.
Proof.
  intros total row Hup Hex Hblank Hsplit Hemb Hins Hfail stored.
  split; [|split].
  - rewrite (POST_chunks sv file documentId uploadDate text w Hup Hex Hblank).
    rewrite Hsplit. fold total.
    rewrite (loop_aborts sv file documentId uploadDate total done c rest 0
               (before_loop sv file documentId text w) message); auto.
  - apply stored_rows_indices.
  - apply stored_rows_contents.
Qed.

Lemma insert_failure_leaves_prefix_witness :
  let r := Upload.POST Sample.second_insert_fails "doc-1"
             "2024-01-01T00:00:00.000Z" (Some Sample.plain_1500) fresh in
  fst r = Return (json 500 (Failure "insert failed"))
  /\ map summary (rows (snd r)) = [(0, 2, 800)].
Proof.
  destruct (insert_failure_leaves_prefix Sample.second_insert_fails
              Sample.plain_1500 "doc-1" "2024-01-01T00:00:00.000Z"
              (Sample.letters 1500) [Sample.letters 800] (Sample.letters 800)
              [] "insert failed" fresh) as [H _].
  - reflexivity.
  - vm_compute. reflexivity.
  - vm_compute. reflexivity.
  - vm_compute. reflexivity.
  - intros x _. reflexivity.
  - intros [|j] x Hj; [reflexivity|]. destruct j; discriminate.
  - reflexivity.
  - cbv zeta. rewrite H. vm_compute. split; reflexivity.
Defined.

(** ** The chunker of the specification *)

Section ChunkerFacts.

Variables (chunkSize overlap : nat).
Hypothesis overlap_lt : overlap < chunkSize.

#[local] Abbreviation break_point := (Chunker.break_point chunkSize overlap).
#[local] Abbreviation spans_from := (Chunker.spans_from chunkSize overlap).

Lemma last_boundary_range (b : Chunker.Boundary) (l : list ascii)
    (lo k e : nat) :
  Chunker.last_boundary b l lo k = Some e -> lo <= e < lo + k.
Proof.
  induction k as [|k IH]; cbn; [discriminate|].
  destruct (Chunker.at_boundary b l (lo + k)).
  - intros [= <-]. lia.
  - intros H. apply IH in H. lia.
Qed.

(** A slice that is not the last one is longer than the overlap and not
    longer than the chunk size. *)
Lemma break_point_range (l : list ascii) (start : nat) :
  start + overlap < break_point l start <= start + chunkSize.
Proof.
  unfold Chunker.break_point.
  repeat match goal with
  | |- context [Chunker.last_boundary ?b l ?lo ?k] =>
      let E := fresh "E" in
      destruct (Chunker.last_boundary b l lo k) eqn:E;
      [apply last_boundary_range in E; lia|]
  end.
  lia.
Qed.

Lemma spans_from_unfold (fuel : nat) (l : list ascii) (start : nat) :
  spans_from (S fuel) l start
  = if (List.length l - start <=? chunkSize)%nat
    then [(start, List.length l)]
    else (start, break_point l start)
           :: spans_from fuel l (break_point l start - overlap).
Proof. reflexivity. Qed.



(** The fuel is enough: the spans reach the end of the text. *)
Lemma spans_from_complete (fuel : nat) (l : list ascii) (start : nat) :
  start < List.length l ->
  List.length l - start <= fuel ->
  exists before s,
    spans_from fuel l start = (before ++ [(s, List.length l)])%list.
Proof.
  revert start. induction fuel as [|fuel IH]; intros start Hs Hf; [lia|].
  rewrite spans_from_unfold.
  pose proof (break_point_range l start) as Hr.
  destruct (Nat.leb_spec (List.length l - start) chunkSize) as [Hle|Hgt].
  - now exists [], start.
  - destruct (IH (break_point l start - overlap)) as (before & s & E);
      [lia|lia|].
    exists ((start, break_point l start) :: before), s.
    now rewrite E.
Qed.

(** No span is longer than the chunk size. *)
Lemma spans_from_bounded (fuel : nat) (l : list ascii) (start : nat)
    (a : nat * nat) :
  In a (spans_from fuel l start) -> snd a - fst a <= chunkSize.
Proof.
  revert start. induction fuel as [|fuel IH]; intros start; [contradiction|].
  rewrite spans_from_unfold.
  pose proof (break_point_range l start) as Hr.
  destruct (Nat.leb_spec (List.length l - start) chunkSize) as [Hle|Hgt].
  - intros [<-|[]]. cbn. lia.
  - intros [<-|H]; [cbn; lia|]. now apply IH in H.
Qed.


Lemma spans_complete (l : list ascii) :
  l <> [] ->
  exists before s,
    Chunker.spans chunkSize overlap l
    = (before ++ [(s, List.length l)])%list.
Proof.
  unfold Chunker.spans. destruct l as [|c l]; [congruence|]. intros _.
  apply spans_from_complete; cbn; lia.
Qed.

End ChunkerFacts.

(** ** Texts without white space *)

Lemma is_lf_is_ws (c : ascii) : Chunker.is_lf c = true -> Js.is_ws c = true.
Proof.
  unfold Chunker.is_lf. intros H. apply Ascii.eqb_eq in H. now subst c.
Qed.

Lemma char_at_no_ws (l : list ascii) (k : nat) :
  no_ws l = true -> Js.is_ws (Chunker.char_at l k) = false.
Proof.
  unfold no_ws, Chunker.char_at.
  revert k. induction l as [|c l IH]; intros k H.
  - destruct k; reflexivity.
  - cbn in H. apply andb_prop in H as [Hc Hl].
    destruct k as [|k]; cbn.
    + now apply negb_true_iff.
    + now apply IH.
Qed.

Lemma at_boundary_no_ws (b : Chunker.Boundary) (l : list ascii) (e : nat) :
  no_ws l = true -> Chunker.at_boundary b l e = false.
Proof.
  intros H. pose proof (char_at_no_ws l (e - 1) H) as Hw.
  destruct b; unfold Chunker.at_boundary.
  - destruct (Chunker.is_lf (Chunker.char_at l (e - 1))) eqn:E.
    + apply is_lf_is_ws in E. congruence.
    + now rewrite andb_false_r.
  - rewrite Hw. now rewrite andb_false_r.
  - rewrite Hw. now rewrite andb_false_r.
Qed.

Lemma last_boundary_no_ws (b : Chunker.Boundary) (l : list ascii)
    (lo k : nat) :
  no_ws l = true -> Chunker.last_boundary b l lo k = None.
Proof.
  intros H. induction k as [|k IH]; cbn; [reflexivity|].
  now rewrite at_boundary_no_ws.
Qed.

(** Without white space there is no natural boundary: the cut is hard. *)
Lemma break_point_no_ws (chunkSize overlap : nat) (l : list ascii)
    (start : nat) :
  no_ws l = true ->
  Chunker.break_point chunkSize overlap l start = start + chunkSize.
Proof.
  intros H. unfold Chunker.break_point.
  now rewrite !last_boundary_no_ws.
Qed.

Lemma no_ws_firstn (n : nat) (l : list ascii) :
  no_ws l = true -> no_ws (firstn n l) = true.
Proof.
  unfold no_ws. revert n. induction l as [|c l IH]; intros [|n] H; cbn in *;
    try reflexivity.
  apply andb_prop in H as [Hc Hl]. rewrite Hc. now apply IH.
Qed.

Lemma no_ws_skipn (n : nat) (l : list ascii) :
  no_ws l = true -> no_ws (skipn n l) = true.
Proof.
  unfold no_ws. revert n. induction l as [|c l IH]; intros [|n] H; cbn in *;
    try reflexivity; try assumption.
  apply andb_prop in H as [Hc Hl]. now apply IH.
Qed.

Lemma dropWhile_no_ws (l : list ascii) :
  no_ws l = true -> Js.dropWhile Js.is_ws l = l.
Proof.
  unfold no_ws. destruct l as [|c l]; cbn; [reflexivity|].
  intros H. apply andb_prop in H as [Hc _].
  apply negb_true_iff in Hc. now rewrite Hc.
Qed.

(** Trimming leaves such a text as it is. *)
Lemma trim_chars_no_ws (l : list ascii) :
  no_ws l = true -> Js.trim_chars l = l.
Proof.
  intros H. unfold Js.trim_chars. rewrite (dropWhile_no_ws l H).
  rewrite dropWhile_no_ws; [apply rev_involutive|].
  unfold no_ws in *. now rewrite forallb_rev.
Qed.

(** A text of 1500 characters without white space has the spans 0..800 and
    700..1500. *)
Lemma spans_1500 (l : list ascii) :
  List.length l = 1500 -> no_ws l = true ->
  Chunker.spans 800 100 l = [(0, 800); (700, 1500)].
Proof.
  intros Hlen Hws. unfold Chunker.spans.
  destruct l as [|c l]; [discriminate|].
  rewrite Hlen. change 1500 with (S (S 1498)).
  rewrite spans_from_unfold, Hlen.
  change (S (S 1498) - 0 <=? 800)%nat with false. cbv iota.
  rewrite (break_point_no_ws 800 100 _ 0 Hws).
  change (0 + 800 - 100) with 700.
  rewrite spans_from_unfold, Hlen.
  reflexivity.
Qed.

Lemma split_1500 (text : string) :
  String.length text = 1500 ->
  no_ws (Js.chars text) = true ->
  Chunker.split 800 100 text
  = [Js.str (firstn 800 (Js.chars text)); Js.str (skipn 700 (Js.chars text))]
  /\ List.length (firstn 800 (Js.chars text)) = 800
  /\ List.length (skipn 700 (Js.chars text)) = 800.
Proof.
  intros Hlen Hws. rewrite <- length_chars in Hlen.
  assert (H1 : List.length (firstn 800 (Js.chars text)) = 800)
    by (rewrite length_firstn; lia).
  assert (H2 : List.length (skipn 700 (Js.chars text)) = 800)
    by (rewrite length_skipn; lia).
  split; [|now split].
  unfold Chunker.split. rewrite (spans_1500 _ Hlen Hws).
  unfold Chunker.slice. cbn [map fst snd].
  change (800 - 0) with 800. change (1500 - 700) with 800.
  change (skipn 0 (Js.chars text)) with (Js.chars text).
  rewrite (firstn_all2 (n := 800) (skipn 700 (Js.chars text))); [|lia].
  rewrite !trim_chars_no_ws; auto using no_ws_firstn, no_ws_skipn.
Qed.

(** C6, as amended: a file whose extracted text has 1500 characters, none
    of them white space, is stored as exactly two chunks when the upload,
    the embeddings and the inserts succeed: the first 800 characters with
    index 0 and the last 800 characters with index 1 (so the second is at
    least 700 long), both with total 2; the chunker is the one of the
    specification. *)
Theorem two_chunks_of_1500 (sv : Services) (file : File)
    (documentId uploadDate text : string) (w : World) :
  upload_error sv (Upload.file_path_of documentId file) (bytes file) = None ->
  extraction sv file = Return text ->
  String.length text = 1500 ->
  no_ws (Js.chars text) = true ->
  splitText sv text = Chunker.split 800 100 text ->
  (forall x, ExnM.returns (embeddings sv x) = true) ->
  (forall r, db_error sv (OpInsert r) = None) ->
  exists stored w',
    Upload.POST sv documentId uploadDate (Some file) w
    = (Return (json 200
                 (Uploaded documentId (name file) 2 1500
                    (publicUrl sv (Upload.file_path_of documentId file)))),
       w')
    /\ rows w' = (rows w ++ stored)%list
    /\ map summary stored = [(0, 2, 800); (1, 2, 800)]
    /\ map content stored
       = [Js.str (firstn 800 (Js.chars text));
          Js.str (skipn 700 (Js.chars text))].
Proof.
  intros Hup Hex Hlen Hws Hsplit Hemb Hins.
  destruct (split_1500 text Hlen Hws) as (Hchunks & L0 & L1).
  assert (Hblank : Js.blank text = false).
  { unfold Js.blank. unfold no_ws in Hws.
    destruct (Js.chars text) as [|c l]; [discriminate|].
    cbn in *. apply andb_prop in Hws as [Hc _].
    apply negb_true_iff in Hc. now rewrite Hc. }
  rewrite Hchunks in Hsplit.
  eexists. eexists.
  rewrite (POST_chunks sv file documentId uploadDate text w Hup Hex Hblank).
  rewrite Hsplit. cbn [List.length].
  rewrite loop_completes; [|intros; apply Hemb|intros; apply Hins].
  rewrite Hlen.
  split; [reflexivity|]. split; [reflexivity|]. split.
  - cbn -[Js.str Js.chars firstn skipn String.length].
    unfold summary. cbn -[Js.str Js.chars firstn skipn String.length].
    now rewrite !length_str, L0, L1.
  - reflexivity.
Qed.

Lemma two_chunks_of_1500_witness :
  let r := Upload.POST Sample.services "doc-1" "2024-01-01T00:00:00.000Z"
             (Some Sample.plain_1500) fresh in
  status_of r = Some 200
  /\ map summary (rows (snd r)) = [(0, 2, 800); (1, 2, 800)].
Proof.
  destruct (two_chunks_of_1500 Sample.services Sample.plain_1500 "doc-1"
              "2024-01-01T00:00:00.000Z" (Sample.letters 1500) fresh)
    as (stored & w' & H & Hrows & Hsum & _).
  - reflexivity.
  - vm_compute. reflexivity.
  - vm_compute. reflexivity.
  - vm_compute. reflexivity.
  - reflexivity.
  - intros x. reflexivity.
  - intros r. reflexivity.
  - cbv zeta. rewrite H. cbn [fst snd]. rewrite Hrows. split; [reflexivity|].
    exact Hsum.
Defined.

(** C6 as stated fails: a file of 1500 spaces is stored as no chunk at all
    (the upload answers 400), and a file of 1500 characters in two words of
    400 and 1099 letters is stored as three chunks, the first of 400
    characters. *)
Lemma not_every_1500_gives_two_chunks :
  (let r := Upload.POST Sample.services "doc-1" "2024-01-01T00:00:00.000Z"
              (Some Sample.blank_1500) fresh in
   String.length (bytes Sample.blank_1500) = 1500
   /\ status_of r = Some 400
   /\ rows (snd r) = [])
  /\
  (let r := Upload.POST Sample.services "doc-2" "2024-01-01T00:00:00.000Z"
              (Some Sample.two_words_1500) fresh in
   String.length (bytes Sample.two_words_1500) = 1500
   /\ status_of r = Some 200
   /\ map summary (rows (snd r)) = [(0, 3, 400); (1, 3, 800); (2, 3, 499)]).
Proof. vm_compute. repeat split. Qed.

(** ** Adjacent chunks *)






(** ** The documents route *)

#[local] Arguments Documents.first_file_path : simpl never.

Lemma filter_has_not (id : string) (t : list Row) :
  filter (Store.has_document_id id)
    (filter (fun r => negb (Store.has_document_id id r)) t) = [].
Proof.
  induction t as [|r t IH]; cbn; [reflexivity|].
  destruct (Store.has_document_id id r) eqn:E; cbn; [exact IH|].
  now rewrite E.
Qed.

Lemma filter_not_absent (id : string) (t : list Row) :
  filter (Store.has_document_id id) t = [] ->
  filter (fun r => negb (Store.has_document_id id r)) t = t.
Proof.
  induction t as [|r t IH]; cbn; [reflexivity|].
  destruct (Store.has_document_id id r); cbn; [discriminate|].
  intros H. now rewrite IH.
Qed.

(** Once deleted, a document has no chunk left. *)
Lemma getByDocumentId_after_delete (id : string) (t : list Row) :
  Store.getByDocumentId id (snd (Store.deleteByDocumentId id t)) = [].
Proof.
  unfold Store.getByDocumentId, Store.deleteByDocumentId. cbn.
  now rewrite filter_has_not.
Qed.

(** Deleting a document that has no chunk removes nothing. *)
Lemma deleteByDocumentId_absent (id : string) (t : list Row) :
  filter (Store.has_document_id id) t = [] ->
  Store.deleteByDocumentId id t = (0, t).
Proof.
  intros H. unfold Store.deleteByDocumentId.
  now rewrite H, filter_not_absent.
Qed.

(** The DELETE handler when the store carries out the deletion. *)
Lemma DELETE_run (sv : Services) (id : string) (w : World) :
  id <> "" ->
  db_error sv (OpDelete id) = None ->
  Documents.DELETE sv (Some id) w
  = (Return (json 200 (Deleted match found_file_path sv id w with
                               | Some _ => true
                               | None => false
                               end)),
     {| rows := snd (Store.deleteByDocumentId id (rows w));
        bucket := match found_file_path sv id w with
                  | Some p => Store.removed sv p (bucket w)
                  | None => bucket w
                  end;
        log := log w
               ++ [EvSelect id]
               ++ match found_file_path sv id w with
                  | Some p => [EvStorageRemove p]
                  | None => []
                  end
               ++ [EvDelete id (fst (Store.deleteByDocumentId id (rows w)))] |}).
Proof.
  intros Hid Hdel. apply String.eqb_neq in Hid.
  unfold Documents.DELETE, try_catch. rewrite Hid.
  unfold found_file_path, Store.select_first, Store.delete, Store.remove,
    bind, emit, ret.
  rewrite Hdel. cbn.
  destruct (db_error sv (OpSelect id)); cbn.
  - change (Documents.first_file_path None) with (@None string). cbn.
    now repeat rewrite <- app_assoc.
  - match goal with
    | |- context [Documents.first_file_path ?x] =>
        destruct (Documents.first_file_path x)
    end; cbn; now repeat rewrite <- app_assoc.
Qed.

(** The DELETE handler when the store refuses the deletion: the rows stay,
    the raw file may be gone already. *)
Lemma DELETE_refused (sv : Services) (id : string) (w : World)
    (message : string) :
  id <> "" ->
  db_error sv (OpDelete id) = Some message ->
  fst (Documents.DELETE sv (Some id) w) = Return (json 500 (ErrorOnly message))
  /\ rows (snd (Documents.DELETE sv (Some id) w)) = rows w.
Proof.
  intros Hid Hdel. apply String.eqb_neq in Hid.
  unfold Documents.DELETE, try_catch. rewrite Hid.
  unfold Store.select_first, Store.delete, Store.remove, bind, emit, ret.
  rewrite Hdel. cbn.
  destruct (db_error sv (OpSelect id)); cbn; [now split|].
  match goal with
  | |- context [Documents.first_file_path ?x] =>
      destruct (Documents.first_file_path x)
  end; cbn; now split.
Qed.

Lemma found_file_path_absent (sv : Services) (id : string) (w : World) :
  filter (Store.has_document_id id) (rows w) = [] ->
  found_file_path sv id w = None.
Proof.
  intros H. unfold found_file_path, Documents.first_file_path. rewrite H.
  now destruct (db_error sv (OpSelect id)).
Qed.

Lemma found_file_path_first (sv : Services) (id : string) (w : World)
    (p : string) :
  found_file_path sv id w = Some p ->
  exists d more,
    filter (Store.has_document_id id) (rows w) = d :: more
    /\ file_path (metadata d) = Some p /\ p <> "".
Proof.
  unfold found_file_path, Documents.first_file_path.
  destruct (db_error sv (OpSelect id)); [discriminate|].
  destruct (filter (Store.has_document_id id) (rows w)) as [|d more];
    [discriminate|].
  cbn. destruct (file_path (metadata d)) as [q|] eqn:Eq; [|discriminate].
  destruct (String.eqb_spec q "") as [|Hq]; [discriminate|].
  intros [= <-]. exists d, more. repeat split; assumption.
Qed.

(** The GET handler for a document that has no chunk. *)
Lemma GET_absent (sv : Services) (now id : string) (w : World) :
  filter (Store.has_document_id id) (rows w) = [] ->
  Documents.GET sv now id w
  = (Return (json 404 (ErrorOnly "Document not found")), logged [EvSelect id] w).
Proof.
  intros H.
  unfold Documents.GET, try_catch, Store.select_ordered, bind, emit, ret.
  cbn. destruct (db_error sv (OpSelect id)); cbn; [reflexivity|].
  unfold Store.getByDocumentId. now rewrite H.
Qed.

(** C9: for every document id, once the DELETE handler has run with a
    store that carries out the deletion, the document has no chunk left
    (the GET handler answers 404), and a second DELETE removes 0 rows,
    leaves the table as it is and answers 200 with success, not an error;
    this holds whether or not the id was ever ingested. *)
Theorem delete_is_idempotent (sv : Services) (now id : string) (w : World) :
  id <> "" ->
  db_error sv (OpDelete id) = None ->
  let w1 := snd (Documents.DELETE sv (Some id) w) in
  Store.getByDocumentId id (rows w1) = []
  /\ fst (Documents.GET sv now id w1)
     = Return (json 404 (ErrorOnly "Document not found"))
  /\ Store.deleteByDocumentId id (rows w1) = (0, rows w1)
  /\ Documents.DELETE sv (Some id) w1
     = (Return (json 200 (Deleted false)),
        logged [EvSelect id; EvDelete id 0] w1).
Proof.
  intros Hid Hdel w1.
  assert (Hrows : rows w1 = snd (Store.deleteByDocumentId id (rows w))).
  { subst w1. now rewrite DELETE_run. }
  assert (Hnone : filter (Store.has_document_id id) (rows w1) = []).
  { rewrite Hrows. apply filter_has_not. }
  split; [|split; [|split]].
  - rewrite Hrows. apply getByDocumentId_after_delete.
  - now rewrite GET_absent.
  - now apply deleteByDocumentId_absent.
  - rewrite DELETE_run by assumption.
    rewrite found_file_path_absent by assumption.
    rewrite deleteByDocumentId_absent by assumption.
    reflexivity.
Qed.

Lemma delete_is_idempotent_witness :
  let w1 := snd (Documents.DELETE Sample.services (Some "doc-11")
                   Sample.eleven_stored) in
  List.length (rows Sample.eleven_stored) = 11
  /\ Store.getByDocumentId "doc-11" (rows w1) = []
  /\ fst (Documents.DELETE Sample.services (Some "doc-11") w1)
     = Return (json 200 (Deleted false)).
Proof.
  destruct (delete_is_idempotent Sample.services "2024-01-02T00:00:00.000Z"
              "doc-11" Sample.eleven_stored) as (H1 & _ & _ & H4).
  - discriminate.
  - reflexivity.
  - cbv zeta. split; [reflexivity|]. split; [exact H1|]. now rewrite H4.
Defined.

(** C10: the DELETE handler removes an object from the bucket only when
    the first row found for the id carries a non-empty [file_path], and
    that path is the one removed; for an id with no row, and a store that
    carries out the deletion, it answers 200 with success and
    [fileDeleted] false after the select and the delete alone, and the
    bucket is as it was. *)
Theorem delete_removes_file_only_with_path (sv : Services) (id : string)
    (w : World) :
  id <> "" ->
  let r := Documents.DELETE sv (Some id) w in
  (forall p,
     In (EvStorageRemove p) (skipn (List.length (log w)) (log (snd r))) ->
     exists d more,
       filter (Store.has_document_id id) (rows w) = d :: more
       /\ file_path (metadata d) = Some p /\ p <> "")
  /\ (filter (Store.has_document_id id) (rows w) = [] ->
      db_error sv (OpDelete id) = None ->
      r = (Return (json 200 (Deleted false)),
           logged [EvSelect id; EvDelete id 0] w)).
Proof.
  intros Hid r. split.
  - intros p. subst r.
    assert (Hlog : exists n,
      log (snd (Documents.DELETE sv (Some id) w))
      = (log w ++ [EvSelect id]
         ++ match found_file_path sv id w with
            | Some q => [EvStorageRemove q]
            | None => []
            end ++ [EvDelete id n])%list).
    { destruct (db_error sv (OpDelete id)) as [message|] eqn:Hdel.
      - exists 0.
        apply String.eqb_neq in Hid.
        unfold Documents.DELETE, try_catch. rewrite Hid.
        unfold found_file_path, Store.select_first, Store.delete,
          Store.remove, bind, emit, ret.
        rewrite Hdel.
        destruct (db_error sv (OpSelect id));
          [change (Documents.first_file_path None) with (@None string)|];
          cbn;
          try match goal with
          | |- context [Documents.first_file_path ?x] =>
              destruct (Documents.first_file_path x)
          end; cbn; now repeat rewrite <- app_assoc.
      - eexists. now rewrite DELETE_run. }
    destruct Hlog as [n ->].
    rewrite skipn_app, Nat.sub_diag, skipn_all. cbn [app skipn].
    destruct (found_file_path sv id w) as [q|] eqn:E.
    + cbn. intros [H|[H|[H|[]]]]; try discriminate.
      injection H as <-. now apply (found_file_path_first sv id w).
    + cbn. intros [H|[H|[]]]; discriminate.
  - intros Habsent Hdel. subst r.
    rewrite DELETE_run by assumption.
    rewrite found_file_path_absent by assumption.
    rewrite deleteByDocumentId_absent by assumption.
    reflexivity.
Qed.

Lemma delete_removes_file_only_with_path_witness :
  rows Sample.failed_upload = []
  /\ bucket Sample.failed_upload = [("doc-bin.bin", "abc")]
  /\ Documents.DELETE Sample.services (Some "doc-bin") Sample.failed_upload
     = (Return (json 200 (Deleted false)),
        logged [EvSelect "doc-bin"; EvDelete "doc-bin" 0] Sample.failed_upload).
Proof.
  destruct (delete_removes_file_only_with_path Sample.services "doc-bin"
              Sample.failed_upload) as [_ H]; [discriminate|].
  split; [reflexivity|]. split; [reflexivity|].
  apply H; reflexivity.
Defined.

(** ** The order of the chunks of a document *)

(** Rows that are already in the order of their keys stay as they are. *)
Lemma order_by_key_sorted (l : list Row) :
  Sorted (fun a b => Store.key_leb a b = true) l -> Store.order_by_key l = l.
Proof.
  induction 1 as [|a l Hl IH Hd]; cbn; [reflexivity|].
  rewrite IH. destruct Hd as [|b l' Hab]; cbn; [reflexivity|].
  now rewrite Hab.
Qed.

(** The decimal texts of two successive numbers below ten are in order. *)
Lemma digits_in_order (i : nat) :
  S i < 10 ->
  String.leb (Js.number_to_text i) (Js.number_to_text (S i)) = true.
Proof.
  intros H. do 9 (destruct i as [|i]; [reflexivity|]). lia.
Qed.

Section StoredOrder.

Variables (sv : Services) (file : File) (documentId uploadDate : string).
Variable total : nat.

#[local] Abbreviation stored :=
  (stored_rows sv file documentId uploadDate total).

Lemma stored_rows_sorted (chunks : list string) (i : nat) :
  i + List.length chunks <= 10 ->
  Sorted (fun a b => Store.key_leb a b = true) (stored chunks i).
Proof.
  revert i. induction chunks as [|c rest IH]; intros i H; cbn in *.
  - constructor.
  - constructor.
    + apply IH. lia.
    + destruct rest as [|c' rest']; cbn; constructor.
      unfold Store.key_leb, Store.order_key. cbn.
      apply digits_in_order. cbn in H. lia.
Qed.

Lemma stored_rows_all_match (chunks : list string) (i : nat) :
  filter (Store.has_document_id documentId) (stored chunks i)
  = stored chunks i.
Proof.
  revert i. induction chunks as [|c rest IH]; intros i; cbn; [reflexivity|].
  unfold Store.has_document_id at 1. cbn.
  now rewrite String.eqb_refl, IH.
Qed.

(** A document of at most ten chunks comes back in the order of its chunk
    indices, which is the order of the chunker. *)
Lemma up_to_ten_chunks_in_order (chunks : list string) (t : list Row) :
  List.length chunks <= 10 ->
  filter (Store.has_document_id documentId) t = stored chunks 0 ->
  Store.getByDocumentId documentId t = stored chunks 0
  /\ map content (Store.getByDocumentId documentId t) = chunks.
Proof.
  intros Hlen Ht. unfold Store.getByDocumentId. rewrite Ht.
  rewrite order_by_key_sorted by (apply stored_rows_sorted; lia).
  split; [reflexivity|]. apply stored_rows_contents.
Qed.

End StoredOrder.

(** C1, on a document of eleven chunks: the upload stores the chunks with
    the indices 0 to 10 in order, and the GET handler gets them back in the
    order 0, 1, 10, 2, .., 9 of the decimal texts of the indices, which is
    not ascending; the text it returns has the eleventh chunk in third
    place. *)
Theorem eleven_chunks_out_of_order :
  let t := rows Sample.eleven_stored in
  let got := Store.getByDocumentId "doc-11" t in
  map content t
  = ["aaaa"; "bbbb"; "cccc"; "dddd"; "eeee"; "ffff"; "gggg"; "hhhh"; "iiii";
     "jjjj"; "kkkk"]
  /\ indices t = seq 0 11
  /\ indices got = [0; 1; 10; 2; 3; 4; 5; 6; 7; 8; 9]
  /\ ascending (indices got) = false
  /\ full_text_of (Documents.GET Sample.small_chunks "2024-01-02T00:00:00.000Z"
                     "doc-11" Sample.eleven_stored)
     = Some (Js.join (nl ++ nl)
               ["aaaa"; "bbbb"; "kkkk"; "cccc"; "dddd"; "eeee"; "ffff";
                "gggg"; "hhhh"; "iiii"; "jjjj"]).
Proof. vm_compute. repeat split. Qed.

(** * More properties of the routes *)

Import More.

(** ** The upload route: the paths that fail *)

#[local] Arguments Upload.extractTextFromFile : simpl never.

Section UploadPaths.

Variables (sv : Services) (file : File) (documentId uploadDate : string).

#[local] Abbreviation path := (Upload.file_path_of documentId file).

Lemma POST_storage_error (message : string) (w : World) :
  upload_error sv path (bytes file) = Some message ->
  Upload.POST sv documentId uploadDate (Some file) w
  = (Return
       (json 500
          (Failure
             (let msg := Js.or_else message "Unknown storage error" in
              if Js.includes msg "row-level security" || Js.includes msg "RLS"
              then "Storage RLS error: " ++ msg
                   ++ ". Ensure SUPABASE_SERVICE_ROLE_KEY is set."
              else "Failed to store file: " ++ msg))),
     logged [EvArrayBuffer (name file); EvStorageUpload path] w).
Proof.
  intros Hup.
  unfold Upload.POST, try_catch, bind, Upload.arrayBuffer, Store.upload,
    emit, ret, logged.
  cbn. rewrite Hup. cbn.
  destruct (Js.includes (Js.or_else message "Unknown storage error")
              "row-level security"
            || Js.includes (Js.or_else message "Unknown storage error") "RLS");
    cbn; now rewrite <- app_assoc.
Qed.

Lemma POST_extraction_throws (message : string) (w : World) :
  upload_error sv path (bytes file) = None ->
  extraction sv file = Throw message ->
  Upload.POST sv documentId uploadDate (Some file) w
  = (Return (json 500 (Failure (Js.or_else message "Failed to process file"))),
     after_extraction sv file documentId w).
Proof.
  intros Hup Hex.
  unfold Upload.POST, try_catch, bind, Upload.arrayBuffer, Store.upload,
    emit, ret.
  cbn. rewrite Hup. cbn.
  rewrite extractTextFromFile_run, Hex.
  unfold after_extraction, logged, Store.set_bucket. cbn.
  now rewrite <- !app_assoc.
Qed.

End UploadPaths.

Section LoopOutcome.

Variables (sv : Services) (file : File) (documentId uploadDate : string).
Variable total : nat.

#[local] Abbreviation path' := (Upload.file_path_of documentId file).
#[local] Abbreviation row' := (stored_row sv file documentId uploadDate total).
#[local] Abbreviation loop' :=
  (Upload.embed_and_store sv file documentId uploadDate path' total).
#[local] Abbreviation stored' :=
  (stored_rows sv file documentId uploadDate total).

(** The turn whose embedding throws: nothing is inserted for the chunk. *)
Lemma loop_turn_throws (chunk : string) (rest : list string) (i : nat)
    (w : World) (message : string) :
  embeddings sv chunk = Throw message ->
  loop' (chunk :: rest) i w = (Throw message, logged [EvEmbed chunk] w).
Proof.
  intros H. cbn. unfold bind, emit, lift. now rewrite H.
Qed.

(** However the loop ends, it has stored the rows of the first [k] chunks
    after the rows that were there, in order, and nothing else has changed
    but the log; it ends without a response only when every chunk is
    stored, and the response of an early return has status 500. *)
Lemma loop_outcome (chunks : list string) (i : nat) (w : World) :
  exists k calls,
    k <= List.length chunks
    /\ snd (loop' chunks i w)
       = {| rows := rows w ++ stored' (firstn k chunks) i;
            bucket := bucket w;
            log := log w ++ calls |}
    /\ (fst (loop' chunks i w) = Return None -> k = List.length chunks)
    /\ (forall r, fst (loop' chunks i w) = Return (Some r) -> status r = 500).
Proof.
  revert i w. induction chunks as [|c rest IH]; intros i w.
  - exists 0, []. cbn. unfold ret. cbn. destruct w; cbn.
    rewrite !app_nil_r. repeat split; auto. discriminate.
  - destruct (embeddings sv c) as [e|message] eqn:He.
    + assert (Hr : ExnM.returns (embeddings sv c) = true) by now rewrite He.
      destruct (db_error sv (OpInsert (row' i c))) as [msg|] eqn:Hins.
      * rewrite (loop_turn_fails sv file documentId uploadDate total c rest i
                   w msg Hr Hins).
        exists 0, [EvEmbed c; EvInsert (row' i c)]. cbn.
        rewrite app_nil_r. repeat split; try lia; try discriminate.
        now intros r [= <-].
      * rewrite (loop_turn sv file documentId uploadDate total c rest i w
                   Hr Hins).
        destruct (IH (S i)
                    {| rows := rows w ++ [row' i c];
                       bucket := bucket w;
                       log := log w ++ [EvEmbed c; EvInsert (row' i c)] |})
          as (k & calls & Hk & Hw & Hnone & Hsome).
        exists (S k), ([EvEmbed c; EvInsert (row' i c)] ++ calls)%list.
        split; [cbn; lia|]. split; [|split].
        -- rewrite Hw. cbn. now rewrite <- !app_assoc.
        -- intros H. cbn. f_equal. now apply Hnone.
        -- exact Hsome.
    + rewrite (loop_turn_throws c rest i w message He).
      exists 0, [EvEmbed c]. cbn. rewrite app_nil_r.
      repeat split; try lia; discriminate.
Qed.

(** The loop up to the chunk whose embedding throws. *)
Lemma loop_embedding_throws (done : list string) (c : string)
    (rest : list string) (i : nat) (w : World) (message : string) :
  (forall x, In x done -> ExnM.returns (embeddings sv x) = true) ->
  (forall j x, nth_error done j = Some x ->
               db_error sv (OpInsert (row' (i + j) x)) = None) ->
  embeddings sv c = Throw message ->
  loop' (done ++ c :: rest) i w
  = (Throw message,
     {| rows := rows w ++ stored' done i;
        bucket := bucket w;
        log := log w
               ++ chunk_calls sv file documentId uploadDate total done i
               ++ [EvEmbed c] |}).
Proof.
  revert i w. induction done as [|d done IH]; intros i w Hemb Hins Hthrow.
  - cbn [app]. rewrite (loop_turn_throws c rest i w message Hthrow).
    unfold logged. cbn. now rewrite app_nil_r.
  - cbn [app]. rewrite loop_turn.
    + rewrite IH.
      * cbn. now rewrite <- !app_assoc.
      * intros x Hx. apply Hemb. now right.
      * intros j x Hj. replace (S i + j) with (i + S j) by lia.
        now apply Hins.
      * exact Hthrow.
    + apply Hemb. now left.
    + specialize (Hins 0 d eq_refl). now rewrite Nat.add_0_r in Hins.
Qed.

End LoopOutcome.

(** ** The upload route: what every run keeps *)

Lemma stored_rows_document_id (sv : Services) (file : File)
    (documentId uploadDate : string) (total : nat) (chunks : list string)
    (i : nat) :
  Forall (fun r => document_id (metadata r) = documentId
                   /\ file_path (metadata r)
                      = Some (Upload.file_path_of documentId file)
                   /\ total_chunks (metadata r) = total)
    (stored_rows sv file documentId uploadDate total chunks i).
Proof.
  apply Forall_forall. intros r Hr.
  destruct (stored_rows_total sv file documentId uploadDate total chunks i r Hr)
    as (H1 & H2 & H3).
  auto.
Qed.

(** How a run of the upload ends, path by path. *)
Lemma POST_cases (sv : Services) (documentId uploadDate : string)
    (file : File) (w : World) :
  let r := Upload.POST sv documentId uploadDate (Some file) w in
  let path := Upload.file_path_of documentId file in
  (exists message,
     upload_error sv path (bytes file) = Some message
     /\ status_of r = Some 500 /\ rows (snd r) = rows w
     /\ bucket (snd r) = bucket w)
  \/ (upload_error sv path (bytes file) = None
      /\ bucket (snd r) = (bucket w ++ [(path, bytes file)])%list
      /\ ((exists message,
             extraction sv file = Throw message
             /\ status_of r = Some 500 /\ rows (snd r) = rows w)
          \/ (exists text,
                extraction sv file = Return text
                /\ ((Js.blank text = true
                     /\ status_of r = Some 400 /\ rows (snd r) = rows w)
                    \/ (Js.blank text = false
                        /\ exists k,
                             k <= List.length (splitText sv text)
                             /\ rows (snd r)
                                = (rows w
                                   ++ stored_rows sv file documentId uploadDate
                                        (List.length (splitText sv text))
                                        (firstn k (splitText sv text)) 0)%list
                             /\ ((k = List.length (splitText sv text)
                                  /\ fst r
                                     = Return
                                         (json 200
                                            (Uploaded documentId (name file)
                                               (List.length (splitText sv text))
                                               (String.length text)
                                               (publicUrl sv path))))
                                 \/ status_of r = Some 500)))))).
Proof.
  intros r path. subst r.
  destruct (upload_error sv path (bytes file)) as [message|] eqn:Hup.
  - left. exists message. split; [reflexivity|].
    subst path. rewrite (POST_storage_error sv file documentId uploadDate
                           message w Hup).
    now repeat split.
  - right. split; [reflexivity|].
    destruct (extraction sv file) as [text|message] eqn:Hex.
    + destruct (Js.blank text) eqn:Hblank.
      * subst path.
        rewrite (POST_blank sv file documentId uploadDate text w Hup Hex Hblank).
        split; [reflexivity|]. right. exists text. split; [reflexivity|].
        left. now repeat split.
      * subst path.
        rewrite (POST_chunks sv file documentId uploadDate text w Hup Hex Hblank).
        destruct (loop_outcome sv file documentId uploadDate
                    (List.length (splitText sv text)) (splitText sv text) 0
                    (before_loop sv file documentId text w))
          as (k & calls & Hk & Hw & Hnone & Hsome).
        destruct (Upload.embed_and_store sv file documentId uploadDate
                    (Upload.file_path_of documentId file)
                    (List.length (splitText sv text)) (splitText sv text) 0
                    (before_loop sv file documentId text w))
          as [[[resp|]|e] w'] eqn:E; cbn [fst snd] in *; subst w'; cbn.
        -- split; [reflexivity|]. right. exists text. split; [reflexivity|].
           right. split; [exact Hblank|]. exists k. repeat split; auto.
        -- split; [reflexivity|]. right. exists text. split; [reflexivity|].
           right. split; [exact Hblank|]. exists k. repeat split; auto.
        -- split; [reflexivity|]. right. exists text. split; [reflexivity|].
           right. split; [exact Hblank|]. exists k. repeat split; auto.
    + subst path.
      rewrite (POST_extraction_throws sv file documentId uploadDate message w
                 Hup Hex).
      split; [reflexivity|]. left. exists message. now repeat split.
Qed.

Lemma status_of_status_in (r : Exn Response * World) (n : nat)
    (allowed : list nat) :
  status_of r = Some n -> In n allowed -> status_in allowed (fst r).
Proof.
  unfold status_of, status_in. destruct (fst r) as [resp|]; [|discriminate].
  intros [= <-] H. now exists resp.
Qed.

(** X1: whatever the file and whatever the collaborators do, the upload
    answers with status 200, 400 or 500 and throws nothing; the rows that
    were in the table are still there, in place, followed by the rows it
    has added, which carry the id of the document and the indices 0, 1, ..
    in order; and no object has left the bucket. *)
Theorem upload_answers_and_only_appends (sv : Services)
    (documentId uploadDate : string) (f : option File) (w : World) :
  let r := Upload.POST sv documentId uploadDate f w in
  status_in [200; 400; 500] (fst r)
  /\ (exists added,
        rows (snd r) = (rows w ++ added)%list
        /\ indices added = seq 0 (List.length added)
        /\ Forall (fun x => document_id (metadata x) = documentId) added)
  /\ (forall o, In o (bucket w) -> In o (bucket (snd r))).
Proof.
  destruct f as [file|].
  - intros r.
    pose proof (POST_cases sv documentId uploadDate file w) as H.
    cbv zeta in H. fold r in H.
    assert (Hrows : forall k total,
      indices (stored_rows sv file documentId uploadDate total
                 (firstn k (splitText sv (match extraction sv file with
                                          | Return t => t
                                          | Throw _ => ""
                                          end))) 0)
      = seq 0 (List.length
                 (stored_rows sv file documentId uploadDate total
                    (firstn k (splitText sv (match extraction sv file with
                                             | Return t => t
                                             | Throw _ => ""
                                             end))) 0))).
    { intros k total. rewrite stored_rows_indices. f_equal.
      rewrite <- (length_map content), stored_rows_contents. reflexivity. }
    destruct H as [(m & _ & Hs & Hr & Hb)
                  |(_ & Hb & [(m & _ & Hs & Hr)
                             |(text & Hex & [(_ & Hs & Hr)
                                            |(_ & k & _ & Hr & Hres)])])].
    + split; [apply (status_of_status_in r 500); cbn; auto|].
      split; [exists []; rewrite app_nil_r; auto|]. now rewrite Hb.
    + split; [apply (status_of_status_in r 500); cbn; auto|].
      split; [exists []; rewrite app_nil_r; auto|].
      intros o Ho. rewrite Hb. apply in_or_app. now left.
    + split; [apply (status_of_status_in r 400); cbn; auto|].
      split; [exists []; rewrite app_nil_r; auto|].
      intros o Ho. rewrite Hb. apply in_or_app. now left.
    + split.
      * destruct Hres as [[_ Hres]|Hres].
        -- unfold status_in. rewrite Hres. eexists. split; [reflexivity|].
           cbn. auto.
        -- apply (status_of_status_in r 500); cbn; auto.
      * split.
        -- eexists. split; [exact Hr|]. split.
           ++ specialize (Hrows k (List.length (splitText sv text))).
              now rewrite Hex in Hrows.
           ++ eapply Forall_impl;
                [|apply (stored_rows_document_id sv file documentId uploadDate)].
              now intros a (Ha & _).
        -- intros o Ho. rewrite Hb. apply in_or_app. now left.
  - cbn. split; [|split].
    + eexists. split; [reflexivity|]. cbn. auto.
    + exists []. now rewrite app_nil_r.
    + auto.
Qed.

(** X2: the upload answers 200 only when the whole document is stored:
    the text was extracted and is not blank, and the table has gained, in
    order, one row for every chunk of the chunker, with the number of
    chunks the response reports. *)
Theorem success_means_every_chunk_stored (sv : Services)
    (documentId uploadDate : string) (file : File) (w : World) :
  let r := Upload.POST sv documentId uploadDate (Some file) w in
  status_of r = Some 200 ->
  exists text,
    extraction sv file = Return text
    /\ Js.blank text = false
    /\ rows (snd r)
       = (rows w
          ++ stored_rows sv file documentId uploadDate
               (List.length (splitText sv text)) (splitText sv text) 0)%list
    /\ fst r
       = Return (json 200
                   (Uploaded documentId (name file)
                      (List.length (splitText sv text)) (String.length text)
                      (publicUrl sv (Upload.file_path_of documentId file)))).
Proof.
  intros r H200.
  pose proof (POST_cases sv documentId uploadDate file w) as H.
  cbv zeta in H. fold r in H.
  destruct H as [(m & _ & Hs & _)
                |(_ & _ & [(m & _ & Hs & _)
                          |(text & Hex & [(_ & Hs & _)
                                         |(Hb & k & _ & Hr & Hres)])])];
    try congruence.
  destruct Hres as [[-> Hres]|Hs]; [|congruence].
  exists text. rewrite firstn_all in Hr. auto.
Qed.

Lemma success_means_every_chunk_stored_witness :
  let r := Upload.POST Sample.small_chunks "doc-3" "2024-01-01T00:00:00.000Z"
             (Some three) fresh in
  status_of r = Some 200
  /\ map content (rows (snd r)) = ["aaaa"; "bbbb"; "cccc"].
Proof.
  destruct (success_means_every_chunk_stored Sample.small_chunks "doc-3"
              "2024-01-01T00:00:00.000Z" three fresh)
    as (text & Hex & _ & Hrows & _).
  - reflexivity.
  - cbv zeta. split; [reflexivity|].
    rewrite Hrows. injection Hex as <-. reflexivity.
Defined.

(** X3: when the raw upload, the extraction of a text that is not blank,
    every embedding and every insert succeed, the upload answers 200 with
    the number of chunks and the length of the text, and the table gains
    one row per chunk in the order of the chunker, with the indices 0 to
    n - 1 and the total n; this holds for any chunker, and for a chunker
    that gives no chunk the answer is still 200, with 0 chunks and no row. *)
Theorem upload_stores_every_chunk (sv : Services)
    (documentId uploadDate text : string) (file : File) (w : World) :
  upload_error sv (Upload.file_path_of documentId file) (bytes file) = None ->
  extraction sv file = Return text ->
  Js.blank text = false ->
  (forall x, In x (splitText sv text) ->
             ExnM.returns (embeddings sv x) = true) ->
  (forall r, db_error sv (OpInsert r) = None) ->
  let n := List.length (splitText sv text) in
  let stored := stored_rows sv file documentId uploadDate n (splitText sv text) 0 in
  Upload.POST sv documentId uploadDate (Some file) w
  = (Return (json 200
               (Uploaded documentId (name file) n (String.length text)
                  (publicUrl sv (Upload.file_path_of documentId file)))),
     {| rows := rows w ++ stored;
        bucket := bucket w
                  ++ [(Upload.file_path_of documentId file, bytes file)];
        log := log (before_loop sv file documentId text w)
               ++ chunk_calls sv file documentId uploadDate n
                    (splitText sv text) 0 |})
  /\ indices stored = seq 0 n
  /\ map content stored = splitText sv text
  /\ Forall (fun r => total_chunks (metadata r) = n) stored.
Proof.
  intros Hup Hex Hblank Hemb Hins n stored.
  split; [|split; [|split]].
  - rewrite (POST_chunks sv file documentId uploadDate text w Hup Hex Hblank).
    fold n. rewrite loop_completes; auto.
  - apply stored_rows_indices.
  - apply stored_rows_contents.
  - eapply Forall_impl;
      [|apply (stored_rows_document_id sv file documentId uploadDate)].
    now intros a (_ & _ & Ha).
Qed.

Lemma upload_stores_every_chunk_witness :
  let r := Upload.POST Sample.small_chunks "doc-3" "2024-01-01T00:00:00.000Z"
             (Some three) fresh in
  fst r = Return (json 200
                    (Uploaded "doc-3" "three.txt" 3 12
                       "https://bucket.example/doc-3.txt"))
  /\ map summary (rows (snd r)) = [(0, 3, 4); (1, 3, 4); (2, 3, 4)].
Proof.
  destruct (upload_stores_every_chunk Sample.small_chunks "doc-3"
              "2024-01-01T00:00:00.000Z" "aaaabbbbcccc" three fresh)
    as (H & _).
  - reflexivity.
  - reflexivity.
  - reflexivity.
  - intros x _. reflexivity.
  - intros r. reflexivity.
  - cbv zeta. rewrite H. split; reflexivity.
Defined.

(** X4: when the embedding of the chunk of index [length done] throws, the
    upload answers 500 with the message of the service (or the default
    message when it is empty); the chunks before it are embedded and
    stored, the failing chunk is embedded and not inserted, no later chunk
    is touched, and the rows stored so far stay. *)
Theorem embedding_failure_leaves_prefix (sv : Services) (file : File)
    (documentId uploadDate text : string) (done : list string) (c : string)
    (rest : list string) (message : string) (w : World) :
  let total := List.length (done ++ c :: rest) in
  let row := stored_row sv file documentId uploadDate total in
  upload_error sv (Upload.file_path_of documentId file) (bytes file) = None ->
  extraction sv file = Return text ->
  Js.blank text = false ->
  splitText sv text = (done ++ c :: rest)%list ->
  (forall x, In x done -> ExnM.returns (embeddings sv x) = true) ->
  (forall j x, nth_error done j = Some x ->
               db_error sv (OpInsert (row j x)) = None) ->
  embeddings sv c = Throw message ->
  Upload.POST sv documentId uploadDate (Some file) w
  = (Return (json 500
               (Failure (Js.or_else message "Failed to process file"))),
     {| rows := rows w
                ++ stored_rows sv file documentId uploadDate total done 0;
        bucket := bucket (before_loop sv file documentId text w);
        log := log (before_loop sv file documentId text w)
               ++ chunk_calls sv file documentId uploadDate total done 0
               ++ [EvEmbed c] |}).
Proof.
  intros total row Hup Hex Hblank Hsplit Hemb Hins Hthrow.
  rewrite (POST_chunks sv file documentId uploadDate text w Hup Hex Hblank).
  rewrite Hsplit. fold total.
  now rewrite (loop_embedding_throws sv file documentId uploadDate total done
                 c rest 0 (before_loop sv file documentId text w) message).
Qed.

Lemma embedding_failure_leaves_prefix_witness :
  let r := Upload.POST third_embedding_fails "doc-3"
             "2024-01-01T00:00:00.000Z" (Some three) fresh in
  fst r = Return (json 500 (Failure "429 rate limited"))
  /\ map summary (rows (snd r)) = [(0, 4, 5); (1, 4, 4)].
Proof.
  pose proof (embedding_failure_leaves_prefix third_embedding_fails three
                "doc-3" "2024-01-01T00:00:00.000Z" "aaaabbbbcccc"
                ["alpha"; "beta"] "gamma" ["delta"] "429 rate limited" fresh)
    as H.
  cbv zeta in H. rewrite H.
  - split; reflexivity.
  - reflexivity.
  - reflexivity.
  - reflexivity.
  - reflexivity.
  - intros x [<-|[<-|[]]]; reflexivity.
  - intros j x _. reflexivity.
  - reflexivity.
Defined.

(** X5: when the storage refuses the raw file, the upload answers 500 with
    a message that begins with the RLS hint when the error of the storage
    mentions row-level security or RLS and with the plain failure text
    otherwise; the file has been read once and offered to the storage, and
    neither the extraction nor anything after it has run: table and bucket
    are as they were. *)
Theorem storage_failure_stops_upload (sv : Services) (file : File)
    (documentId uploadDate message : string) (w : World) :
  upload_error sv (Upload.file_path_of documentId file) (bytes file)
  = Some message ->
  let msg := Js.or_else message "Unknown storage error" in
  let rls := Js.includes msg "row-level security" || Js.includes msg "RLS" in
  Upload.POST sv documentId uploadDate (Some file) w
  = (Return
       (json 500
          (Failure
             (if rls
              then "Storage RLS error: " ++ msg
                   ++ ". Ensure SUPABASE_SERVICE_ROLE_KEY is set."
              else "Failed to store file: " ++ msg))),
     {| rows := rows w;
        bucket := bucket w;
        log := log w
               ++ [EvArrayBuffer (name file);
                   EvStorageUpload (Upload.file_path_of documentId file)] |}).
Proof.
  intros Hup msg rls.
  now rewrite (POST_storage_error sv file documentId uploadDate message w Hup).
Qed.

Lemma storage_failure_stops_upload_witness :
  Upload.POST storage_refuses "doc-1" "2024-01-01T00:00:00.000Z"
    (Some Sample.plain_1500) fresh
  = (Return
       (json 500
          (Failure
             "Storage RLS error: new row violates row-level security policy. Ensure SUPABASE_SERVICE_ROLE_KEY is set.")),
     {| rows := []; bucket := [];
        log := [EvArrayBuffer "notes.txt"; EvStorageUpload "doc-1.txt"] |}).
Proof.
  rewrite (storage_failure_stops_upload storage_refuses Sample.plain_1500
             "doc-1" "2024-01-01T00:00:00.000Z"
             "new row violates row-level security policy" fresh);
    reflexivity.
Defined.

(** ** Files whose ingestion stored nothing *)

#[local] Arguments Documents.first_file_path : simpl never.

(** The download branch for a document that has no row. *)
Lemma GET_file_absent (sv : Services) (rd : DocumentsRoute.Reads)
    (id : string) (view : bool) (w : World) :
  filter (Store.has_document_id id) (rows w) = [] ->
  DocumentsRoute.GET_file sv rd id view w
  = (Return (DocumentsRoute.Json (json 404 (ErrorOnly "Document not found"))),
     logged [EvSelect id] w).
Proof.
  intros H.
  unfold DocumentsRoute.GET_file, Store.select_first, bind, emit, ret.
  cbn. destruct (db_error sv (OpSelect id)); cbn; [reflexivity|].
  now rewrite H.
Qed.

Lemma stored_at_app (path : string) (a b : list (string * Buffer)) :
  stored_at path (a ++ b) = stored_at path a || stored_at path b.
Proof. unfold stored_at. apply existsb_app. Qed.

(** X6: when the raw upload succeeds and the extraction throws (an
    unsupported extension, a PDF or DOCX that does not parse), the upload
    answers 500 with the message of the extraction, stores no row and
    leaves the raw file in the bucket; for a document id that has no row,
    that file can then neither be downloaded (the download branch answers
    404, document not found) nor removed by DELETE, which answers success
    with [fileDeleted] false and leaves the bucket as it is. *)
Theorem failed_extraction_orphans_file (sv : Services)
    (rd : DocumentsRoute.Reads) (file : File)
    (documentId uploadDate now message : string) (view : bool) (w : World) :
  documentId <> "" ->
  filter (Store.has_document_id documentId) (rows w) = [] ->
  upload_error sv (Upload.file_path_of documentId file) (bytes file) = None ->
  extraction sv file = Throw message ->
  db_error sv (OpDelete documentId) = None ->
  let r := Upload.POST sv documentId uploadDate (Some file) w in
  let w1 := snd r in
  fst r = Return (json 500
                    (Failure (Js.or_else message "Failed to process file")))
  /\ rows w1 = rows w
  /\ bucket w1
     = (bucket w ++ [(Upload.file_path_of documentId file, bytes file)])%list
  /\ fst (DocumentsRoute.GET sv rd now (Some documentId) true view w1)
     = Return (DocumentsRoute.Json
                 (json 404 (ErrorOnly "Document not found")))
  /\ fst (Documents.DELETE sv (Some documentId) w1)
     = Return (json 200 (Deleted false))
  /\ bucket (snd (Documents.DELETE sv (Some documentId) w1)) = bucket w1.
Proof.
  intros Hid Hfresh Hup Hex Hdel r w1. subst w1 r.
  rewrite (POST_extraction_throws sv file documentId uploadDate message w
             Hup Hex).
  cbn [fst snd].
  assert (Hw : filter (Store.has_document_id documentId)
                 (rows (after_extraction sv file documentId w)) = [])
    by exact Hfresh.
  split; [reflexivity|]. split; [reflexivity|]. split; [reflexivity|].
  split.
  - unfold DocumentsRoute.GET, try_catch.
    apply String.eqb_neq in Hid. rewrite Hid.
    now rewrite GET_file_absent.
  - rewrite DELETE_run by assumption.
    rewrite found_file_path_absent by assumption.
    now split.
Qed.

Lemma failed_extraction_orphans_file_witness :
  let w1 := Sample.failed_upload in
  bucket w1 = [("doc-bin.bin", "abc")]
  /\ fst (DocumentsRoute.GET Sample.services reads "2024-01-02T00:00:00.000Z"
            (Some "doc-bin") true false w1)
     = Return (DocumentsRoute.Json (json 404 (ErrorOnly "Document not found")))
  /\ bucket (snd (Documents.DELETE Sample.services (Some "doc-bin") w1))
     = [("doc-bin.bin", "abc")].
Proof.
  destruct (failed_extraction_orphans_file Sample.services reads Sample.binary
              "doc-bin" "2024-01-01T00:00:00.000Z" "2024-01-02T00:00:00.000Z"
              Upload.unsupported_message false fresh)
    as (_ & _ & Hb & Hget & _ & Hdel).
  - discriminate.
  - reflexivity.
  - reflexivity.
  - reflexivity.
  - reflexivity.
  - cbv zeta. unfold Sample.failed_upload. rewrite Hdel, Hb.
    split; [reflexivity|]. split; [exact Hget|reflexivity].
Defined.

(** ** PDFs without text *)

Lemma append_runs_no_text (sv : Services) (rs : list Run) (acc : string) :
  forallb (fun r => String.eqb (T r) "") rs = true ->
  Upload.append_runs sv acc rs = Return acc.
Proof.
  induction rs as [|r rs IH]; cbn; [reflexivity|].
  intros H. apply andb_prop in H as [Hr Hrs]. rewrite Hr. now apply IH.
Qed.

Lemma append_texts_no_text (sv : Services) (ts : list TextItem)
    (acc : string) :
  forallb (fun t => forallb (fun r => String.eqb (T r) "") (R t)) ts = true ->
  Upload.append_texts sv acc ts = Return acc.
Proof.
  induction ts as [|t ts IH]; cbn; [reflexivity|].
  intros H. apply andb_prop in H as [Ht Hts].
  rewrite (append_runs_no_text sv (R t) acc Ht). cbn. now apply IH.
Qed.

Lemma append_pages_no_text (sv : Services) (ps : list Page) (acc : string) :
  forallb (fun p =>
    forallb (fun t => forallb (fun r => String.eqb (T r) "") (R t)) (Texts p))
    ps = true ->
  Upload.append_pages sv acc ps = Return acc.
Proof.
  induction ps as [|p ps IH]; cbn; [reflexivity|].
  intros H. apply andb_prop in H as [Hp Hps].
  rewrite (append_texts_no_text sv (Texts p) acc Hp). cbn. now apply IH.
Qed.

(** X7: a file whose name ends in [.pdf] in any letter case, and whose
    pages the parser reads without finding a run of text (no page, no
    text, or runs with an empty [T] only), is answered 400 with the
    could-not-extract error, whatever else the collaborators do: no chunk
    is made, embedded or stored. *)
Theorem pdf_without_text_is_rejected (sv : Services) (file : File)
    (documentId uploadDate : string) (d : PdfData) (w : World) :
  Js.endsWith (Js.toLowerCase (name file)) ".pdf" = true ->
  upload_error sv (Upload.file_path_of documentId file) (bytes file) = None ->
  pdf2json sv (bytes file) = DataReady d ->
  no_text_runs d = true ->
  Upload.POST sv documentId uploadDate (Some file) w
  = (Return (json 400 (ErrorOnly Upload.empty_message)),
     {| rows := rows w;
        bucket := bucket w
                  ++ [(Upload.file_path_of documentId file, bytes file)];
        log := log w
               ++ [EvArrayBuffer (name file);
                   EvStorageUpload (Upload.file_path_of documentId file);
                   EvArrayBuffer (name file); EvPdfParse] |}).
Proof.
  intros Hpdf Hup Hd Hno.
  assert (Hex : extraction sv file = Return "").
  { rewrite extraction_pdf, Hd by assumption.
    unfold Upload.pdf_text.
    now rewrite (append_pages_no_text sv (Pages d) "" Hno). }
  rewrite (POST_blank sv file documentId uploadDate "" w Hup Hex eq_refl).
  unfold after_extraction. do 2 f_equal.
  unfold extraction_calls, Upload.extractTextFromFile, Upload.arrayBuffer,
    bind, emit, ret, lift.
  cbn. rewrite Hpdf. cbn. now rewrite Hd.
Qed.

Lemma pdf_without_text_is_rejected_witness :
  fst (Upload.POST Sample.services "doc-9" "2024-01-01T00:00:00.000Z"
         (Some scanned) fresh)
  = Return (json 400 (ErrorOnly Upload.empty_message)).
Proof.
  rewrite (pdf_without_text_is_rejected Sample.services scanned "doc-9"
             "2024-01-01T00:00:00.000Z" {| Pages := [] |} fresh);
    reflexivity.
Defined.

(** ** The list of the documents *)

Section Listing.

Variable now : string.

#[local] Abbreviation dedup := (DocumentsRoute.deduplicate now).

Lemma deduplicate_ids (l : list Row) (seen : list string) (x : string) :
  In x (DocumentsRoute.ids (dedup seen l))
  <-> x <> ""
      /\ existsb (String.eqb x) seen = false
      /\ exists r, In r l /\ document_id (metadata r) = x.
Proof.
  revert seen. induction l as [|doc l IH]; intros seen; cbn.
  - split; [tauto|]. now intros (_ & _ & r & [] & _).
  - destruct (String.eqb_spec (document_id (metadata doc)) "") as [Hd|Hd];
      cbn [negb andb].
    + rewrite IH. split.
      * intros (H1 & H2 & r & Hr & Hx). repeat split; auto. exists r. auto.
      * intros (H1 & H2 & r & [<-|Hr] & Hx); [congruence|].
        repeat split; auto. now exists r.
    + destruct (existsb (String.eqb (document_id (metadata doc))) seen)
        eqn:Hseen; cbn [negb].
      * rewrite IH. split.
        -- intros (H1 & H2 & r & Hr & Hx). repeat split; auto. exists r. auto.
        -- intros (H1 & H2 & r & [<-|Hr] & Hx); [congruence|].
           repeat split; auto. now exists r.
      * cbn [DocumentsRoute.ids map In DocumentsRoute.id
             DocumentsRoute.summary_of].
        fold (DocumentsRoute.ids
                (dedup (document_id (metadata doc) :: seen) l)).
        rewrite IH. cbn [existsb]. split.
        -- intros [<-|(H1 & H2 & r & Hr & Hx)].
           ++ repeat split; auto. now exists doc; auto.
           ++ apply orb_false_elim in H2 as [_ H2].
              repeat split; auto. exists r. auto.
        -- intros (H1 & H2 & r & Hr & Hx).
           destruct (String.eqb_spec x (document_id (metadata doc))) as [E|E];
             [now left|right].
           repeat split; auto. destruct Hr as [<-|Hr]; [congruence|].
           now exists r.
Qed.

Lemma deduplicate_NoDup (l : list Row) (seen : list string) :
  NoDup (DocumentsRoute.ids (dedup seen l)).
Proof.
  revert seen. induction l as [|doc l IH]; intros seen; cbn; [constructor|].
  destruct (negb (String.eqb (document_id (metadata doc)) "")
            && negb (existsb (String.eqb (document_id (metadata doc))) seen));
    [|apply IH].
  cbn. constructor; [|apply IH].
  intros H. apply deduplicate_ids in H as (_ & H & _).
  cbn in H. now rewrite String.eqb_refl in H.
Qed.

Lemma deduplicate_first_seen (l : list Row) (seen : list string)
    (s : DocumentsRoute.Summary) :
  In s (dedup seen l) ->
  exists r,
    find (Store.has_document_id (DocumentsRoute.id s)) l = Some r
    /\ s = DocumentsRoute.summary_of now (metadata r).
Proof.
  revert seen. induction l as [|doc l IH]; intros seen; cbn; [tauto|].
  destruct (negb (String.eqb (document_id (metadata doc)) "")
            && negb (existsb (String.eqb (document_id (metadata doc))) seen))
    eqn:Hc.
  - intros [<-|Hs].
    + exists doc. cbn. unfold Store.has_document_id.
      now rewrite String.eqb_refl.
    + assert (Hid : In (DocumentsRoute.id s)
                      (DocumentsRoute.ids
                         (dedup (document_id (metadata doc) :: seen) l)))
        by now apply in_map.
      apply deduplicate_ids in Hid as (_ & Hid & _).
      cbn in Hid. apply orb_false_elim in Hid as [Hne _].
      unfold Store.has_document_id at 1.
      rewrite String.eqb_sym, Hne. now apply (IH _ Hs).
  - intros Hs.
    assert (Hid : In (DocumentsRoute.id s) (DocumentsRoute.ids (dedup seen l)))
      by now apply in_map.
    apply deduplicate_ids in Hid as (Hne & Hseen & _).
    unfold Store.has_document_id at 1.
    destruct (String.eqb_spec (document_id (metadata doc))
                (DocumentsRoute.id s)) as [E|E]; [|now apply (IH _ Hs)].
    exfalso. rewrite E in Hc.
    apply String.eqb_neq in Hne. rewrite Hne, Hseen in Hc. discriminate.
Qed.

(** Rows of one document that is already in the map add nothing. *)
Lemma deduplicate_all_seen (l : list Row) (seen : list string) (d : string) :
  Forall (fun r => document_id (metadata r) = d) l ->
  existsb (String.eqb d) seen = true ->
  dedup seen l = [].
Proof.
  intros Hl Hseen. induction Hl as [|r l Hr Hl IH]; cbn; [reflexivity|].
  now rewrite Hr, Hseen, andb_false_r.
Qed.

(** The rows of a new document, after the table, add its entry at the end. *)
Lemma deduplicate_app_new (l : list Row) (seen : list string) (d : string)
    (r0 : Row) (rest : list Row) :
  Forall (fun r => document_id (metadata r) = d) (r0 :: rest) ->
  d <> "" ->
  existsb (String.eqb d) seen = false ->
  filter (Store.has_document_id d) l = [] ->
  dedup seen (l ++ r0 :: rest)
  = (dedup seen l ++ [DocumentsRoute.summary_of now (metadata r0)])%list.
Proof.
  intros Hall Hd. revert seen. induction l as [|doc l IH]; intros seen Hseen Hl.
  - cbn. inversion Hall as [|? ? H0 Hrest]; subst.
    apply String.eqb_neq in Hd. rewrite Hd, Hseen. cbn. f_equal.
    apply (deduplicate_all_seen rest _ (document_id (metadata r0)) Hrest).
    cbn. now rewrite String.eqb_refl.
  - cbn in Hl |- *.
    destruct (Store.has_document_id d doc) eqn:Hdoc; [discriminate|].
    unfold Store.has_document_id in Hdoc.
    destruct (negb (String.eqb (document_id (metadata doc)) "")
              && negb (existsb (String.eqb (document_id (metadata doc))) seen)).
    + cbn. f_equal. apply IH; [|exact Hl].
      cbn. now rewrite String.eqb_sym, Hdoc, Hseen.
    + now apply IH.
Qed.

End Listing.

Lemma GET_list_run (sv : Services) (rd : DocumentsRoute.Reads) (now : string)
    (id : option string) (file view : bool) (w : World) :
  id = None \/ id = Some "" ->
  DocumentsRoute.GET sv rd now id file view w
  = (Return
       match DocumentsRoute.select_all_error rd with
       | Some message => DocumentsRoute.Json (json 500 (ErrorOnly message))
       | None =>
           DocumentsRoute.Listing (DocumentsRoute.deduplicate now [] (rows w))
       end, w).
Proof.
  intros [->| ->]; unfold DocumentsRoute.GET, try_catch, DocumentsRoute.GET_list;
    cbn; destruct (DocumentsRoute.select_all_error rd); reflexivity.
Qed.

(** X15: GET without an id (or with an empty one) lists the documents
    when the select succeeds: one entry for every non-empty document id
    that some row carries and no other, no id twice, each entry made from
    the metadata of the first row of the table that carries its id; the
    table and the bucket are untouched. *)
Theorem listing_one_entry_per_document (sv : Services)
    (rd : DocumentsRoute.Reads) (now : string) (id : option string)
    (file view : bool) (w : World) :
  id = None \/ id = Some "" ->
  DocumentsRoute.select_all_error rd = None ->
  exists l,
    DocumentsRoute.GET sv rd now id file view w
    = (Return (DocumentsRoute.Listing l), w)
    /\ NoDup (DocumentsRoute.ids l)
    /\ (forall x, In x (DocumentsRoute.ids l)
                  <-> x <> ""
                      /\ exists r, In r (rows w)
                                   /\ document_id (metadata r) = x)
    /\ (forall s, In s l ->
          exists r,
            find (Store.has_document_id (DocumentsRoute.id s)) (rows w)
            = Some r
            /\ s = DocumentsRoute.summary_of now (metadata r)).
Proof.
  intros Hid Hsel. exists (DocumentsRoute.deduplicate now [] (rows w)).
  split; [|split; [|split]].
  - now rewrite (GET_list_run sv rd now id file view w Hid), Hsel.
  - apply deduplicate_NoDup.
  - intros x. rewrite deduplicate_ids. cbn. tauto.
  - intros s. apply deduplicate_first_seen.
Qed.

Lemma listing_one_entry_per_document_witness :
  exists l,
    fst (DocumentsRoute.GET Sample.services reads "2024-01-02T00:00:00.000Z"
           None false false two_documents)
    = Return (DocumentsRoute.Listing l)
    /\ List.length (rows two_documents) = 14
    /\ DocumentsRoute.ids l = ["doc-3"; "doc-11"].
Proof.
  destruct (listing_one_entry_per_document Sample.services reads
              "2024-01-02T00:00:00.000Z" None false false two_documents)
    as (l & H & _).
  - now left.
  - reflexivity.
  - exists l. rewrite H. split; [reflexivity|]. split; [reflexivity|].
    vm_compute in H. injection H as <-. reflexivity.
Defined.

(** X16: a DELETE that the store carries out takes exactly its document
    out of the list: afterwards the list has the ids it had before except
    the deleted one. *)
Theorem delete_takes_document_off_the_list (sv : Services) (now id : string)
    (w : World) (x : string) :
  id <> "" ->
  db_error sv (OpDelete id) = None ->
  In x (listed now (snd (Documents.DELETE sv (Some id) w)))
  <-> In x (listed now w) /\ x <> id.
Proof.
  intros Hid Hdel. unfold listed.
  rewrite DELETE_run by assumption. cbn [snd rows].
  rewrite !deduplicate_ids. cbn [existsb]. split.
  - intros (Hx & _ & r & Hr & Hrx).
    unfold Store.deleteByDocumentId in Hr. cbn [snd] in Hr.
    apply filter_In in Hr as [Hr Hneg].
    apply negb_true_iff in Hneg. unfold Store.has_document_id in Hneg.
    apply String.eqb_neq in Hneg.
    split; [|congruence]. repeat split; auto. now exists r.
  - intros ((Hx & _ & r & Hr & Hrx) & Hne).
    repeat split; auto. exists r. split; [|exact Hrx].
    unfold Store.deleteByDocumentId. cbn [snd].
    apply filter_In. split; [exact Hr|].
    apply negb_true_iff. unfold Store.has_document_id.
    apply String.eqb_neq. congruence.
Qed.

Lemma delete_takes_document_off_the_list_witness :
  listed "2024-01-02T00:00:00.000Z" two_documents = ["doc-3"; "doc-11"]
  /\ In "doc-11"
       (listed "2024-01-02T00:00:00.000Z"
          (snd (Documents.DELETE Sample.services (Some "doc-3")
                  two_documents))).
Proof.
  split; [vm_compute; reflexivity|].
  destruct (delete_takes_document_off_the_list Sample.services
              "2024-01-02T00:00:00.000Z" "doc-3" two_documents "doc-11")
    as [_ H].
  - discriminate.
  - reflexivity.
  - apply H. split; [|discriminate]. vm_compute. auto.
Defined.

#[local] Arguments Documents.first_file_path : simpl never.

(** ** The chunks of a document, as GET finds them *)

Lemma insert_by_key_perm (r : Row) (l : list Row) :
  Permutation (Store.insert_by_key r l) (r :: l).
Proof.
  induction l as [|x l IH]; cbn; [reflexivity|].
  destruct (Store.key_leb r x); [reflexivity|].
  rewrite IH. apply perm_swap.
Qed.

Lemma order_by_key_perm (l : list Row) : Permutation (Store.order_by_key l) l.
Proof.
  induction l as [|r l IH]; cbn; [reflexivity|].
  rewrite insert_by_key_perm. now constructor.
Qed.

Lemma insert_by_key_sorted (r : Row) (l : list Row) :
  Sorted (fun a b => Store.key_leb a b = true) l ->
  Sorted (fun a b => Store.key_leb a b = true) (Store.insert_by_key r l).
Proof.
  induction 1 as [|x l Hl IH Hd]; cbn.
  - repeat constructor.
  - destruct (Store.key_leb r x) eqn:E.
    + constructor; [now constructor|]. now constructor.
    + constructor; [exact IH|].
      assert (Hxr : Store.key_leb x r = true).
      { unfold Store.key_leb in *.
        destruct (String.leb_total (Store.order_key r) (Store.order_key x));
          congruence. }
      destruct Hd as [|y l' Hxy]; cbn.
      * now constructor.
      * destruct (Store.key_leb r y); now constructor.
Qed.

Lemma order_by_key_is_sorted (l : list Row) :
  Sorted (fun a b => Store.key_leb a b = true) (Store.order_by_key l).
Proof.
  induction l as [|r l IH]; cbn; [constructor|].
  now apply insert_by_key_sorted.
Qed.

(** X8: what GET finds for a document id is exactly the rows of the table
    that carry the id, each once and none of another document (a
    permutation of them), arranged so that the decimal texts of the chunk
    indices never decrease from one row to the next. *)
Theorem getByDocumentId_exactly_the_rows (id : string) (t : list Row) :
  Permutation (Store.getByDocumentId id t) (filter (Store.has_document_id id) t)
  /\ Forall (fun r => document_id (metadata r) = id) (Store.getByDocumentId id t)
  /\ Sorted (fun a b =>
               String.leb (Js.number_to_text (chunk_index (metadata a)))
                          (Js.number_to_text (chunk_index (metadata b))) = true)
       (Store.getByDocumentId id t).
Proof.
  unfold Store.getByDocumentId. split; [apply order_by_key_perm|]. split.
  - apply Forall_forall. intros r Hr.
    apply (Permutation_in _ (order_by_key_perm _)) in Hr.
    apply filter_In in Hr as [_ Hr].
    now apply String.eqb_eq in Hr.
  - apply order_by_key_is_sorted.
Qed.

Lemma getByDocumentId_length (id : string) (t : list Row) :
  List.length (Store.getByDocumentId id t)
  = List.length (filter (Store.has_document_id id) t).
Proof. apply Permutation_length, order_by_key_perm. Qed.

(** X9: GET for one document only adds its select to the log.  It answers
    404, document not found, when the select fails or no row carries the
    id; otherwise it answers 200 with, as [total_chunks], the number of
    rows that carry the id (not the total written in their metadata) and,
    as [fullText], the contents of these rows in the order of the select,
    separated by blank lines. *)
Theorem GET_reports_rows_found (sv : Services) (now id : string) (w : World) :
  let found := filter (Store.has_document_id id) (rows w) in
  let r := Documents.GET sv now id w in
  snd r = logged [EvSelect id] w
  /\ (db_error sv (OpSelect id) <> None \/ found = [] ->
      fst r = Return (json 404 (ErrorOnly "Document not found")))
  /\ (db_error sv (OpSelect id) = None -> found <> [] ->
      exists fn ft fs ud fu fp,
        fst r
        = Return (json 200
                    (Document id fn ft fs ud (List.length found)
                       (Js.join (nl ++ nl)
                          (map content (Store.getByDocumentId id (rows w))))
                       fu fp))).
Proof.
  intros found r. subst r.
  unfold Documents.GET, try_catch, Store.select_ordered, bind, emit, ret.
  cbn -[Js.join nl Store.getByDocumentId].
  destruct (db_error sv (OpSelect id)) as [e|] eqn:Hsel; cbn -[Js.join nl Store.getByDocumentId].
  - split; [reflexivity|]. split; [reflexivity|]. discriminate.
  - pose proof (getByDocumentId_length id (rows w)) as Hlen. fold found in Hlen.
    destruct (Store.getByDocumentId id (rows w)) as [|d more] eqn:E;
      cbn -[Js.join nl Store.getByDocumentId].
    + split; [reflexivity|]. split; [reflexivity|].
      intros _ Hne. destruct found; [congruence|discriminate].
    + split; [reflexivity|]. split.
      * intros [H|H]; [congruence|]. rewrite H in Hlen. discriminate.
      * intros _ _. rewrite <- Hlen. repeat eexists.
Qed.

Lemma GET_reports_rows_found_witness :
  exists fn ft fs ud fu fp,
    fst (Documents.GET Sample.small_chunks "2024-01-02T00:00:00.000Z" "doc-3"
           three_stored)
    = Return (json 200
                (Document "doc-3" fn ft fs ud 3
                   (Js.join (nl ++ nl) ["aaaa"; "bbbb"; "cccc"]) fu fp)).
Proof.
  destruct (GET_reports_rows_found Sample.small_chunks
              "2024-01-02T00:00:00.000Z" "doc-3" three_stored) as (_ & _ & H).
  destruct H as (fn & ft & fs & ud & fu & fp & H).
  - reflexivity.
  - discriminate.
  - exists fn, ft, fs, ud, fu, fp. exact H.
Defined.

(** ** DELETE and the other documents *)

Lemma filter_other_document (id id' : string) (t : list Row) :
  id' <> id ->
  filter (Store.has_document_id id')
    (filter (fun r => negb (Store.has_document_id id r)) t)
  = filter (Store.has_document_id id') t.
Proof.
  intros Hne. induction t as [|r t IH]; [reflexivity|].
  cbn [filter].
  destruct (Store.has_document_id id r) eqn:E1;
    destruct (Store.has_document_id id' r) eqn:E2;
    cbn [negb filter]; rewrite ?E2, ?IH; try reflexivity.
  exfalso. unfold Store.has_document_id in E1, E2.
  apply String.eqb_eq in E1, E2. congruence.
Qed.

(** The rows after DELETE, whatever the store does. *)
Lemma DELETE_rows (sv : Services) (id : option string) (w : World) :
  rows (snd (Documents.DELETE sv id w)) = rows w
  \/ exists i, id = Some i /\ i <> ""
               /\ db_error sv (OpDelete i) = None
               /\ rows (snd (Documents.DELETE sv id w))
                  = filter (fun r => negb (Store.has_document_id i r)) (rows w).
Proof.
  destruct id as [i|]; [|now left].
  destruct (String.eqb_spec i "") as [->|Hi]; [now left|].
  destruct (db_error sv (OpDelete i)) as [m|] eqn:Hdel.
  - left. now apply (DELETE_refused sv i w m).
  - right. exists i. rewrite DELETE_run by assumption. now repeat split.
Qed.

(** X10: DELETE of one document never touches the rows of another: for
    every other id, the rows that carry it are the same, in the same order,
    before and after, whether the deletion is carried out, refused by the
    store or turned away for want of an id. *)
Theorem DELETE_keeps_other_documents (sv : Services) (id : option string)
    (other : string) (w : World) :
  id <> Some other ->
  let w' := snd (Documents.DELETE sv id w) in
  filter (Store.has_document_id other) (rows w')
  = filter (Store.has_document_id other) (rows w)
  /\ Store.getByDocumentId other (rows w')
     = Store.getByDocumentId other (rows w).
Proof.
  intros Hne w'. subst w'.
  assert (H : filter (Store.has_document_id other)
                (rows (snd (Documents.DELETE sv id w)))
              = filter (Store.has_document_id other) (rows w)).
  { destruct (DELETE_rows sv id w) as [->|(i & -> & _ & _ & ->)];
      [reflexivity|].
    apply filter_other_document. congruence. }
  split; [exact H|]. unfold Store.getByDocumentId. now rewrite H.
Qed.

Lemma DELETE_keeps_other_documents_witness :
  let w' := snd (Documents.DELETE Sample.services (Some "doc-11")
                   two_documents) in
  map content (rows w') = ["aaaa"; "bbbb"; "cccc"]
  /\ Store.getByDocumentId "doc-3" (rows w')
     = Store.getByDocumentId "doc-3" (rows two_documents).
Proof.
  cbv zeta. split; [vm_compute; reflexivity|].
  apply (DELETE_keeps_other_documents Sample.services (Some "doc-11") "doc-3").
  discriminate.
Defined.

(** The handler for an id that is not empty, whatever the store and the
    storage do. *)
Lemma DELETE_general (sv : Services) (id : string) (w : World) :
  id <> "" ->
  Documents.DELETE sv (Some id) w
  = (Return
       match db_error sv (OpDelete id) with
       | Some message => json 500 (ErrorOnly message)
       | None => json 200 (Deleted match found_file_path sv id w with
                                   | Some _ => true
                                   | None => false
                                   end)
       end,
     {| rows := match db_error sv (OpDelete id) with
                | Some _ => rows w
                | None => snd (Store.deleteByDocumentId id (rows w))
                end;
        bucket := match found_file_path sv id w with
                  | Some p => Store.removed sv p (bucket w)
                  | None => bucket w
                  end;
        log := log w
               ++ [EvSelect id]
               ++ match found_file_path sv id w with
                  | Some p => [EvStorageRemove p]
                  | None => []
                  end
               ++ [EvDelete id
                     match db_error sv (OpDelete id) with
                     | Some _ => 0
                     | None => fst (Store.deleteByDocumentId id (rows w))
                     end] |}).
Proof.
  intros Hid.
  destruct (db_error sv (OpDelete id)) as [message|] eqn:Hdel;
    [|now apply DELETE_run].
  apply String.eqb_neq in Hid.
  unfold Documents.DELETE, try_catch. rewrite Hid.
  unfold found_file_path, Store.select_first, Store.delete, Store.remove,
    bind, emit, ret.
  rewrite Hdel.
  destruct (db_error sv (OpSelect id));
    [change (Documents.first_file_path None) with (@None string)|];
    cbn;
    try match goal with
    | |- context [Documents.first_file_path ?x] =>
        destruct (Documents.first_file_path x)
    end; cbn; now repeat rewrite <- app_assoc.
Qed.

Lemma stored_at_removed (sv : Services) (p : string)
    (b : list (string * Buffer)) :
  remove_error sv p = None -> stored_at p (Store.removed sv p b) = false.
Proof.
  intros H. unfold Store.removed, stored_at. rewrite H.
  apply not_true_is_false. intros Hex.
  apply existsb_exists in Hex as (o & Ho & Heq).
  apply filter_In in Ho as [_ Ho]. rewrite Heq in Ho. discriminate.
Qed.

(** X11: DELETE asks for the removal of the raw file before it deletes the
    rows, does not look at what the storage answers and does not put the
    file back: when the first row of the document carries a path and the
    store then refuses the deletion, the answer is 500 with the error of
    the store and every row is still in the table, while the object of
    that path is gone from the bucket if the storage carried the removal
    out, and still there if the storage refused it. *)
Theorem refused_delete_has_removed_file (sv : Services) (id p message : string)
    (w : World) :
  id <> "" ->
  found_file_path sv id w = Some p ->
  db_error sv (OpDelete id) = Some message ->
  let r := Documents.DELETE sv (Some id) w in
  r = (Return (json 500 (ErrorOnly message)),
       {| rows := rows w;
          bucket := Store.removed sv p (bucket w);
          log := log w ++ [EvSelect id; EvStorageRemove p; EvDelete id 0] |})
  /\ (remove_error sv p = None -> stored_at p (bucket (snd r)) = false)
  /\ (remove_error sv p <> None -> bucket (snd r) = bucket w).
Proof.
  intros Hid Hp Hdel r. subst r.
  rewrite (DELETE_general sv id w Hid), Hdel, Hp. cbn [snd bucket].
  split; [reflexivity|]. split.
  - apply stored_at_removed.
  - intros H. unfold Store.removed.
    destruct (remove_error sv p); [reflexivity|congruence].
Qed.

Lemma refused_delete_has_removed_file_witness :
  let r := Documents.DELETE delete_refused (Some "doc-3") three_stored in
  let r' := Documents.DELETE nothing_removed (Some "doc-3") three_stored in
  stored_at "doc-3.txt" (bucket three_stored) = true
  /\ fst r = Return (json 500 (ErrorOnly "permission denied"))
  /\ List.length (rows (snd r)) = 3
  /\ stored_at "doc-3.txt" (bucket (snd r)) = false
  /\ bucket (snd r') = bucket three_stored.
Proof.
  destruct (refused_delete_has_removed_file delete_refused "doc-3" "doc-3.txt"
              "permission denied" three_stored) as (H & Hgone & _);
    [discriminate|reflexivity|reflexivity|].
  destruct (refused_delete_has_removed_file nothing_removed "doc-3"
              "doc-3.txt" "permission denied" three_stored) as (_ & _ & Hkept);
    [discriminate|reflexivity|reflexivity|].
  cbv zeta in *. split; [reflexivity|]. rewrite H at 1 2.
  split; [reflexivity|]. split; [reflexivity|].
  split; [apply Hgone; reflexivity|apply Hkept; discriminate].
Defined.

(** ** The download branch *)


(** *** Header values *)






Lemma filter_out_absent (path : string) (b : list (string * Buffer))
    (data : Buffer) :
  stored_at path b = false ->
  filter (fun o => negb (String.eqb (fst o) path)) (b ++ [(path, data)]) = b.
Proof.
  unfold stored_at. induction b as [|o b IH]; cbn.
  - now rewrite String.eqb_refl.
  - intros H. apply orb_false_elim in H as [Ho Hb]. rewrite Ho. cbn.
    now rewrite IH.
Qed.

Lemma filter_has_not' (id : string) (t : list Row) :
  filter (fun r => negb (Store.has_document_id id r))
    (filter (Store.has_document_id id) t) = [].
Proof.
  induction t as [|r t IH]; cbn; [reflexivity|].
  destruct (Store.has_document_id id r) eqn:E; cbn; [|exact IH].
  now rewrite E.
Qed.

(** ** Upload, then read or delete *)

Section RoundTrip.

Variables (sv : Services) (file : File) (documentId uploadDate text : string).
Variable w : World.

#[local] Abbreviation the_path := (Upload.file_path_of documentId file).
#[local] Abbreviation chunks := (splitText sv text).
#[local] Abbreviation the_rows :=
  (stored_rows sv file documentId uploadDate (List.length chunks) chunks 0).

Hypothesis id_not_empty : documentId <> "".
Hypothesis id_fresh : filter (Store.has_document_id documentId) (rows w) = [].
Hypothesis upload_ok : upload_error sv the_path (bytes file) = None.
Hypothesis extracted : extraction sv file = Return text.
Hypothesis not_blank : Js.blank text = false.
Hypothesis embedded :
  forall x, In x chunks -> ExnM.returns (embeddings sv x) = true.
Hypothesis inserted : forall r, db_error sv (OpInsert r) = None.
Hypothesis some_chunk : chunks <> [].

(** The world after the upload. *)
Lemma POST_complete :
  exists calls,
    Upload.POST sv documentId uploadDate (Some file) w
    = (Return (json 200
                 (Uploaded documentId (name file) (List.length chunks)
                    (String.length text) (publicUrl sv the_path))),
       {| rows := rows w ++ the_rows;
          bucket := bucket w ++ [(the_path, bytes file)];
          log := log w ++ calls |}).
Proof.
  eexists.
  rewrite (POST_chunks sv file documentId uploadDate text w upload_ok
             extracted not_blank).
  rewrite loop_completes; auto.
  unfold before_loop, after_extraction, logged. cbn [rows bucket log].
  rewrite <- !app_assoc. reflexivity.
Qed.

Lemma path_not_empty : the_path <> "".
Proof.
  unfold Upload.file_path_of. destruct documentId; [congruence|discriminate].
Qed.

Lemma rows_of_document (calls : list Event) (b : list (string * Buffer)) :
  filter (Store.has_document_id documentId)
    (rows {| rows := rows w ++ the_rows; bucket := b; log := calls |})
  = the_rows.
Proof.
  cbn [rows]. rewrite filter_app, id_fresh, stored_rows_all_match. reflexivity.
Qed.

Lemma first_row :
  exists c more,
    chunks = c :: more
    /\ the_rows
       = stored_row sv file documentId uploadDate (List.length chunks) 0 c
         :: stored_rows sv file documentId uploadDate (List.length chunks)
              more 1.
Proof.
  destruct chunks as [|c more] eqn:E; [now destruct some_chunk|].
  now exists c, more.
Qed.

Lemma found_path_after_upload (calls : list Event)
    (b : list (string * Buffer)) :
  db_error sv (OpSelect documentId) = None ->
  found_file_path sv documentId
    {| rows := rows w ++ the_rows; bucket := b; log := calls |}
  = Some the_path.
Proof.
  intros Hsel. unfold found_file_path. rewrite Hsel, rows_of_document.
  destruct first_row as (c & more & _ & ->).
  unfold Documents.first_file_path. cbn.
  destruct (String.eqb_spec the_path ""); [|reflexivity].
  now destruct path_not_empty.
Qed.

(** X12: upload, then GET.  For a document of one to ten chunks, uploaded
    with success under an id that no row carried, GET answers 200 with the
    chunks of the chunker, in order, joined by blank lines as [fullText],
    their number as [total_chunks], and the name, type, size, date, URL and
    path of the upload (the name and the type replaced by Unknown and
    unknown when empty). *)
Theorem upload_then_get_returns_text (now : string) :
  List.length chunks <= 10 ->
  db_error sv (OpSelect documentId) = None ->
  fst (Documents.GET sv now documentId
         (snd (Upload.POST sv documentId uploadDate (Some file) w)))
  = Return
      (json 200
         (Document documentId
            (Js.or_else (name file) "Unknown")
            (Js.or_else
               (Js.or_else (type file) (Js.after_last_dot (name file)))
               "unknown")
            (size file)
            (Js.or_else uploadDate now)
            (List.length chunks)
            (Js.join (nl ++ nl) chunks)
            (publicUrl sv the_path)
            (Some the_path))).
Proof.
  intros Hten Hsel. destruct POST_complete as [calls ->]. cbn [snd].
  unfold Documents.GET, try_catch, Store.select_ordered, bind, emit, ret.
  cbn -[Js.join nl Store.getByDocumentId]. rewrite Hsel.
  cbn -[Js.join nl Store.getByDocumentId].
  destruct (up_to_ten_chunks_in_order sv file documentId uploadDate
              (List.length chunks) chunks (rows w ++ the_rows) Hten)
    as [Hget _].
  { apply (rows_of_document [] []). }
  rewrite Hget.
  destruct first_row as (c & more & Hc & ->).
  cbn -[Js.join nl].
  rewrite stored_rows_contents.
  rewrite <- (length_map content), stored_rows_contents.
  rewrite Hc. reflexivity.
Qed.


(** X14: upload, then DELETE.  After such an upload, to a path that held
    no object, a DELETE that the store carries out answers success with
    [fileDeleted] true and leaves the table as it was before the upload;
    the bucket too is as it was before the upload if the storage carried
    the removal out, and if the storage refused it the file is still there,
    under the same answer. *)
Theorem upload_then_delete_restores :
  db_error sv (OpSelect documentId) = None ->
  db_error sv (OpDelete documentId) = None ->
  stored_at the_path (bucket w) = false ->
  let w1 := snd (Upload.POST sv documentId uploadDate (Some file) w) in
  let r := Documents.DELETE sv (Some documentId) w1 in
  fst r = Return (json 200 (Deleted true))
  /\ rows (snd r) = rows w
  /\ (remove_error sv the_path = None -> bucket (snd r) = bucket w)
  /\ (remove_error sv the_path <> None ->
      bucket (snd r) = (bucket w ++ [(the_path, bytes file)])%list).
Proof.
  intros Hsel Hdel Hnew w1 r. subst r w1.
  destruct POST_complete as [calls ->]. cbn [snd].
  rewrite DELETE_run by assumption.
  rewrite found_path_after_upload by assumption.
  cbn [fst snd rows bucket]. split; [reflexivity|]. split; [|split].
  - unfold Store.deleteByDocumentId. cbn [snd].
    rewrite filter_app, (filter_not_absent _ _ id_fresh).
    assert (H : filter (fun r => negb (Store.has_document_id documentId r))
                  the_rows = []).
    { rewrite <- (stored_rows_all_match sv file documentId uploadDate
                    (List.length chunks) chunks 0).
      apply filter_has_not'. }
    rewrite H. apply app_nil_r.
  - intros Hrm. unfold Store.removed. rewrite Hrm.
    now apply filter_out_absent.
  - intros Hrm. unfold Store.removed.
    destruct (remove_error sv the_path); [reflexivity|congruence].
Qed.

(** X17: upload, then list.  After such an upload, the list of the
    documents is the list of before followed by one new entry for the
    document, with the name and the type of the file (Unknown and unknown
    when empty), its size, the date, URL and path of the upload, and the
    number of chunks as [total_chunks]. *)
Theorem upload_then_listed_last (now : string) :
  DocumentsRoute.deduplicate now []
    (rows (snd (Upload.POST sv documentId uploadDate (Some file) w)))
  = (DocumentsRoute.deduplicate now [] (rows w)
     ++ [ {| DocumentsRoute.id := documentId;
             DocumentsRoute.s_file_name := Js.or_else (name file) "Unknown";
             DocumentsRoute.s_file_type :=
               Js.or_else
                 (Js.or_else (type file) (Js.after_last_dot (name file)))
                 "unknown";
             DocumentsRoute.s_file_size := size file;
             DocumentsRoute.s_upload_date := Js.or_else uploadDate now;
             DocumentsRoute.s_total_chunks := List.length chunks;
             DocumentsRoute.s_file_url := publicUrl sv the_path;
             DocumentsRoute.s_file_path := Some the_path |} ])%list.
Proof.
  destruct POST_complete as [calls ->]. cbn [snd rows].
  pose proof (stored_rows_document_id sv file documentId uploadDate
                (List.length chunks) chunks 0) as Hall.
  destruct first_row as (c & more & _ & Hrows).
  rewrite Hrows in Hall |- *.
  rewrite (deduplicate_app_new now (rows w) [] documentId); auto.
  eapply Forall_impl; [|exact Hall]. now intros a (Ha & _).
Qed.

End RoundTrip.

Lemma upload_then_get_returns_text_witness :
  fst (Documents.GET Sample.small_chunks "2024-01-02T00:00:00.000Z" "doc-3"
         three_stored)
  = Return
      (json 200
         (Document "doc-3" "three.txt" "text/plain" 12
            "2024-01-01T00:00:00.000Z" 3
            (Js.join (nl ++ nl) ["aaaa"; "bbbb"; "cccc"])
            "https://bucket.example/doc-3.txt" (Some "doc-3.txt"))).
Proof.
  apply (upload_then_get_returns_text Sample.small_chunks three "doc-3"
           "2024-01-01T00:00:00.000Z" "aaaabbbbcccc" fresh);
    try reflexivity; try discriminate; try (intros; reflexivity).
  cbn. lia.
Defined.


Lemma upload_then_delete_restores_witness :
  let r := Documents.DELETE Sample.small_chunks (Some "doc-3") three_stored in
  let r' := Documents.DELETE removal_refused (Some "doc-3") three_stored in
  (fst r = Return (json 200 (Deleted true))
   /\ rows (snd r) = [] /\ bucket (snd r) = [])
  /\ (fst r' = Return (json 200 (Deleted true))
      /\ rows (snd r') = []
      /\ bucket (snd r') = [("doc-3.txt", "aaaabbbbcccc")]).
Proof.
  cbv zeta. split.
  - destruct (upload_then_delete_restores Sample.small_chunks three "doc-3"
                "2024-01-01T00:00:00.000Z" "aaaabbbbcccc" fresh)
      as (H1 & H2 & H3 & _);
      [discriminate
      |vm_compute; reflexivity
      |vm_compute; reflexivity
      |vm_compute; reflexivity
      |vm_compute; reflexivity
      |intros x Hx; vm_compute; reflexivity
      |intros r; vm_compute; reflexivity
      |vm_compute; discriminate
      |vm_compute; reflexivity
      |vm_compute; reflexivity
      |vm_compute; reflexivity
      |].
    vm_compute in H1, H2, H3. vm_compute.
    split; [exact H1|]. split; [exact H2|]. apply H3. reflexivity.
  - destruct (upload_then_delete_restores removal_refused three "doc-3"
                "2024-01-01T00:00:00.000Z" "aaaabbbbcccc" fresh)
      as (H1 & H2 & _ & H4);
      [discriminate
      |vm_compute; reflexivity
      |vm_compute; reflexivity
      |vm_compute; reflexivity
      |vm_compute; reflexivity
      |intros x Hx; vm_compute; reflexivity
      |intros r; vm_compute; reflexivity
      |vm_compute; discriminate
      |vm_compute; reflexivity
      |vm_compute; reflexivity
      |vm_compute; reflexivity
      |].
    vm_compute in H1, H2, H4. vm_compute.
    split; [exact H1|]. split; [exact H2|]. apply H4. discriminate.
Defined.

Lemma upload_then_listed_last_witness :
  listed "2024-01-02T00:00:00.000Z" three_stored = ["doc-3"]
  /\ listed "2024-01-02T00:00:00.000Z" two_documents = ["doc-3"; "doc-11"].
Proof.
  split; [reflexivity|].
  unfold listed, two_documents.
  rewrite (upload_then_listed_last Sample.small_chunks Sample.eleven "doc-11"
             "2024-01-01T00:00:00.000Z"
             "aaaabbbbccccddddeeeeffffgggghhhhiiiijjjjkkkk" three_stored);
    try reflexivity; try discriminate; try (intros; reflexivity).
Defined.

(** ** GET never writes *)

Lemma GET_document_run (sv : Services) (now id : string) (w : World) :
  Documents.GET sv now id w
  = (Return
       match db_error sv (OpSelect id), Store.getByDocumentId id (rows w) with
       | None, first :: more =>
           json 200
             (Document id
                (Js.or_else (file_name (metadata first)) "Unknown")
                (Js.or_else (file_type (metadata first)) "unknown")
                (file_size (metadata first))
                (Js.or_else (upload_date (metadata first)) now)
                (List.length (first :: more))
                (Js.join (nl ++ nl) (map content (first :: more)))
                (file_url (metadata first))
                (file_path (metadata first)))
       | _, _ => json 404 (ErrorOnly "Document not found")
       end,
     logged [EvSelect id] w).
Proof.
  unfold Documents.GET, try_catch, Store.select_ordered, bind, emit, ret.
  cbn -[Js.join nl Store.getByDocumentId].
  destruct (db_error sv (OpSelect id)); cbn -[Js.join nl Store.getByDocumentId];
    [reflexivity|].
  destruct (Store.getByDocumentId id (rows w)); reflexivity.
Qed.

Lemma GET_file_world (sv : Services) (rd : DocumentsRoute.Reads)
    (id : string) (view : bool) (w : World) :
  exists outcome,
    DocumentsRoute.GET_file sv rd id view w
    = (outcome, logged [EvSelect id] w).
Proof.
  unfold DocumentsRoute.GET_file, Store.select_first, DocumentsRoute.download,
    bind, emit, ret, lift.
  cbn -[Js.number_to_text Js.endsWith Js.toLowerCase String.append firstn
        DocumentsRoute.header].
  destruct (db_error sv (OpSelect id));
    cbn -[Js.number_to_text Js.endsWith Js.toLowerCase String.append firstn
          DocumentsRoute.header];
    [eexists; reflexivity|].
  destruct (firstn 1 (filter (Store.has_document_id id) (rows w)))
    as [|d l];
    cbn -[Js.number_to_text Js.endsWith Js.toLowerCase String.append
          DocumentsRoute.header];
    [eexists; reflexivity|].
  match goal with
  | |- context [DocumentsRoute.download_error rd ?p] =>
      destruct (DocumentsRoute.download_error rd p);
      cbn -[Js.number_to_text Js.endsWith Js.toLowerCase String.append
            DocumentsRoute.header];
      [eexists; reflexivity|];
      destruct (find (fun o => String.eqb (fst o) p) (bucket w)) as [o|];
      cbn -[Js.number_to_text Js.endsWith Js.toLowerCase String.append
            DocumentsRoute.header];
      [|eexists; reflexivity]
  end.
  destruct (String.length (snd o) =? 0)%nat; [eexists; reflexivity|].
  match goal with
  | |- context [DocumentsRoute.header rd "Content-Type" ?v] =>
      destruct (DocumentsRoute.header rd "Content-Type" v);
      [|eexists; reflexivity]
  end.
  match goal with
  | |- context [DocumentsRoute.header rd "Content-Disposition" ?v] =>
      destruct (DocumentsRoute.header rd "Content-Disposition" v)
  end; eexists; reflexivity.
Qed.

(** X18: GET always answers and never writes, in any of its three
    branches and whatever the store and the storage answer: the table and
    the bucket are as they were, and the only call it logs is at most one
    select for the id. *)
Theorem GET_never_writes (sv : Services) (rd : DocumentsRoute.Reads)
    (now : string) (id : option string) (file view : bool) (w : World) :
  exists reply calls,
    DocumentsRoute.GET sv rd now id file view w
    = (Return reply,
       {| rows := rows w; bucket := bucket w; log := log w ++ calls |})
    /\ (calls = [] \/ exists i, id = Some i /\ calls = [EvSelect i]).
Proof.
  assert (Hlist : id = None \/ id = Some "" ->
    exists reply calls,
      DocumentsRoute.GET sv rd now id file view w
      = (Return reply,
         {| rows := rows w; bucket := bucket w; log := log w ++ calls |})
      /\ (calls = [] \/ exists i, id = Some i /\ calls = [EvSelect i])).
  { intros H. rewrite (GET_list_run sv rd now id file view w H).
    eexists. exists []. rewrite app_nil_r.
    split; [|now left]. destruct w. reflexivity. }
  destruct id as [i|]; [|now apply Hlist; left].
  destruct (String.eqb_spec i "") as [->|Hi]; [now apply Hlist; right|].
  unfold DocumentsRoute.GET, try_catch.
  apply String.eqb_neq in Hi. rewrite Hi.
  destruct file.
  - destruct (GET_file_world sv rd i view w) as [[reply|message] ->];
      eexists; exists [EvSelect i]; (split; [reflexivity|]); right;
      now exists i.
  - unfold bind. rewrite GET_document_run. unfold ret.
    eexists. exists [EvSelect i]. split; [reflexivity|]. right. now exists i.
Qed.

(** ** The chat route: failures and what it never does *)

(** X19: the chat route stops at the first service that fails and answers
    500 with the message of that service: after the embedding alone when
    the embedding throws, after the embedding and the search when the
    search gives an error (the generation service is not called), and
    after all three when the completion throws. *)
Theorem chat_stops_at_first_failure (sv : Services) (query : string)
    (w : World) :
  (forall message,
     embeddings sv query = Throw message ->
     Chat.POST sv query w
     = (Return (json 500 (ErrorOnly message)), logged [EvEmbed query] w))
  /\ (forall e message,
        embeddings sv query = Return e ->
        db_error sv (OpMatch e Chat.MATCH_COUNT) = Some message ->
        Chat.POST sv query w
        = (Return (json 500 (ErrorOnly message)),
           logged [EvEmbed query; EvMatch e Chat.MATCH_COUNT] w))
  /\ (forall e message,
        embeddings sv query = Return e ->
        db_error sv (OpMatch e Chat.MATCH_COUNT) = None ->
        let userMessage :=
          "Context: "
          ++ Js.join (nl ++ "---" ++ nl)
               (map content
                  (match_documents sv (rows w) e Chat.MATCH_COUNT))
          ++ nl ++ nl ++ "Question: " ++ query in
        completions sv Chat.system_message userMessage = Throw message ->
        Chat.POST sv query w
        = (Return (json 500 (ErrorOnly message)),
           logged [EvEmbed query; EvMatch e Chat.MATCH_COUNT;
                   EvCompletion userMessage] w)).
Proof.
  split; [|split].
  - intros message He.
    unfold Chat.POST, try_catch, bind, emit, ret, lift, logged.
    cbn. now rewrite He.
  - intros e message He Hdb.
    unfold Chat.POST, Chat.rpc_match, try_catch, bind, emit, ret, lift, logged.
    cbn. rewrite He. cbn. rewrite Hdb. cbn. now rewrite <- !app_assoc.
  - intros e message He Hdb userMessage Hc.
    unfold Chat.POST, Chat.rpc_match, try_catch, bind, emit, ret, lift, logged.
    subst userMessage.
    cbn in Hc |- *. rewrite He. cbn. rewrite Hdb. cbn. rewrite Hc. cbn.
    now rewrite <- !app_assoc.
Qed.

Lemma chat_stops_at_first_failure_witness :
  Chat.POST embedding_down "What is RAG?" three_stored
  = (Return (json 500 (ErrorOnly "Connection error.")),
     logged [EvEmbed "What is RAG?"] three_stored)
  /\ Chat.POST search_down "What is RAG?" three_stored
     = (Return (json 500 (ErrorOnly "function match_documents does not exist")),
        logged [EvEmbed "What is RAG?"; EvMatch "[0.5]" 5] three_stored).
Proof.
  destruct (chat_stops_at_first_failure embedding_down "What is RAG?"
              three_stored) as (H1 & _).
  destruct (chat_stops_at_first_failure search_down "What is RAG?"
              three_stored) as (_ & H2 & _).
  split.
  - apply H1. reflexivity.
  - apply (H2 "[0.5]"); reflexivity.
Defined.

(** X20: the chat route always answers, with status 200 or 500, and never
    writes: whatever the query and the services, the table and the bucket
    are as they were, and its calls begin with the embedding of the
    query. *)
Theorem chat_answers_and_never_writes (sv : Services) (query : string)
    (w : World) :
  exists response more,
    Chat.POST sv query w
    = (Return response,
       {| rows := rows w; bucket := bucket w;
          log := log w ++ EvEmbed query :: more |})
    /\ (status response = 200 \/ status response = 500).
Proof.
  unfold Chat.POST, Chat.rpc_match, try_catch, bind, emit, ret, lift.
  cbn.
  destruct (embeddings sv query) as [e|msg]; cbn.
  - destruct (db_error sv (OpMatch e Chat.MATCH_COUNT)); cbn.
    + eexists. eexists. rewrite <- app_assoc. split; [reflexivity|]. now right.
    + match goal with
      | |- context [completions sv ?s ?u] => destruct (completions sv s u)
      end; cbn; eexists; eexists; rewrite <- !app_assoc;
        (split; [reflexivity|]); cbn; auto.
  - eexists. eexists. split; [reflexivity|]. now right.
Qed.

(** ** The viewer *)

(** X21: once [fetchDocumentText] has run for a document id, whatever the
    request gave, the viewer is no longer loading and the condition of the
    effect that fetches the text is false, so that the text is fetched
    once: either an error with a message is shown or a text that is not
    empty, the placeholder when the document has none.  The one exception
    is a request that throws an error with an empty message. *)
Theorem viewer_fetches_once (isOpen : bool) (documentId : option string)
    (fetched : Exn Body) (s : PDFViewerModal.State) :
  PDFViewerModal.truthy documentId = true ->
  fetched <> Throw "" ->
  let s' := PDFViewerModal.fetchDocumentText documentId fetched s in
  PDFViewerModal.textLoading s' = false
  /\ PDFViewerModal.should_fetch isOpen documentId s' = false
  /\ (PDFViewerModal.truthy (PDFViewerModal.textError s') = true
      \/ (PDFViewerModal.textError s' = None
          /\ PDFViewerModal.text s' <> "")).
Proof.
  intros Hid Hfetched s'. subst s'.
  unfold PDFViewerModal.fetchDocumentText, PDFViewerModal.should_fetch.
  rewrite Hid.
  destruct fetched as [data|message].
  - destruct (PDFViewerModal.truthy (PDFViewerModal.data_error data)) eqn:E;
      cbn.
    + rewrite E. cbn. rewrite !andb_false_r. auto.
    + assert (Hne : match PDFViewerModal.data_fullText data with
                    | Some t => Js.or_else t PDFViewerModal.no_text
                    | None => PDFViewerModal.no_text
                    end <> "").
      { destruct (PDFViewerModal.data_fullText data) as [t|]; [|discriminate].
        unfold Js.or_else. destruct (String.eqb_spec t ""); [discriminate|].
        assumption. }
      apply String.eqb_neq in Hne as Hne'. rewrite Hne'.
      rewrite !andb_false_r. cbn. auto.
  - cbn. assert (Hm : message <> "") by congruence.
    apply String.eqb_neq in Hm. rewrite Hm. cbn. rewrite !andb_false_r. auto.
Qed.

Lemma viewer_fetches_once_witness :
  let s' := PDFViewerModal.fetchDocumentText (Some "doc-3")
              (PDFViewerModal.body_of
                 (Documents.GET Sample.services "2024-01-02T00:00:00.000Z"
                    "doc-3" three_stored))
              closed_viewer in
  PDFViewerModal.should_fetch true (Some "doc-3") closed_viewer = true
  /\ PDFViewerModal.should_fetch true (Some "doc-3") s' = false
  /\ PDFViewerModal.text s' = Js.join (nl ++ nl) ["aaaa"; "bbbb"; "cccc"].
Proof.
  cbv zeta. split; [reflexivity|]. split; [|reflexivity].
  apply (viewer_fetches_once true (Some "doc-3")); [reflexivity|].
  vm_compute. discriminate.
Defined.

(** The request that throws an error without a message leaves the viewer
    ready to fetch again. *)
Example viewer_fetches_again_after_silent_error :
  PDFViewerModal.should_fetch true (Some "doc-3")
    (PDFViewerModal.fetchDocumentText (Some "doc-3") (Throw "") closed_viewer)
  = true.
Proof. reflexivity. Qed.

(** X22: what the viewer shows is what GET found.  After the fetch of the
    text of a document id from the documents route, the viewer shows the
    error document-not-found, and keeps its text, when the select fails or
    no row carries the id; otherwise it shows no error and, as text, the
    contents of the rows of the document in the order of the select,
    joined by blank lines, or the placeholder when that is empty. *)
Theorem viewer_shows_what_GET_found (sv : Services) (now id : string)
    (w : World) (s : PDFViewerModal.State) :
  id <> "" ->
  let s' := PDFViewerModal.fetchDocumentText (Some id)
              (PDFViewerModal.body_of (Documents.GET sv now id w)) s in
  (db_error sv (OpSelect id) <> None
   \/ filter (Store.has_document_id id) (rows w) = [] ->
   PDFViewerModal.textError s' = Some "Document not found"
   /\ PDFViewerModal.text s' = PDFViewerModal.text s)
  /\ (db_error sv (OpSelect id) = None ->
      filter (Store.has_document_id id) (rows w) <> [] ->
      PDFViewerModal.textError s' = None
      /\ PDFViewerModal.text s'
         = Js.or_else
             (Js.join (nl ++ nl)
                (map content (Store.getByDocumentId id (rows w))))
             PDFViewerModal.no_text).
Proof.
  intros Hid s'. subst s'.
  unfold PDFViewerModal.body_of. rewrite GET_document_run. cbn [fst].
  assert (Ht : PDFViewerModal.truthy (Some id) = true).
  { apply String.eqb_neq in Hid. cbn. now rewrite Hid. }
  unfold PDFViewerModal.fetchDocumentText. rewrite Ht.
  pose proof (getByDocumentId_length id (rows w)) as Hlen.
  destruct (db_error sv (OpSelect id)) as [e|].
  - split; [intros _; now split|congruence].
  - destruct (Store.getByDocumentId id (rows w)) as [|first more].
    + split; [intros _; now split|].
      intros _ Hne.
      destruct (filter (Store.has_document_id id) (rows w));
        [congruence|discriminate].
    + split.
      * intros [H|H]; [congruence|]. rewrite H in Hlen. discriminate.
      * intros _ _. now split.
Qed.

Lemma viewer_shows_what_GET_found_witness :
  PDFViewerModal.textError
    (PDFViewerModal.fetchDocumentText (Some "doc-4")
       (PDFViewerModal.body_of
          (Documents.GET Sample.services "2024-01-02T00:00:00.000Z" "doc-4"
             three_stored))
       closed_viewer)
  = Some "Document not found".
Proof.
  destruct (viewer_shows_what_GET_found Sample.services
              "2024-01-02T00:00:00.000Z" "doc-4" three_stored closed_viewer)
    as [H _]; [discriminate|].
  apply H. right. reflexivity.
Defined.

(** ** The text of a PDF *)

Lemma append_assoc (a b c : string) : (a ++ b) ++ c = a ++ b ++ c.
Proof. induction a as [|x a IH]; cbn; [reflexivity|]. now rewrite IH. Qed.

Lemma append_empty_r (a : string) : a ++ "" = a.
Proof. induction a as [|x a IH]; cbn; [reflexivity|]. now rewrite IH. Qed.

Lemma safeDecodeURIComponent_decoded (sv : Services) (s : string) :
  Upload.safeDecodeURIComponent sv s = Return (decoded sv s).
Proof.
  unfold decoded. pose proof (safeDecodeURIComponent_returns sv s) as H.
  destruct (Upload.safeDecodeURIComponent sv s); [reflexivity|discriminate].
Qed.

Lemma run_texts_app (sv : Services) (a b : list Run) :
  run_texts sv (a ++ b) = run_texts sv a ++ run_texts sv b.
Proof.
  induction a as [|r a IH]; cbn; [reflexivity|].
  destruct (String.eqb (T r) ""); [exact IH|].
  now rewrite IH, !append_assoc.
Qed.

Lemma append_runs_run_texts (sv : Services) (rs : list Run) (acc : string) :
  Upload.append_runs sv acc rs = Return (acc ++ run_texts sv rs).
Proof.
  revert acc. induction rs as [|r rs IH]; intros acc; cbn.
  - now rewrite append_empty_r.
  - destruct (String.eqb (T r) ""); [apply IH|].
    rewrite safeDecodeURIComponent_decoded. cbn [ExnM.bind].
    rewrite IH. now rewrite !append_assoc.
Qed.

Lemma append_texts_run_texts (sv : Services) (ts : list TextItem)
    (acc : string) :
  Upload.append_texts sv acc ts = Return (acc ++ run_texts sv (flat_map R ts)).
Proof.
  revert acc. induction ts as [|t ts IH]; intros acc; cbn.
  - now rewrite append_empty_r.
  - rewrite append_runs_run_texts. cbn [ExnM.bind].
    now rewrite IH, run_texts_app, append_assoc.
Qed.

Lemma append_pages_run_texts (sv : Services) (ps : list Page) (acc : string) :
  Upload.append_pages sv acc ps
  = Return (acc ++ run_texts sv
                     (flat_map (fun p => flat_map R (Texts p)) ps)).
Proof.
  revert acc. induction ps as [|p ps IH]; intros acc; cbn.
  - now rewrite append_empty_r.
  - rewrite append_texts_run_texts. cbn [ExnM.bind].
    now rewrite IH, run_texts_app, append_assoc.
Qed.

(** X23: once the parser has read a PDF, its text is never an error: it is
    the decoded texts of the runs that have one, in reading order (page
    after page, text after text, run after run), each followed by one
    space, the whole trimmed.  The extraction of a PDF fails in two ways
    only: when the parser reports an error, with that error after the words
    Error parsing PDF, and when loading, building or starting the parser
    throws, with the message thrown, as it is. *)
Theorem pdf_text_in_reading_order (sv : Services) (file : File) :
  Js.endsWith (Js.toLowerCase (name file)) ".pdf" = true ->
  extraction sv file
  = match pdf2json sv (bytes file) with
    | DataReady d => Return (Js.trim (run_texts sv (all_runs d)))
    | DataError parserError => Throw ("Error parsing PDF: " ++ parserError)
    | Thrown message => Throw message
    end.
Proof.
  intros Hpdf. rewrite extraction_pdf by assumption.
  destruct (pdf2json sv (bytes file)) as [e|d|m]; [reflexivity| |reflexivity].
  unfold Upload.pdf_text, all_runs.
  now rewrite append_pages_run_texts.
Qed.

Lemma pdf_text_in_reading_order_witness :
  extraction Sample.decoding scanned = Return "Rate: 100% of total"
  /\ map T (all_runs two_pages) = ["Rate%3A"; ""; "100%"; "of%20total"]
  /\ extraction parser_throws scanned = Throw "Invalid XRef stream header".
Proof.
  split; [|split; [reflexivity|]].
  - rewrite (pdf_text_in_reading_order Sample.decoding scanned); reflexivity.
  - rewrite (pdf_text_in_reading_order parser_throws scanned); reflexivity.
Defined.

(** ** DELETE: what every run keeps *)

#[local] Arguments Documents.first_file_path : simpl never.

(** X24: DELETE always answers, with 400 exactly when the id is missing or
    empty and with 200 or 500 otherwise, and it only removes: every row and
    every object that is there afterwards was there before. *)
Theorem DELETE_answers_and_only_removes (sv : Services) (id : option string)
    (w : World) :
  exists response,
    fst (Documents.DELETE sv id w) = Return response
    /\ ((id = None \/ id = Some "") /\ status response = 400
        \/ (exists i, id = Some i /\ i <> "")
           /\ (status response = 200 \/ status response = 500))
    /\ incl (rows (snd (Documents.DELETE sv id w))) (rows w)
    /\ incl (bucket (snd (Documents.DELETE sv id w))) (bucket w).
Proof.
  destruct id as [i|].
  - destruct (String.eqb_spec i "") as [->|Hi].
    + eexists. split; [reflexivity|]. split; [left; auto|].
      split; apply incl_refl.
    + rewrite (DELETE_general sv i w Hi). cbn [fst snd rows bucket].
      eexists. split; [reflexivity|]. split; [|split].
      * right. split; [now exists i|].
        destruct (db_error sv (OpDelete i)); cbn; auto.
      * destruct (db_error sv (OpDelete i)); [apply incl_refl|].
        unfold Store.deleteByDocumentId. cbn [snd]. apply incl_filter.
      * destruct (found_file_path sv i w) as [p|]; [|apply incl_refl].
        unfold Store.removed.
        destruct (remove_error sv p); [apply incl_refl|apply incl_filter].
  - eexists. split; [reflexivity|]. split; [left; auto|].
    split; apply incl_refl.
Qed.

(** ** A refused DELETE, seen from GET *)

Lemma find_filtered_out (p : string) (b : list (string * Buffer)) :
  find (fun o => String.eqb (fst o) p)
    (filter (fun o => negb (String.eqb (fst o) p)) b) = None.
Proof.
  induction b as [|o b IH]; cbn; [reflexivity|].
  destruct (String.eqb (fst o) p) eqn:E; cbn; [exact IH|].
  now rewrite E.
Qed.

(** X25: after a DELETE whose removal of the raw file the storage has
    carried out and whose deletion of the rows the store refused, the
    document is still served as text (GET answers 200) while its file is
    gone: the download branch answers 404, with the error of the storage or
    with the words File not stored. *)
Theorem refused_delete_leaves_text_without_file (sv : Services)
    (rd : DocumentsRoute.Reads) (now id p message : string) (view : bool)
    (w : World) :
  id <> "" ->
  found_file_path sv id w = Some p ->
  remove_error sv p = None ->
  db_error sv (OpDelete id) = Some message ->
  let w' := snd (Documents.DELETE sv (Some id) w) in
  status_of (Documents.GET sv now id w') = Some 200
  /\ fst (DocumentsRoute.GET sv rd now (Some id) true view w')
     = Return (DocumentsRoute.Json
                 (json 404
                    (ErrorOnly
                       (Js.or_else
                          match DocumentsRoute.download_error rd p with
                          | Some e => e
                          | None => ""
                          end
                          "File not stored")))).
Proof.
  intros Hid Hp Hrem Hdel w'. subst w'.
  rewrite (DELETE_general sv id w Hid), Hdel, Hp. cbn [snd].
  unfold Store.removed. rewrite Hrem.
  pose proof Hp as Hfound. unfold found_file_path in Hfound.
  destruct (db_error sv (OpSelect id)) as [e|] eqn:Hsel;
    [discriminate|].
  destruct (filter (Store.has_document_id id) (rows w)) as [|d more] eqn:Hrows;
    [discriminate|].
  cbn [firstn] in Hfound.
  split.
  - unfold status_of. rewrite GET_document_run. cbn [fst rows].
    rewrite Hsel.
    pose proof (getByDocumentId_length id (rows w)) as Hlen.
    rewrite Hrows in Hlen.
    destruct (Store.getByDocumentId id (rows w)); [discriminate|reflexivity].
  - unfold DocumentsRoute.GET, try_catch.
    apply String.eqb_neq in Hid. rewrite Hid.
    unfold DocumentsRoute.GET_file, Store.select_first, bind, emit, ret.
    rewrite Hsel.
    cbn -[Js.number_to_text Js.endsWith Js.toLowerCase DocumentsRoute.download
          String.append DocumentsRoute.header].
    rewrite Hrows.
    cbn -[Js.number_to_text Js.endsWith Js.toLowerCase DocumentsRoute.download
          String.append DocumentsRoute.header].
    rewrite Hfound.
    unfold DocumentsRoute.download.
    destruct (DocumentsRoute.download_error rd p) as [e|]; [reflexivity|].
    cbn [bucket]. now rewrite find_filtered_out.
Qed.

Lemma refused_delete_leaves_text_without_file_witness :
  let w' := snd (Documents.DELETE delete_refused (Some "doc-3") three_stored) in
  status_of (Documents.GET delete_refused "2024-01-02T00:00:00.000Z" "doc-3" w')
  = Some 200
  /\ fst (DocumentsRoute.GET delete_refused reads "2024-01-02T00:00:00.000Z"
            (Some "doc-3") true false w')
     = Return (DocumentsRoute.Json (json 404 (ErrorOnly "File not stored"))).
Proof.
  apply (refused_delete_leaves_text_without_file delete_refused reads
           "2024-01-02T00:00:00.000Z" "doc-3" "doc-3.txt" "permission denied"
           false three_stored).
  - discriminate.
  - reflexivity.
  - reflexivity.
  - reflexivity.
Defined.
